(** * Investment tracker backend: the sheets service and the summary route

    A shallow embedding of [services/sheetsService.ts] and of the summary
    handler of [routes/index.ts], with the properties of the specification
    stated and settled over it.

    Conventions of the embedding.
    - A JavaScript number is an IEEE 754 binary64 value: Rocq's primitive
      [float], whose operations round exactly like the JavaScript ones.
    - A string is a sequence of one-byte code units.
    - A plain object used as a dictionary ([{} as Record<string, number>])
      is the finite map of its own properties together with the members it
      inherits from [Object.prototype]: a name the object does not own reads
      as the member of that name, and a number assigned to [__proto__] adds
      no property. The [Map] of the row cache is a finite map on its keys.
    - The spreadsheet is a finite map from range names to tables; a table is
      the list of its rows, the header first; a row is the list of its
      cells, each cell the text the store hands back when it is read
      (the store renders every value it returns as text). What the store
      hands back for a number written to it is a parameter of the service.
    - A method of the service is a function from the state of the world
      (spreadsheet, row cache, log of the calls made to the store) to an
      outcome and a new state; a thrown error is the outcome [Err]. The
      time, the random draws and the collation of the host are arguments. *)

From Stdlib Require Import Floats ZArith Ascii String List Lia Sorted Permutation.
From stdpp Require Import gmap strings list pretty.
Import ListNotations.

Local Open Scope string_scope.
Local Open Scope list_scope.

(** ** JavaScript values *)

Module JS.

(** [ToBoolean] of a number: [+0], [-0] and [NaN] are falsy. *)
Definition truthy (x : float) : bool :=
  negb (PrimFloat.is_zero x || PrimFloat.is_nan x).

(** [ToBoolean] of a string: the empty string is falsy. *)
Definition truthy_str (s : string) : bool :=
  match s with EmptyString => false | String _ _ => true end.

(** [x || 0] where [x] is a number or [undefined]. *)
Definition or_zero (x : option float) : float :=
  match x with
  | Some v => if truthy v then v else 0%float
  | None => 0%float
  end.

(** [s || ''] where [s] is a string or [undefined]. *)
Definition or_empty (s : option string) : string :=
  match s with
  | Some v => v
  | None => ""
  end.

(** [x !== undefined] *)
Definition defined {A} (x : option A) : bool :=
  match x with Some _ => true | None => false end.

(** [x || 0] where [x] is a number. *)
Definition num_or_zero (x : float) : float := or_zero (Some x).

(** [ToBoolean] of a cell of a row: [undefined] when the row is too short,
    a string otherwise. *)
Definition truthy_cell (x : option string) : bool :=
  match x with
  | Some s => truthy_str s
  | None => false
  end.

(** The sign bit of a zero: [true] exactly on [-0]. *)
Definition is_neg_zero (x : float) : bool :=
  match Prim2SF x with S754_zero true => true | _ => false end.

(** A number that [x || 0] would replace by another value. *)
Definition resets (x : float) : bool :=
  PrimFloat.is_nan x || is_neg_zero x.

(** *** [parseFloat]

    [parseFloat] skips leading white space, reads the longest prefix that
    is a [StrDecimalLiteral] and returns the number nearest to its value,
    or [NaN] when there is no such prefix. *)

Definition is_whitespace (c : ascii) : bool :=
  let n := nat_of_ascii c in
  ((9 <=? n) && (n <=? 13) || (n =? 32) || (n =? 160))%nat.

Fixpoint trim_start (s : string) : string :=
  match s with
  | String c rest => if is_whitespace c then trim_start rest else s
  | EmptyString => EmptyString
  end.

Definition digit_of (c : ascii) : option Z :=
  let n := nat_of_ascii c in
  if ((48 <=? n) && (n <=? 57))%nat then Some (Z.of_nat n - 48)%Z else None.

(** The longest run of decimal digits at the head of [s], read onto the
    digits already in [acc]: its value, its length and the text after it. *)
Fixpoint read_digits (s : string) (acc : Z) (count : Z) : Z * Z * string :=
  match s with
  | String c rest =>
      match digit_of c with
      | Some d => read_digits rest (10 * acc + d)%Z (count + 1)%Z
      | None => (acc, count, s)
      end
  | EmptyString => (acc, count, s)
  end.

(** [ExponentPart] at the head of [s], when there is one: its value. *)
Definition read_exponent (s : string) : Z :=
  match s with
  | String c rest =>
      if (Ascii.eqb c "e" || Ascii.eqb c "E")%bool then
        let '(negative, digits) :=
          match rest with
          | String "-" r => (true, r)
          | String "+" r => (false, r)
          | _ => (false, rest)
          end in
        let '(v, n, _) := read_digits digits 0 0 in
        if (n =? 0)%Z then 0%Z else if negative then (- v)%Z else v
      else 0%Z
  | EmptyString => 0%Z
  end.

Inductive literal : Type :=
| LitInfinity
| LitDecimal (mantissa : Z) (exponent : Z).

(** The longest prefix of [s] that is a [StrUnsignedDecimalLiteral]. *)
Definition unsigned_literal (s : string) : option literal :=
  if String.prefix "Infinity" s then Some LitInfinity
  else
    let '(i, ni, r1) := read_digits s 0 0 in
    match r1 with
    | String "." r2 =>
        let '(m, nf, r3) := read_digits r2 i 0 in
        if ((ni =? 0) && (nf =? 0))%Z then None
        else Some (LitDecimal m (read_exponent r3 - nf))
    | _ => if (ni =? 0)%Z then None else Some (LitDecimal i (read_exponent r1))
    end.

(** The longest prefix of [s] that is a [StrDecimalLiteral]: its sign and
    its unsigned part. *)
Definition decimal_literal (s : string) : option (bool * literal) :=
  match s with
  | String "-" r => option_map (pair true) (unsigned_literal r)
  | String "+" r => option_map (pair false) (unsigned_literal r)
  | _ => option_map (pair false) (unsigned_literal s)
  end.

(** The binary64 value nearest to [m * 10^e] ([m >= 0]), ties to even, with
    the sign [negative]. For [e < 0] the quotient is computed to 64 bits
    or more with a sticky last bit, which rounds as the exact value does. *)
Definition round_decimal (negative : bool) (m e : Z) : spec_float :=
  if (m =? 0)%Z then S754_zero negative
  else if (0 <=? e)%Z then
    binary_normalize prec emax (cond_Zopp negative (m * 10 ^ e)) 0 false
  else
    let d := (10 ^ (- e))%Z in
    let s := Z.max 0 (64 + Z.log2 d - Z.log2 m) in
    let n := Z.shiftl m s in
    let sticky := if (n mod d =? 0)%Z then 0%Z else 1%Z in
    binary_normalize prec emax (cond_Zopp negative (2 * (n / d) + sticky)) (- (s + 1)) false.

Definition literal_value (negative : bool) (l : literal) : float :=
  match l with
  | LitInfinity => if negative then neg_infinity else infinity
  | LitDecimal m e => SF2Prim (round_decimal negative m e)
  end.

(** [parseFloat(s)] for a string [s]. *)
Definition parseFloat_string (s : string) : float :=
  match decimal_literal (trim_start s) with
  | Some (negative, l) => literal_value negative l
  | None => nan
  end.

(** [parseFloat(x)] for a cell [x] of a row: [undefined] when the row is too
    short, a string otherwise. [String(undefined)] has no numeric prefix. *)
Definition parseFloat (x : option string) : float :=
  match x with
  | Some s => parseFloat_string s
  | None => nan
  end.

(** A cell [parseFloat] has no number for: one that is missing, or whose
    text, after its leading white space, does not begin with a decimal
    literal. *)
Definition non_numeric (x : option string) : bool :=
  match x with
  | Some s =>
      match decimal_literal (trim_start s) with
      | Some _ => false
      | None => true
      end
  | None => true
  end.

End JS.

(** ** Classes of binary64 values *)

Module SF.

(** A value that carries the sign [s]: it is no [NaN]. *)
Definition signed (s : bool) (x : spec_float) : Prop :=
  match x with
  | S754_zero s' | S754_infinity s' | S754_finite s' _ _ => s' = s
  | S754_nan => False
  end.

(** A value that is not negative: a zero of either sign, a positive number
    or [Infinity]. *)
Definition notNegative (x : spec_float) : Prop :=
  match x with
  | S754_zero _ | S754_infinity false | S754_finite false _ _ => True
  | _ => False
  end.

(** A value that is not negative and is not [-0]. *)
Definition plus (x : spec_float) : Prop :=
  match x with
  | S754_zero false | S754_infinity false | S754_finite false _ _ => True
  | _ => False
  end.

End SF.

(** ** Domain records ([types]) *)

Module Holding.
Record t : Type := mk {
  id : string;
  symbol : string;
  name : string;
  sector : string;
  qty : float;
  avg_price : float;
  current_price : float;
  value : float;
  rsi : option float;
  allocation_pct : float;
  notes : option string;
  updated_at : string
}.
End Holding.

Module IdealAllocation.
Record t : Type := mk {
  sector : string;
  target_pct : float
}.
End IdealAllocation.

Module MonthlyGrowth.
Record t : Type := mk {
  month : string;
  account : string;
  pnl : float
}.
End MonthlyGrowth.

Module Snapshot.
Record t : Type := mk {
  date : string;
  sector : string;
  actual_pct : float;
  target_pct : float;
  variance : float;
  total_value : float
}.
End Snapshot.

Module Summary.
Record t : Type := mk {
  total_invested : float;
  current_net_worth : float;
  unrealized_gain_loss : float;
  unrealized_pct : float;
  allocation_variance : gmap string float;
  monthly_trend : list MonthlyGrowth.t;
  ytd_growth : float
}.
End Summary.

(** ** Plain objects used as dictionaries

    The dictionaries of the service are objects made by [{}]: their
    prototype is [Object.prototype]. Reading [o[key]] gives the property of
    that name of [o] itself or, when [o] has none, the member of that name
    of the prototype; [o[key] = v] adds or replaces a property of [o], but
    for the name [__proto__], which is a setter of the prototype that
    ignores a value that is no object. *)

Module Obj.

Local Open Scope float_scope.

(** The names of the members of [Object.prototype]. *)
Definition members : list string :=
  [ "constructor"; "__defineGetter__"; "__defineSetter__"; "hasOwnProperty";
    "__lookupGetter__"; "__lookupSetter__"; "isPrototypeOf"; "propertyIsEnumerable";
    "toString"; "valueOf"; "__proto__"; "toLocaleString" ].

(** [key in Object.prototype] *)
Definition inherited (key : string) : bool := existsb (String.eqb key) members.

(** The values met in a dictionary of numbers: a number; a member of the
    prototype (a function, and for [__proto__] the prototype itself); the
    text that [+] makes of a member, or of such a text, and a number; and
    [undefined]. Such a text starts with the text of the member
    ([function ...] or [[object Object]]): it is not empty and it is not
    the text of a number. *)
Inductive value : Type :=
| Num (x : float)
| Text
| Member
| Undefined.

(** [o[key]] *)
Definition get (o : gmap string value) (key : string) : value :=
  match o !! key with
  | Some v => v
  | None => if inherited key then Member else Undefined
  end.

(** [o[key] = v], where [v] is a number or a text. *)
Definition set {V} (o : gmap string V) (key : string) (v : V) : gmap string V :=
  if String.eqb key "__proto__" then o else <[key := v]> o.

(** [v || 0]: a text that is not empty and an object are truthy. *)
Definition or_zero (v : value) : value :=
  match v with
  | Num x => Num (JS.num_or_zero x)
  | Text => Text
  | Member => Member
  | Undefined => Num 0
  end.

(** [v + y], where [y] is a number: the sum of two numbers, and the text of
    [v] followed by the text of [y] when [v] is a text or an object. *)
Definition add (v : value) (y : float) : value :=
  match v with
  | Num x => Num (x + y)
  | Text => Text
  | Member => Text
  | Undefined => Num nan
  end.

(** [ToNumber], which the division applies to its operands. *)
Definition toNumber (v : value) : float :=
  match v with
  | Num x => x
  | Text => nan
  | Member => nan
  | Undefined => nan
  end.

End Obj.

(** ** Aggregation: the computations of [createSnapshot] and of the summary
    handler, on lists already read from the store *)

Module Aggregation.

Local Open Scope float_scope.

(** [holdings.reduce((sum, h) => sum + h.value, 0)] *)
Definition totalValue (holdings : list Holding.t) : float :=
  fold_left (fun sum h => sum + Holding.value h) holdings 0.

(** [holdings.reduce((sum, h) => sum + (h.qty * h.avg_price), 0)] *)
Definition totalInvested (holdings : list Holding.t) : float :=
  fold_left (fun sum h => sum + Holding.qty h * Holding.avg_price h) holdings 0.

(** [holdings.reduce((acc, h) => { acc[h.sector] = (acc[h.sector] || 0) + h.value;
    return acc; }, {})] *)
Definition sectorTotals (holdings : list Holding.t) : gmap string Obj.value :=
  fold_left
    (fun acc h =>
       Obj.set acc (Holding.sector h)
         (Obj.add (Obj.or_zero (Obj.get acc (Holding.sector h))) (Holding.value h)))
    holdings ∅.

(** [const actualValue = sectorTotals[sector] || 0;
     totalValue > 0 ? (actualValue / totalValue) * 100 : 0] *)
Definition actualPct (totals : gmap string Obj.value) (total : float) (sector : string)
    : float :=
  let actualValue := Obj.or_zero (Obj.get totals sector) in
  if 0 <? total then Obj.toNumber actualValue / total * 100 else 0.

(** [split('T')[0]]: the text before the first ['T']. *)
Fixpoint beforeT (s : string) : string :=
  match s with
  | EmptyString => EmptyString
  | String c rest => if Ascii.eqb c "T" then EmptyString else String c (beforeT rest)
  end.

(** The body of the [for (const allocation of idealAllocations)] loop. *)
Definition snapshotFor (currentDate : string) (totals : gmap string Obj.value)
    (total : float) (allocation : IdealAllocation.t) : Snapshot.t :=
  let actual := actualPct totals total (IdealAllocation.sector allocation) in
  let variance := actual - IdealAllocation.target_pct allocation in
  {| Snapshot.date := currentDate;
     Snapshot.sector := IdealAllocation.sector allocation;
     Snapshot.actual_pct := actual;
     Snapshot.target_pct := IdealAllocation.target_pct allocation;
     Snapshot.variance := variance;
     Snapshot.total_value := total |}.

(** The records of one snapshot run: the loop pushes one record per
    allocation onto [snapshots]. [now] is [new Date().toISOString()]. *)
Definition snapshots (now : string) (holdings : list Holding.t)
    (idealAllocations : list IdealAllocation.t) : list Snapshot.t :=
  let total := totalValue holdings in
  let totals := sectorTotals holdings in
  let currentDate := beforeT now in
  fold_left
    (fun acc allocation => acc ++ [snapshotFor currentDate totals total allocation])
    idealAllocations [].

(** [idealAllocations.forEach(ideal => { ...; allocationVariance[ideal.sector] =
    actualPct - ideal.target_pct; })] *)
Definition allocationVariance (holdings : list Holding.t)
    (idealAllocations : list IdealAllocation.t) : gmap string float :=
  let currentNetWorth := totalValue holdings in
  let totals := sectorTotals holdings in
  fold_left
    (fun acc ideal =>
       Obj.set acc (IdealAllocation.sector ideal)
         (actualPct totals currentNetWorth (IdealAllocation.sector ideal)
          - IdealAllocation.target_pct ideal))
    idealAllocations ∅.

(** [totalInvested > 0 ? (unrealizedGainLoss / totalInvested) * 100 : 0] *)
Definition unrealizedPct (unrealizedGainLoss totalInvested : float) : float :=
  if 0 <? totalInvested then unrealizedGainLoss / totalInvested * 100 else 0.

(** [Array.prototype.sort] with comparator [cmp]: a stable sort, which has
    one result for a comparator that orders consistently. [insert] puts [x]
    in front of the first element that [x] does not follow. *)
Fixpoint insert {A} (cmp : A -> A -> comparison) (x : A) (l : list A) : list A :=
  match l with
  | [] => [x]
  | y :: l' =>
      match cmp x y with
      | Gt => y :: insert cmp x l'
      | _ => x :: l
      end
  end.

Definition sort {A} (cmp : A -> A -> comparison) (l : list A) : list A :=
  fold_right (insert cmp) [] l.

Section Trend.

(** [a.localeCompare(b)], by its sign. The collation is the host's. *)
Variable localeCompare : string -> string -> comparison.

(** [(a, b) => b.month.localeCompare(a.month)] *)
Definition byMonthDescending (a b : MonthlyGrowth.t) : comparison :=
  localeCompare (MonthlyGrowth.month b) (MonthlyGrowth.month a).

(** [monthlyGrowth.sort(...).slice(0, 12).reverse()] *)
Definition monthlyTrend (monthlyGrowth : list MonthlyGrowth.t) : list MonthlyGrowth.t :=
  rev (firstn 12 (sort byMonthDescending monthlyGrowth)).

(** The summary built by the handler of [GET /v1/summary] from the three
    lists it has read. [currentYear] is
    [new Date().getFullYear().toString()]. *)
Definition summary (currentYear : string) (holdings : list Holding.t)
    (idealAllocations : list IdealAllocation.t)
    (monthlyGrowth : list MonthlyGrowth.t) : Summary.t :=
  let totalInvested := totalInvested holdings in
  let currentNetWorth := totalValue holdings in
  let unrealizedGainLoss := currentNetWorth - totalInvested in
  let unrealizedPct := unrealizedPct unrealizedGainLoss totalInvested in
  let ytdEntries :=
    List.filter (fun entry => String.prefix currentYear (MonthlyGrowth.month entry))
                monthlyGrowth in
  let ytdGrowth := fold_left (fun sum entry => sum + MonthlyGrowth.pnl entry) ytdEntries 0 in
  {| Summary.total_invested := totalInvested;
     Summary.current_net_worth := currentNetWorth;
     Summary.unrealized_gain_loss := unrealizedGainLoss;
     Summary.unrealized_pct := unrealizedPct;
     Summary.allocation_variance := allocationVariance holdings idealAllocations;
     Summary.monthly_trend := monthlyTrend monthlyGrowth;
     Summary.ytd_growth := ytdGrowth |}.

End Trend.

End Aggregation.

(** ** The notions the specification is stated with *)

Module Spec.

Local Open Scope float_scope.

(** The sum of a list of numbers, taken from left to right from 0. *)
Definition sum (xs : list float) : float := fold_left (fun acc x => acc + x) xs 0.

(** The holdings of one sector, in the order of the list. *)
Definition ofSector (s : string) (hs : list Holding.t) : list Holding.t :=
  List.filter (fun h => String.eqb (Holding.sector h) s) hs.

(** The entries of the ideal allocation for one sector. *)
Definition idealsOf (s : string) (ideals : list IdealAllocation.t) : list IdealAllocation.t :=
  List.filter (fun i => String.eqb (IdealAllocation.sector i) s) ideals.

(** [part / whole * 100] when [whole > 0], and 0 otherwise. *)
Definition percentOf (part whole : float) : float :=
  if 0 <? whole then part / whole * 100 else 0.

(** The total kept for a sector while its values [xs] are added one by one:
    a total that is not yet there, or is falsy, counts as 0 in the next
    addition. *)
Definition accumulated (xs : list float) : option float :=
  fold_left (fun acc x => Some (JS.or_zero acc + x)) xs None.

(** The value of a sector: its accumulated total, 0 when there is none. *)
Definition sectorValue (s : string) (hs : list Holding.t) : float :=
  JS.or_zero (accumulated (map Holding.value (ofSector s hs))).

(** The sums of the prefixes of [xs] that are not empty. *)
Fixpoint sumsFrom (acc : float) (xs : list float) : list float :=
  match xs with
  | [] => []
  | x :: xs' => (acc + x) :: sumsFrom (acc + x) xs'
  end.

Definition runningSums (xs : list float) : list float := sumsFrom 0 xs.

(** A number that is not negative: [0 <= x], which no [NaN] satisfies. The
    values of the data model, products of positive numbers, are such. *)
Definition nonNegative (x : float) : bool := 0 <=? x.

(** The value the allocation variance of a sector would have with the sum of
    the values of its holdings as the value of the sector. *)
Definition varianceBySum (hs : list Holding.t) (ideal : IdealAllocation.t) : float :=
  percentOf (sum (map Holding.value (ofSector (IdealAllocation.sector ideal) hs)))
            (sum (map Holding.value hs))
  - IdealAllocation.target_pct ideal.

(** Months compared by their code units, the later month first. *)
Definition lexDescending (a b : MonthlyGrowth.t) : comparison :=
  String.compare (MonthlyGrowth.month b) (MonthlyGrowth.month a).

(** [a] is not later than [b] in the order of the code units. *)
Definition monthLe (a b : MonthlyGrowth.t) : Prop :=
  String.leb (MonthlyGrowth.month a) (MonthlyGrowth.month b) = true.

End Spec.

(** ** The payloads of the holdings routes *)

(** [Omit<Holding, 'id' | 'updated_at' | 'value'>], the argument of
    [addHolding]. *)
Module NewHolding.
Record t : Type := mk {
  symbol : string;
  name : string;
  sector : string;
  qty : float;
  avg_price : float;
  current_price : float;
  rsi : option float;
  allocation_pct : float;
  notes : option string
}.
End NewHolding.

(** [Partial<Omit<Holding, 'id'>>], the argument of [updateHolding]: [None]
    is a key the payload does not have. *)
Module HoldingUpdates.
Record t : Type := mk {
  symbol : option string;
  name : option string;
  sector : option string;
  qty : option float;
  avg_price : option float;
  current_price : option float;
  value : option float;
  rsi : option float;
  allocation_pct : option float;
  notes : option string;
  updated_at : option string
}.

(** The payload that has no key. *)
Definition none : t :=
  {| symbol := None; name := None; sector := None; qty := None; avg_price := None;
     current_price := None; value := None; rsi := None; allocation_pct := None;
     notes := None; updated_at := None |}.
End HoldingUpdates.

(** ** The validation of a payload ([validation/schemas]) *)

Module Validation.

Local Open Scope float_scope.

(** [z.string().min(lo).max(hi)] *)
Definition lengthWithin (lo hi : nat) (s : string) : bool :=
  ((lo <=? String.length s) && (String.length s <=? hi))%nat.

(** [z.number().positive()]; no comparison holds of [NaN], which
    [z.number()] refuses. *)
Definition positive (x : float) : bool := 0 <? x.

(** [z.number().min(lo).max(hi)] *)
Definition within (lo hi x : float) : bool := (lo <=? x) && (x <=? hi).

Definition isDigit (c : ascii) : bool :=
  let n := nat_of_ascii c in ((48 <=? n) && (n <=? 57))%nat.

(** The month of [monthlyGrowthSchema]: [/^\d{4}-\d{2}$/]. *)
Definition isMonth (s : string) : bool :=
  match s with
  | String y1 (String y2 (String y3 (String y4 (String "-" (String m1 (String m2
      EmptyString)))))) =>
      isDigit y1 && isDigit y2 && isDigit y3 && isDigit y4 && isDigit m1 && isDigit m2
  | _ => false
  end.

(** [createHoldingSchema] accepts the payload. *)
Definition createHoldingSchema (p : NewHolding.t) : bool :=
  lengthWithin 1 20 (NewHolding.symbol p)
  && lengthWithin 1 100 (NewHolding.name p)
  && lengthWithin 1 50 (NewHolding.sector p)
  && positive (NewHolding.qty p)
  && positive (NewHolding.avg_price p)
  && positive (NewHolding.current_price p)
  && match NewHolding.rsi p with Some x => within 0 100 x | None => true end
  && within 0 100 (NewHolding.allocation_pct p)
  && match NewHolding.notes p with
     | Some s => (String.length s <=? 500)%nat
     | None => true
     end.

(** [z.number()]: a number that is not [NaN]. *)
Definition number (x : float) : bool := negb (PrimFloat.is_nan x).

(** [monthlyGrowthSchema] accepts the entry. *)
Definition monthlyGrowthSchema (entry : MonthlyGrowth.t) : bool :=
  isMonth (MonthlyGrowth.month entry)
  && lengthWithin 1 50 (MonthlyGrowth.account entry)
  && number (MonthlyGrowth.pnl entry).

(** [schema.optional()]: a key the payload does not have is accepted. *)
Definition optional {A} (schema : A -> bool) (x : option A) : bool :=
  match x with
  | Some v => schema v
  | None => true
  end.

(** [updateHoldingSchema.parse(body)], where [updateHoldingSchema] is
    [createHoldingSchema.partial()]: the payload with the keys of the schema
    only, when each key it has is accepted; [None] when the schema refuses
    the payload. *)
Definition updateHoldingSchema (body : HoldingUpdates.t) : option HoldingUpdates.t :=
  if optional (lengthWithin 1 20) (HoldingUpdates.symbol body)
     && optional (lengthWithin 1 100) (HoldingUpdates.name body)
     && optional (lengthWithin 1 50) (HoldingUpdates.sector body)
     && optional positive (HoldingUpdates.qty body)
     && optional positive (HoldingUpdates.avg_price body)
     && optional positive (HoldingUpdates.current_price body)
     && optional (within 0 100) (HoldingUpdates.rsi body)
     && optional (within 0 100) (HoldingUpdates.allocation_pct body)
     && optional (fun s => (String.length s <=? 500)%nat) (HoldingUpdates.notes body)
  then
    Some {| HoldingUpdates.symbol := HoldingUpdates.symbol body;
            HoldingUpdates.name := HoldingUpdates.name body;
            HoldingUpdates.sector := HoldingUpdates.sector body;
            HoldingUpdates.qty := HoldingUpdates.qty body;
            HoldingUpdates.avg_price := HoldingUpdates.avg_price body;
            HoldingUpdates.current_price := HoldingUpdates.current_price body;
            HoldingUpdates.value := None;
            HoldingUpdates.rsi := HoldingUpdates.rsi body;
            HoldingUpdates.allocation_pct := HoldingUpdates.allocation_pct body;
            HoldingUpdates.notes := HoldingUpdates.notes body;
            HoldingUpdates.updated_at := None |}
  else None.

End Validation.

(** ** The row store *)

(** A value handed to the store in a write ([any[]]): a string or a number. *)
Inductive cell : Type :=
| CStr (s : string)
| CNum (x : float).

(** The calls the service makes to the spreadsheet API. *)
Inductive call : Type :=
| ValuesGet (range : string)
| ValuesGetRow (range : string) (rowIndex : nat)
| ValuesAppend (range : string) (values : list (list cell))
| ValuesUpdate (range : string) (rowIndex : nat) (values : list cell)
| SpreadsheetGet
| DeleteRows (sheetName : string) (startIndex endIndex : nat).

(** The errors a method can throw. *)
Inductive error : Type :=
| HoldingNotFound (id : string)
| HoldingNotFoundInRow (id : string) (rowIndex : nat)
| UnableToParseRange (range : string).

Inductive outcome (A : Type) : Type :=
| Ok (a : A)
| Err (e : error).
Arguments Ok {A} a.
Arguments Err {A} e.

(** The state a method runs in: the tables of the spreadsheet by range name,
    the row cache of the service ([holdingsRowMap]) and the calls made to
    the store so far, the latest last. *)
Record world : Type := World {
  spreadsheet : gmap string (list (list string));
  holdingsRowMap : gmap string nat;
  calls : list call
}.

(** A method of the service. *)
Definition M (A : Type) : Type := world -> outcome A * world.

#[global] Instance M_ret : MRet M := fun A a w => (Ok a, w).

#[global] Instance M_bind : MBind M := fun A B f m w =>
  match m w with
  | (Ok a, w') => f a w'
  | (Err e, w') => (Err e, w')
  end.

Definition throw {A} (e : error) : M A := fun w => (Err e, w).

(** [Promise.all([m1, m2])]: both methods are started, in this order, whatever
    becomes of the other; the first error, if any, is the error of the
    whole. *)
Definition all2 {A B} (m1 : M A) (m2 : M B) : M (A * B) := fun w =>
  let '(r1, w1) := m1 w in
  let '(r2, w2) := m2 w1 in
  (match r1, r2 with
   | Ok a, Ok b => Ok (a, b)
   | Err e, _ => Err e
   | Ok _, Err e => Err e
   end, w2).

(** The value a run ends with, when it ends without an error. *)
Definition fst_ok {A} (r : outcome A * world) : option A :=
  match fst r with
  | Ok a => Some a
  | Err _ => None
  end.

Definition called (c : call) : M unit := fun w =>
  (Ok tt, World (spreadsheet w) (holdingsRowMap w) (calls w ++ [c])).

Definition getCache : M (gmap string nat) := fun w => (Ok (holdingsRowMap w), w).

Definition setCache (m : gmap string nat) : M unit := fun w =>
  (Ok tt, World (spreadsheet w) m (calls w)).

Definition getTable (range : string) : M (list (list string)) := fun w =>
  match spreadsheet w !! range with
  | Some rows => (Ok rows, w)
  | None => (Err (UnableToParseRange range), w)
  end.

Definition setTable (range : string) (rows : list (list string)) : M unit := fun w =>
  (Ok tt, World (<[range := rows]> (spreadsheet w)) (holdingsRowMap w) (calls w)).

(** The holdings live in the named range [MF_STOCKS], which covers the sheet
    ['MF & Stocks'] from its first row: row [r] of the range, the row range
    [MF_STOCKS!A<r>:L<r>] and row [r] of the sheet are the same row. *)
Definition MF_STOCKS : string := "MF_STOCKS".
Definition IDEAL_ALLOCATION : string := "IDEAL_ALLOCATION".
Definition MONTHLY_GROWTH : string := "MONTHLY_GROWTH".
Definition SNAPSHOT : string := "SNAPSHOT".

Module Store.

(** [spreadsheets.values.get] of a named range: [response.data.values || []].
    A range the spreadsheet does not have is an error of the store. *)
Definition get (range : string) : M (list (list string)) :=
  _ ← called (ValuesGet range);
  getTable range.

(** [spreadsheets.values.get] of the row [rowIndex] (counted from 1) of a
    range: [response.data.values?.[0]], which is [undefined] when the row
    has no cell with content. *)
Definition getRow (range : string) (rowIndex : nat) : M (option (list string)) :=
  _ ← called (ValuesGetRow range rowIndex);
  rows ← getTable range;
  mret (match rows !! (rowIndex - 1) with
        | Some row => if forallb (fun c => negb (JS.truthy_str c)) row then None else Some row
        | None => None
        end).

Section Written.

(** The text the store hands back for a number it was given: the store
    formats numbers by rules of its own. *)
Variable number_text : float -> string.

Definition stored (c : cell) : string :=
  match c with
  | CStr s => s
  | CNum x => number_text x
  end.

(** [spreadsheets.values.append]: the rows go after the last row of the
    table. *)
Definition append (range : string) (values : list (list cell)) : M unit :=
  _ ← called (ValuesAppend range values);
  rows ← getTable range;
  setTable range (rows ++ map (map stored) values).

(** The table [rows] with [row] written at position [i] (counted from
    0); a position after the last row leaves empty rows in between. *)
Definition writeRow (i : nat) (row : list string) (rows : list (list string))
    : list (list string) :=
  if (i <? length rows)%nat then <[i := row]> rows
  else rows ++ replicate (i - length rows) [] ++ [row].

(** [spreadsheets.values.update] of the row [rowIndex] of a range. *)
Definition update (range : string) (rowIndex : nat) (values : list cell) : M unit :=
  _ ← called (ValuesUpdate range rowIndex values);
  rows ← getTable range;
  setTable range (writeRow (rowIndex - 1) (map stored values) rows).

End Written.

(** A store that shows every number in full: the exact decimal expansion
    of a finite number, [Infinity], [-Infinity] and [NaN] by their names. *)
Definition decimalText (x : float) : string :=
  match Prim2SF x with
  | S754_nan => "NaN"
  | S754_infinity negative => if negative then "-Infinity" else "Infinity"
  | S754_zero _ => "0"
  | S754_finite negative m e =>
      let sign := if negative then "-" else "" in
      if (0 <=? e)%Z then String.append sign (pretty (Z.pos m * 2 ^ e)%Z)
      else
        let k := Z.to_nat (- e) in
        let digits := pretty (Z.pos m * 5 ^ (- e))%Z in
        let padded :=
          String.append (string_of_list_ascii (repeat "0"%char (S k - String.length digits)))
                        digits in
        let n := (String.length padded - k)%nat in
        String.append sign
          (String.append (substring 0 n padded) (String "." (substring n k padded)))
  end.

(** [spreadsheets.batchUpdate] with one [deleteDimension] request on the
    rows [startIndex, endIndex) (counted from 0) of a sheet. A row after
    the last row of the table is an empty row of the grid. *)
Definition deleteRow (sheetName : string) (range : string) (startIndex endIndex : nat) : M unit :=
  _ ← called (DeleteRows sheetName startIndex endIndex);
  rows ← getTable range;
  setTable range (take startIndex rows ++ drop endIndex rows).

End Store.

(** ** Identifiers *)

Module UUID.

Definition hexDigit (v : Z) : ascii :=
  ascii_of_nat (Z.to_nat (if (v <? 10)%Z then 48 + v else 87 + v)%Z).

(** The digits of [n > 0] in base 16 in front of [acc]; [fuel] bounds their
    number. *)
Fixpoint hexDigits (fuel : nat) (n : Z) (acc : string) : string :=
  match fuel with
  | O => acc
  | S fuel' =>
      let acc' := String (hexDigit (n mod 16)) acc in
      if (n / 16 =? 0)%Z then acc' else hexDigits fuel' (n / 16) acc'
  end.

(** [v.toString(16)] for an integer [v]. *)
Definition toString16 (v : Z) : string :=
  if (v =? 0)%Z then "0"
  else if (v <? 0)%Z then String "-" (hexDigits (Z.to_nat (Z.log2 (- v)) + 1) (- v) "")
  else hexDigits (Z.to_nat (Z.log2 v) + 1) v "".

Definition template : string := "xxxxxxxx-xxxx-4xxx-yxxx-xxxxxxxxxxxx".

(** [template.replace(/[xy]/g, (c) => { const r = Math.random() * 16 | 0;
    const v = c === 'x' ? r : (r & 0x3 | 0x8); return v.toString(16); })].
    [random k] is the value of [Math.random() * 16 | 0] at the call number
    [k] of the callback; [Math.random()] lies in [0, 1), so the value is
    one of 0, ..., 15. *)
Fixpoint replaceXY (template : string) (random : nat -> Z) (k : nat) : string :=
  match template with
  | EmptyString => EmptyString
  | String c rest =>
      if (Ascii.eqb c "x" || Ascii.eqb c "y")%bool then
        let r := random k in
        let v := if Ascii.eqb c "x" then r else Z.lor (Z.land r 3) 8 in
        toString16 v ++ replaceXY rest random (S k)
      else String c (replaceXY rest random k)
  end.

Definition generateUUID (random : nat -> Z) : string :=
  replaceXY template random 0.

(** *** The check of [z.string().uuid()]

    The validation library is a dependency of the repository. Its check
    is a regular expression for the shape 8-4-4-4-12 of hexadecimal digits;
    its releases differ in the version and variant digits they admit.
    [pattern] admits identifiers that all of them admit, those of the
    versions 1 to 5 and the variants 8, 9, a and b in either case; every
    release admits more than these (the identifier of zeros, and from some
    release on any version and variant digit). The check itself is a
    parameter of the routes, [Routes.putHolding] and
    [Routes.deleteHoldingRoute]. In a pattern [h] is a
    hexadecimal digit, [v] a version digit, [r] a variant digit, [q] a
    variant digit in lower case, and any other character is itself. *)

Definition isHex (c : ascii) : bool :=
  let n := nat_of_ascii c in
  ((48 <=? n) && (n <=? 57) || (97 <=? n) && (n <=? 102) || (65 <=? n) && (n <=? 70))%nat.

Definition isVersion (c : ascii) : bool :=
  let n := nat_of_ascii c in ((49 <=? n) && (n <=? 53))%nat.

Definition isVariant (c : ascii) : bool :=
  (Ascii.eqb c "8" || Ascii.eqb c "9" || Ascii.eqb c "a" || Ascii.eqb c "b"
   || Ascii.eqb c "A" || Ascii.eqb c "B")%bool.

Definition isLowerVariant (c : ascii) : bool :=
  (Ascii.eqb c "8" || Ascii.eqb c "9" || Ascii.eqb c "a" || Ascii.eqb c "b")%bool.

(** One character against one character of a pattern. *)
Definition matchesChar (p c : ascii) : bool :=
  if Ascii.eqb p "h" then isHex c
  else if Ascii.eqb p "v" then isVersion c
  else if Ascii.eqb p "r" then isVariant c
  else if Ascii.eqb p "q" then isLowerVariant c
  else Ascii.eqb p c.

Fixpoint matches (pattern s : string) : bool :=
  match pattern, s with
  | EmptyString, EmptyString => true
  | String p pattern', String c s' => matchesChar p c && matches pattern' s'
  | _, _ => false
  end.

Definition pattern : string := "hhhhhhhh-hhhh-vhhh-rhhh-hhhhhhhhhhhh".

(** [holdingIdSchema] accepts [id], whatever the release of the library:
    [id] has the shape of [pattern]. *)
Definition holdingIdSchema (id : string) : bool := matches pattern id.

(** The shape of a random (version 4) identifier: 8-4-4-4-12 hexadecimal
    digits, ['4'] as the version digit, 8, 9, a or b as the variant digit. *)
Definition isV4 (id : string) : bool := matches "hhhhhhhh-hhhh-4hhh-qhhh-hhhhhhhhhhhh" id.

(** A pattern [p] and a template go together when the pattern admits, at
    each place, whatever [replaceXY] can put there: any hexadecimal digit
    for an [x], a digit 8, 9, a or b for a [y], the character of the
    template elsewhere. *)
Fixpoint admits (p template : string) : bool :=
  match p, template with
  | EmptyString, EmptyString => true
  | String p0 p', String c template' =>
      (if Ascii.eqb c "x" then Ascii.eqb p0 "h"
       else if Ascii.eqb c "y" then Ascii.eqb p0 "h" || Ascii.eqb p0 "r" || Ascii.eqb p0 "q"
       else matchesChar p0 c)
      && admits p' template'
  | _, _ => false
  end.

End UUID.

(** ** The service ([SheetsService]) *)

Section Service.

(** The text the store hands back for a number written to it. *)
Variable number_text : float -> string.

(** [a.localeCompare(b)], by its sign. *)
Variable localeCompare : string -> string -> comparison.

(** [parseHoldingFromRow(row)]; [now] is [new Date().toISOString()]. *)
Definition parseHoldingFromRow (now : string) (row : list string) : Holding.t :=
  {| Holding.id := JS.or_empty (row !! 0%nat);
     Holding.symbol := JS.or_empty (row !! 1%nat);
     Holding.name := JS.or_empty (row !! 2%nat);
     Holding.sector := JS.or_empty (row !! 3%nat);
     Holding.qty := JS.num_or_zero (JS.parseFloat (row !! 4%nat));
     Holding.avg_price := JS.num_or_zero (JS.parseFloat (row !! 5%nat));
     Holding.current_price := JS.num_or_zero (JS.parseFloat (row !! 6%nat));
     Holding.value := JS.num_or_zero (JS.parseFloat (row !! 7%nat));
     Holding.rsi :=
       if JS.truthy_cell (row !! 8%nat) then Some (JS.parseFloat (row !! 8%nat)) else None;
     Holding.allocation_pct := JS.num_or_zero (JS.parseFloat (row !! 9%nat));
     Holding.notes := Some (JS.or_empty (row !! 10%nat));
     Holding.updated_at :=
       if JS.truthy_cell (row !! 11%nat) then JS.or_empty (row !! 11%nat) else now |}.

(** [holdingToRowValues(holding)] *)
Definition holdingToRowValues (holding : Holding.t) : list cell :=
  [ CStr (Holding.id holding);
    CStr (Holding.symbol holding);
    CStr (Holding.name holding);
    CStr (Holding.sector holding);
    CNum (Holding.qty holding);
    CNum (Holding.avg_price holding);
    CNum (Holding.current_price holding);
    CNum (Holding.value holding);
    match Holding.rsi holding with
    | Some x => if JS.truthy x then CNum x else CStr ""
    | None => CStr ""
    end;
    CNum (Holding.allocation_pct holding);
    CStr (JS.or_empty (Holding.notes holding));
    CStr (Holding.updated_at holding) ].

(** The row cache after the loop
    [for (let i = 1; i < rows.length; i++) { const row = rows[i];
    if (row[0]) this.holdingsRowMap.set(row[0], i + 1); }] run on [cache]. *)
Definition cacheRows (rows : list (list string)) (cache : gmap string nat)
    : gmap string nat :=
  fold_left
    (fun cache i =>
       let row := default [] (rows !! i) in
       if JS.truthy_cell (row !! 0%nat)
       then <[JS.or_empty (row !! 0%nat) := (i + 1)%nat]> cache
       else cache)
    (seq 1 (length rows - 1)) cache.

(** [initializeHoldingsRowMap()] *)
Definition initializeHoldingsRowMap : M unit :=
  rows ← Store.get MF_STOCKS;
  setCache (cacheRows rows ∅).

(** [getHoldings()] *)
Definition getHoldings (now : string) : M (list Holding.t) :=
  rows ← Store.get MF_STOCKS;
  if (length rows <=? 1)%nat then mret []
  else
    cache ← getCache;
    _ ← setCache (cacheRows rows cache);
    mret (fold_left
            (fun holdings i =>
               let row := default [] (rows !! i) in
               if JS.truthy_cell (row !! 0%nat)
               then holdings ++ [parseHoldingFromRow now row]
               else holdings)
            (seq 1 (length rows - 1)) []).

(** [addHolding(holding)]; [random] feeds [generateUUID]. *)
Definition addHolding (now : string) (random : nat -> Z) (holding : NewHolding.t)
    : M Holding.t :=
  let id := UUID.generateUUID random in
  let updatedAt := now in
  let value := (NewHolding.qty holding * NewHolding.current_price holding)%float in
  let newHolding :=
    {| Holding.id := id;
       Holding.symbol := NewHolding.symbol holding;
       Holding.name := NewHolding.name holding;
       Holding.sector := NewHolding.sector holding;
       Holding.qty := NewHolding.qty holding;
       Holding.avg_price := NewHolding.avg_price holding;
       Holding.current_price := NewHolding.current_price holding;
       Holding.value := value;
       Holding.rsi := NewHolding.rsi holding;
       Holding.allocation_pct := NewHolding.allocation_pct holding;
       Holding.notes := NewHolding.notes holding;
       Holding.updated_at := updatedAt |} in
  let rowValues := holdingToRowValues newHolding in
  _ ← Store.append number_text MF_STOCKS [rowValues];
  mret newHolding.

(** [{ ...currentHolding, ...updates, id, updated_at: new Date().toISOString() }] *)
Definition applyUpdates (now : string) (id : string) (currentHolding : Holding.t)
    (updates : HoldingUpdates.t) : Holding.t :=
  {| Holding.id := id;
     Holding.symbol := default (Holding.symbol currentHolding) (HoldingUpdates.symbol updates);
     Holding.name := default (Holding.name currentHolding) (HoldingUpdates.name updates);
     Holding.sector := default (Holding.sector currentHolding) (HoldingUpdates.sector updates);
     Holding.qty := default (Holding.qty currentHolding) (HoldingUpdates.qty updates);
     Holding.avg_price :=
       default (Holding.avg_price currentHolding) (HoldingUpdates.avg_price updates);
     Holding.current_price :=
       default (Holding.current_price currentHolding) (HoldingUpdates.current_price updates);
     Holding.value := default (Holding.value currentHolding) (HoldingUpdates.value updates);
     Holding.rsi :=
       match HoldingUpdates.rsi updates with
       | Some x => Some x
       | None => Holding.rsi currentHolding
       end;
     Holding.allocation_pct :=
       default (Holding.allocation_pct currentHolding) (HoldingUpdates.allocation_pct updates);
     Holding.notes :=
       match HoldingUpdates.notes updates with
       | Some s => Some s
       | None => Holding.notes currentHolding
       end;
     Holding.updated_at := now |}.

(** [if (updates.qty !== undefined || updates.current_price !== undefined)
    updatedHolding.value = updatedHolding.qty * updatedHolding.current_price] *)
Definition recalculateValue (updates : HoldingUpdates.t) (updatedHolding : Holding.t)
    : Holding.t :=
  if JS.defined (HoldingUpdates.qty updates) || JS.defined (HoldingUpdates.current_price updates)
  then
    {| Holding.id := Holding.id updatedHolding;
       Holding.symbol := Holding.symbol updatedHolding;
       Holding.name := Holding.name updatedHolding;
       Holding.sector := Holding.sector updatedHolding;
       Holding.qty := Holding.qty updatedHolding;
       Holding.avg_price := Holding.avg_price updatedHolding;
       Holding.current_price := Holding.current_price updatedHolding;
       Holding.value :=
         (Holding.qty updatedHolding * Holding.current_price updatedHolding)%float;
       Holding.rsi := Holding.rsi updatedHolding;
       Holding.allocation_pct := Holding.allocation_pct updatedHolding;
       Holding.notes := Holding.notes updatedHolding;
       Holding.updated_at := Holding.updated_at updatedHolding |}
  else updatedHolding.

(** [this.holdingsRowMap.get(id)] followed by [if (!rowIndex) throw ...]:
    the row of [id], where [undefined] and [0] are both falsy. *)
Definition rowIndexOf (id : string) : M nat :=
  cache ← getCache;
  match cache !! id with
  | Some (S n) => mret (S n)
  | _ => throw (HoldingNotFound id)
  end.

(** [if (this.holdingsRowMap.size === 0) await this.initializeHoldingsRowMap()] *)
Definition ensureRowMap : M unit :=
  cache ← getCache;
  if (size cache =? 0)%nat then initializeHoldingsRowMap else mret tt.

(** [updateHolding(id, updates)] *)
Definition updateHolding (now : string) (id : string) (updates : HoldingUpdates.t)
    : M Holding.t :=
  _ ← ensureRowMap;
  rowIndex ← rowIndexOf id;
  currentRow ← Store.getRow MF_STOCKS rowIndex;
  match currentRow with
  | None => throw (HoldingNotFoundInRow id rowIndex)
  | Some currentRow =>
      let currentHolding := parseHoldingFromRow now currentRow in
      let updatedHolding :=
        recalculateValue updates (applyUpdates now id currentHolding updates) in
      let rowValues := holdingToRowValues updatedHolding in
      _ ← Store.update number_text MF_STOCKS rowIndex rowValues;
      mret updatedHolding
  end.

(** [getSheetIdByName(sheetName)]: it reads the spreadsheet and falls back
    on the sheet 0 instead of failing. *)
Definition getSheetIdByName (sheetName : string) : M string :=
  _ ← called SpreadsheetGet;
  mret sheetName.

(** [deleteHolding(id)] *)
Definition deleteHolding (id : string) : M unit :=
  _ ← ensureRowMap;
  rowIndex ← rowIndexOf id;
  sheet ← getSheetIdByName "MF & Stocks";
  _ ← Store.deleteRow sheet MF_STOCKS (rowIndex - 1) rowIndex;
  cache ← getCache;
  setCache (delete id cache).

(** [getIdealAllocation()] *)
Definition getIdealAllocation : M (list IdealAllocation.t) :=
  rows ← Store.get IDEAL_ALLOCATION;
  if (length rows <=? 1)%nat then mret []
  else
    mret (fold_left
            (fun allocations i =>
               let row := default [] (rows !! i) in
               if JS.truthy_cell (row !! 0%nat) && JS.truthy_cell (row !! 1%nat)
               then allocations ++
                    [ {| IdealAllocation.sector := JS.or_empty (row !! 0%nat);
                         IdealAllocation.target_pct :=
                           JS.num_or_zero (JS.parseFloat (row !! 1%nat)) |} ]
               else allocations)
            (seq 1 (length rows - 1)) []).

(** [(a, b) => a.month.localeCompare(b.month)] *)
Definition byMonthAscending (a b : MonthlyGrowth.t) : comparison :=
  localeCompare (MonthlyGrowth.month a) (MonthlyGrowth.month b).

(** [getMonthlyGrowth()] *)
Definition getMonthlyGrowth : M (list MonthlyGrowth.t) :=
  rows ← Store.get MONTHLY_GROWTH;
  if (length rows <=? 1)%nat then mret []
  else
    mret (Aggregation.sort byMonthAscending
            (fold_left
               (fun growthData i =>
                  let row := default [] (rows !! i) in
                  if JS.truthy_cell (row !! 0%nat) && JS.truthy_cell (row !! 1%nat)
                     && JS.truthy_cell (row !! 2%nat)
                  then growthData ++
                       [ {| MonthlyGrowth.month := JS.or_empty (row !! 0%nat);
                            MonthlyGrowth.account := JS.or_empty (row !! 1%nat);
                            MonthlyGrowth.pnl :=
                              JS.num_or_zero (JS.parseFloat (row !! 2%nat)) |} ]
                  else growthData)
               (seq 1 (length rows - 1)) [])).

(** [s => [s.date, s.sector, s.actual_pct, s.target_pct, s.variance, s.total_value]] *)
Definition snapshotToRowValues (s : Snapshot.t) : list cell :=
  [ CStr (Snapshot.date s); CStr (Snapshot.sector s); CNum (Snapshot.actual_pct s);
    CNum (Snapshot.target_pct s); CNum (Snapshot.variance s); CNum (Snapshot.total_value s) ].

(** [createSnapshot()] *)
Definition createSnapshot (now : string) : M (list Snapshot.t) :=
  '(holdings, idealAllocations) ← all2 (getHoldings now) getIdealAllocation;
  let snapshots := Aggregation.snapshots now holdings idealAllocations in
  let rowsToAdd := map snapshotToRowValues snapshots in
  _ ← Store.append number_text SNAPSHOT rowsToAdd;
  mret snapshots.

(** The handler of [GET /v1/summary]. *)
Definition getSummary (now currentYear : string) : M Summary.t :=
  '(holdings, (idealAllocations, monthlyGrowth)) ←
    all2 (getHoldings now) (all2 getIdealAllocation getMonthlyGrowth);
  mret (Aggregation.summary localeCompare currentYear holdings idealAllocations monthlyGrowth).

(** [addMonthlyGrowth(entry)] *)
Definition addMonthlyGrowth (entry : MonthlyGrowth.t) : M MonthlyGrowth.t :=
  let rowValues :=
    [ CStr (MonthlyGrowth.month entry); CStr (MonthlyGrowth.account entry);
      CNum (MonthlyGrowth.pnl entry) ] in
  _ ← Store.append number_text MONTHLY_GROWTH [rowValues];
  mret entry.

(** [(a, b) => b.date.localeCompare(a.date)] *)
Definition byDateDescending (a b : Snapshot.t) : comparison :=
  localeCompare (Snapshot.date b) (Snapshot.date a).

(** [getSnapshots()] *)
Definition getSnapshots : M (list Snapshot.t) :=
  rows ← Store.get SNAPSHOT;
  if (length rows <=? 1)%nat then mret []
  else
    mret (Aggregation.sort byDateDescending
            (fold_left
               (fun snapshots i =>
                  let row := default [] (rows !! i) in
                  if JS.truthy_cell (row !! 0%nat) && JS.truthy_cell (row !! 1%nat)
                  then snapshots ++
                       [ {| Snapshot.date := JS.or_empty (row !! 0%nat);
                            Snapshot.sector := JS.or_empty (row !! 1%nat);
                            Snapshot.actual_pct := JS.num_or_zero (JS.parseFloat (row !! 2%nat));
                            Snapshot.target_pct := JS.num_or_zero (JS.parseFloat (row !! 3%nat));
                            Snapshot.variance := JS.num_or_zero (JS.parseFloat (row !! 4%nat));
                            Snapshot.total_value :=
                              JS.num_or_zero (JS.parseFloat (row !! 5%nat)) |} ]
                  else snapshots)
               (seq 1 (length rows - 1)) [])).

End Service.

(** ** The configuration ([config]) *)

Module Config.

(** [x || fallback] where [x] is a string or [undefined]. *)
Definition or_else (x : option string) (fallback : string) : string :=
  match x with
  | Some s => if JS.truthy_str s then s else fallback
  | None => fallback
  end.

(** [s.replace(/\\n/g, '\n')]: every backslash that an [n] follows is
    replaced, with the [n], by a line feed. *)
Fixpoint unescapeNewlines (s : string) : string :=
  match s with
  | String c rest =>
      match rest with
      | String d rest' =>
          if (Ascii.eqb c "\" && Ascii.eqb d "n")%bool
          then String "010" (unescapeNewlines rest')
          else String c (unescapeNewlines rest)
      | EmptyString => s
      end
  | EmptyString => EmptyString
  end.

(** The value of a digit in the radix 16. *)
Definition hexValue (c : ascii) : option Z :=
  let n := Z.of_nat (nat_of_ascii c) in
  if ((48 <=? n) && (n <=? 57))%Z then Some (n - 48)%Z
  else if ((97 <=? n) && (n <=? 102))%Z then Some (n - 87)%Z
  else if ((65 <=? n) && (n <=? 70))%Z then Some (n - 55)%Z
  else None.

Definition digitValue (radix : Z) (c : ascii) : option Z :=
  match hexValue c with
  | Some v => if (v <? radix)%Z then Some v else None
  | None => None
  end.

(** The longest run of digits of the radix at the head of [s], read onto
    [acc]: its value and its length. *)
Fixpoint readInteger (radix : Z) (s : string) (acc : Z) (count : nat) : Z * nat :=
  match s with
  | String c rest =>
      match digitValue radix c with
      | Some v => readInteger radix rest (radix * acc + v)%Z (S count)
      | None => (acc, count)
      end
  | EmptyString => (acc, count)
  end.

(** [parseInt(s)], without a radix: leading white space and a sign are
    skipped, the prefix [0x] or [0X] announces the radix 16, and the
    longest run of digits is read; the result is the number nearest to the
    integer read, and [NaN] when there is no digit. *)
Definition parseInt (s : string) : float :=
  let trimmed := JS.trim_start s in
  let '(negative, unsigned) :=
    match trimmed with
    | String "-" r => (true, r)
    | String "+" r => (false, r)
    | _ => (false, trimmed)
    end in
  let '(radix, digits) :=
    match unsigned with
    | String "0" (String "x" r) => (16%Z, r)
    | String "0" (String "X" r) => (16%Z, r)
    | _ => (10%Z, unsigned)
    end in
  let '(mathInt, count) := readInteger radix digits 0 0 in
  match count with
  | O => nan
  | S _ => SF2Prim (JS.round_decimal negative mathInt 0)
  end.

(** [process.env.PORT || 3000]: the text of the variable, or the number. *)
Inductive port_value : Type :=
| PortText (s : string)
| PortNumber (n : float).

Record t : Type := mk {
  port : port_value;
  nodeEnv : string;
  apiToken : string;
  googleClientEmail : string;
  googlePrivateKey : string;
  googleSheetsSpreadsheetId : string;
  frontendUrl : string;
  rateLimitWindowMs : float;
  rateLimitMaxRequests : float
}.

(** The object [config] made from [process.env], a map from the names of
    the variables that are set to their texts. *)
Definition config (env : gmap string string) : t :=
  {| port :=
       match env !! "PORT" with
       | Some s => if JS.truthy_str s then PortText s else PortNumber 3000
       | None => PortNumber 3000
       end;
     nodeEnv := or_else (env !! "NODE_ENV") "development";
     apiToken := or_else (env !! "API_TOKEN") "";
     googleClientEmail := or_else (env !! "GOOGLE_CLIENT_EMAIL") "";
     googlePrivateKey := or_else (unescapeNewlines <$> env !! "GOOGLE_PRIVATE_KEY") "";
     googleSheetsSpreadsheetId := or_else (env !! "GOOGLE_SHEETS_SPREADSHEET_ID") "";
     frontendUrl := or_else (env !! "FRONTEND_URL") "http://localhost:3001";
     rateLimitWindowMs := parseInt (or_else (env !! "RATE_LIMIT_WINDOW_MS") "900000");
     rateLimitMaxRequests := parseInt (or_else (env !! "RATE_LIMIT_MAX_REQUESTS") "60") |}.

Definition requiredEnvVars : list string :=
  [ "API_TOKEN"; "GOOGLE_CLIENT_EMAIL"; "GOOGLE_PRIVATE_KEY"; "GOOGLE_SHEETS_SPREADSHEET_ID" ].

(** [for (const envVar of requiredEnvVars) if (!process.env[envVar]) throw ...]:
    the message of the error thrown, if any. *)
Fixpoint validate (env : gmap string string) (vars : list string) : option string :=
  match vars with
  | envVar :: vars' =>
      if JS.truthy_cell (env !! envVar) then validate env vars'
      else Some (String.append "Missing required environment variable: " envVar)
  | [] => None
  end.

(** The module, loaded: its [config], or the message of the error that
    its loading throws. *)
Definition load (env : gmap string string) : t + string :=
  let loaded := config env in
  match validate env requiredEnvVars with
  | Some message => inr message
  | None => inl loaded
  end.

End Config.

(** ** The middleware ([middleware]) and the routes ([routes]) *)

Module ApiError.
Record t : Type := mk {
  error : string;
  message : string;
  timestamp : string
}.
End ApiError.

Module Middleware.

(** [res.status(status).json(body)] *)
Record response : Type := Response {
  status : nat;
  body : ApiError.t
}.

(** An [Error] object, by its [name] and its [message]. *)
Record Error : Type := mkError {
  name : string;
  message : string
}.

(** [s.includes(pattern)] *)
Fixpoint includes (s pattern : string) : bool :=
  String.prefix pattern s
  || match s with
     | String _ rest => includes rest pattern
     | EmptyString => false
     end.

(** [authenticateApiKey]. [apiKey] is [req.headers['x-api-key']],
    [undefined] for a request without the header; [apiToken] is
    [config.apiToken]. The result [None] is the call of [next()]. *)
Definition authenticateApiKey (apiToken now : string) (apiKey : option string)
    : option response :=
  let differs :=
    match apiKey with
    | Some key => negb (String.eqb key apiToken)
    | None => true
    end in
  if negb (JS.truthy_cell apiKey) || differs then
    Some {| status := 401;
            body := {| ApiError.error := "Unauthorized";
                       ApiError.message := "Invalid or missing API key";
                       ApiError.timestamp := now |} |}
  else None.

(** [errorHandler]; [nodeEnv] is [config.nodeEnv]. *)
Definition errorHandler (nodeEnv now : string) (err : Error) : response :=
  if String.eqb (name err) "ZodError" then
    {| status := 400;
       body := {| ApiError.error := "Validation Error";
                  ApiError.message := "Invalid request data";
                  ApiError.timestamp := now |} |}
  else if includes (message err) "Unable to parse range" then
    {| status := 400;
       body := {| ApiError.error := "Sheets Error";
                  ApiError.message := "Invalid sheet range or named range not found";
                  ApiError.timestamp := now |} |}
  else if includes (message err) "authentication" || includes (message err) "permission" then
    {| status := 500;
       body := {| ApiError.error := "Authentication Error";
                  ApiError.message := "Failed to authenticate with Google Sheets";
                  ApiError.timestamp := now |} |}
  else
    {| status := 500;
       body := {| ApiError.error := "Internal Server Error";
                  ApiError.message :=
                    if String.eqb nodeEnv "development" then message err
                    else "An unexpected error occurred";
                  ApiError.timestamp := now |} |}.

End Middleware.

Module Routes.

(** What a handler hands to [next]: the [ZodError] of a schema that refuses
    its input, with the message the schema gives, or an error of the
    service. *)
Inductive failure : Type :=
| ZodError (issues : string)
| Thrown (e : error).

(** The [Error] object of a failure. The service throws plain [Error]s; the
    error of the store for a range it does not know is the one
    [errorHandler] looks for. *)
Definition errorOf (f : failure) : Middleware.Error :=
  match f with
  | ZodError issues => {| Middleware.name := "ZodError"; Middleware.message := issues |}
  | Thrown (HoldingNotFound id) =>
      {| Middleware.name := "Error";
         Middleware.message := "Holding with ID " ++ id ++ " not found" |}
  | Thrown (HoldingNotFoundInRow id rowIndex) =>
      {| Middleware.name := "Error";
         Middleware.message :=
           "Holding with ID " ++ id ++ " not found in row " ++ pretty rowIndex |}
  | Thrown (UnableToParseRange range) =>
      {| Middleware.name := "Error";
         Middleware.message := "Unable to parse range: " ++ range |}
  end.

(** The answer to a request: the status and the body the handler sends, or
    the response of [errorHandler] to what the handler handed to [next]. *)
Inductive reply (A : Type) : Type :=
| Sent (status : nat) (body : A)
| Refused (r : Middleware.response).
Arguments Sent {A} status body.
Arguments Refused {A} r.

Section Handlers.
Variable number_text : float -> string.
(** [config.nodeEnv], the time of the response of [errorHandler], and the
    message of the [ZodError] of a refused input. *)
Variables nodeEnv later issues : string.
(** The check of [z.string().uuid()], that of the release of the validation
    library in use: [holdingIdSchema.parse(id)] returns when [uuid id] and
    throws a [ZodError] otherwise. *)
Variable uuid : string -> bool.

Definition next {A} (f : failure) : reply A :=
  Refused (Middleware.errorHandler nodeEnv later (errorOf f)).

(** [try { ...; res.status(status).json(await run) } catch (error) { next(error) }] *)
Definition respond {A} (status : nat) (run : M A) : world -> reply A * world := fun w =>
  match run w with
  | (Ok a, w') => (Sent status a, w')
  | (Err e, w') => (next (Thrown e), w')
  end.

(** [POST /v1/holdings] *)
Definition postHolding (now : string) (random : nat -> Z) (body : NewHolding.t)
    : world -> reply Holding.t * world := fun w =>
  if Validation.createHoldingSchema body
  then respond 201 (addHolding number_text now random body) w
  else (next (ZodError issues), w).

(** [PUT /v1/holdings/:id] *)
Definition putHolding (now : string) (id : string) (body : HoldingUpdates.t)
    : world -> reply Holding.t * world := fun w =>
  if uuid id then
    match Validation.updateHoldingSchema body with
    | Some validatedData => respond 200 (updateHolding number_text now id validatedData) w
    | None => (next (ZodError issues), w)
    end
  else (next (ZodError issues), w).

(** [DELETE /v1/holdings/:id] *)
Definition deleteHoldingRoute (id : string) : world -> reply unit * world := fun w =>
  if uuid id then respond 204 (deleteHolding id) w
  else (next (ZodError issues), w).

(** [POST /v1/monthly-growth] *)
Definition postMonthlyGrowth (body : MonthlyGrowth.t)
    : world -> reply MonthlyGrowth.t * world := fun w =>
  if Validation.monthlyGrowthSchema body
  then respond 201 (addMonthlyGrowth number_text body) w
  else (next (ZodError issues), w).

End Handlers.

End Routes.

(** ** The notions the properties of the service are stated with *)

Module ServiceSpec.




(** The identifier [id] is the identifier of a stored holding: of a row
    after the header. *)
Definition stored (id : string) (rows : list (list string)) : Prop :=
  exists i row, (1 <= i)%nat /\ rows !! i = Some row /\ row !! 0%nat = Some id.

(** The number [x] reads back: the text the store hands back for it parses
    to [x], and [x || 0] is [x]. *)
Definition readsBack (number_text : float -> string) (x : float) : Prop :=
  JS.num_or_zero (JS.parseFloat (Some (number_text x))) = x.

(** An [rsi] that reads back: none, or a truthy number whose text parses to
    it. *)
Definition rsiReadsBack (number_text : float -> string) (rsi : option float) : Prop :=
  match rsi with
  | Some x => JS.truthy x = true /\ JS.parseFloat (Some (number_text x)) = x
  | None => True
  end.

(** The store is faithful to the number [x]: the text it hands back for
    [x] parses to [x]. *)
Definition parsesBack (number_text : float -> string) (x : float) : Prop :=
  JS.parseFloat (Some (number_text x)) = x.

(** The store is faithful to the numbers of the record made from the
    payload [p]. *)
Definition faithful (number_text : float -> string) (p : NewHolding.t) : Prop :=
  parsesBack number_text (NewHolding.qty p)
  /\ parsesBack number_text (NewHolding.avg_price p)
  /\ parsesBack number_text (NewHolding.current_price p)
  /\ parsesBack number_text (NewHolding.qty p * NewHolding.current_price p)%float
  /\ parsesBack number_text (NewHolding.allocation_pct p)
  /\ forall x, NewHolding.rsi p = Some x -> parsesBack number_text x.

(** An [rsi] that is absent or is not a zero. *)
Definition nonZero (rsi : option float) : bool :=
  match rsi with
  | Some x => negb (PrimFloat.is_zero x)
  | None => true
  end.

(** The record read back for the created record [h]: [h] with the empty
    string for notes it does not have. *)
Definition readBack (h : Holding.t) : Holding.t :=
  {| Holding.id := Holding.id h;
     Holding.symbol := Holding.symbol h;
     Holding.name := Holding.name h;
     Holding.sector := Holding.sector h;
     Holding.qty := Holding.qty h;
     Holding.avg_price := Holding.avg_price h;
     Holding.current_price := Holding.current_price h;
     Holding.value := Holding.value h;
     Holding.rsi := Holding.rsi h;
     Holding.allocation_pct := Holding.allocation_pct h;
     Holding.notes := Some (JS.or_empty (Holding.notes h));
     Holding.updated_at := Holding.updated_at h |}.


(** What [updateHolding] does once the row cache has been looked after. *)
Definition updateFound (number_text : float -> string) (now id : string)
    (updates : HoldingUpdates.t) : M Holding.t :=
  rowIndex ← rowIndexOf id;
  currentRow ← Store.getRow MF_STOCKS rowIndex;
  match currentRow with
  | None => throw (HoldingNotFoundInRow id rowIndex)
  | Some currentRow =>
      let currentHolding := parseHoldingFromRow now currentRow in
      let updatedHolding :=
        recalculateValue updates (applyUpdates now id currentHolding updates) in
      let rowValues := holdingToRowValues updatedHolding in
      _ ← Store.update number_text MF_STOCKS rowIndex rowValues;
      mret updatedHolding
  end.

(** What [deleteHolding] does once the row cache has been looked after. *)
Definition deleteFound (id : string) : M unit :=
  rowIndex ← rowIndexOf id;
  sheet ← getSheetIdByName "MF & Stocks";
  _ ← Store.deleteRow sheet MF_STOCKS (rowIndex - 1) rowIndex;
  cache ← getCache;
  setCache (delete id cache).

(** A reading of the store: on a spreadsheet that has its range it ends
    without an error and leaves the spreadsheet as it was. *)
Definition reads {A} (range : string) (m : M A) : Prop :=
  forall w rows,
    spreadsheet w !! range = Some rows ->
    exists a w', m w = (Ok a, w') /\ spreadsheet w' = spreadsheet w.

End ServiceSpec.

(** ** The notions the further properties are stated with *)

Module ServiceTerms.

(** A row of the holdings that is listed: its first cell has content. *)
Definition hasId (row : list string) : bool := JS.truthy_cell (row !! 0%nat).

(** The rows of the ideal allocation, of the monthly growth and of the
    snapshots that are listed, and the records read from them. *)
Definition isIdealRow (row : list string) : bool :=
  JS.truthy_cell (row !! 0%nat) && JS.truthy_cell (row !! 1%nat).

Definition idealOfRow (row : list string) : IdealAllocation.t :=
  {| IdealAllocation.sector := JS.or_empty (row !! 0%nat);
     IdealAllocation.target_pct := JS.num_or_zero (JS.parseFloat (row !! 1%nat)) |}.

Definition isGrowthRow (row : list string) : bool :=
  JS.truthy_cell (row !! 0%nat) && JS.truthy_cell (row !! 1%nat)
  && JS.truthy_cell (row !! 2%nat).

Definition growthOfRow (row : list string) : MonthlyGrowth.t :=
  {| MonthlyGrowth.month := JS.or_empty (row !! 0%nat);
     MonthlyGrowth.account := JS.or_empty (row !! 1%nat);
     MonthlyGrowth.pnl := JS.num_or_zero (JS.parseFloat (row !! 2%nat)) |}.

Definition isSnapshotRow (row : list string) : bool :=
  JS.truthy_cell (row !! 0%nat) && JS.truthy_cell (row !! 1%nat).

Definition snapshotOfRow (row : list string) : Snapshot.t :=
  {| Snapshot.date := JS.or_empty (row !! 0%nat);
     Snapshot.sector := JS.or_empty (row !! 1%nat);
     Snapshot.actual_pct := JS.num_or_zero (JS.parseFloat (row !! 2%nat));
     Snapshot.target_pct := JS.num_or_zero (JS.parseFloat (row !! 3%nat));
     Snapshot.variance := JS.num_or_zero (JS.parseFloat (row !! 4%nat));
     Snapshot.total_value := JS.num_or_zero (JS.parseFloat (row !! 5%nat)) |}.

(** The state after one reading of [range]. *)
Definition afterGet (range : string) (w : world) : world :=
  World (spreadsheet w) (holdingsRowMap w) (calls w ++ [ValuesGet range]).

(** A run that has ended without an error. *)
Definition succeeded {A} (r : outcome A) : bool :=
  match r with
  | Ok _ => true
  | Err _ => false
  end.

(** The spreadsheet has the range. *)
Definition hasRange (w : world) (range : string) : bool :=
  JS.defined (spreadsheet w !! range).

(** A row without content: [values.get] of its range has no values. *)
Definition blank (row : list string) : bool :=
  forallb (fun c => negb (JS.truthy_str c)) row.

(** The record [updateHolding] makes of the row [currentRow]. *)
Definition updatedRecord (now id : string) (updates : HoldingUpdates.t)
    (currentRow : list string) : Holding.t :=
  recalculateValue updates
    (applyUpdates now id (parseHoldingFromRow now currentRow) updates).

(** The numbers of a snapshot read back from the store as themselves. *)
Definition snapshotReadsBack (number_text : float -> string) (s : Snapshot.t) : Prop :=
  ServiceSpec.readsBack number_text (Snapshot.actual_pct s)
  /\ ServiceSpec.readsBack number_text (Snapshot.target_pct s)
  /\ ServiceSpec.readsBack number_text (Snapshot.variance s)
  /\ ServiceSpec.readsBack number_text (Snapshot.total_value s).

End ServiceTerms.

(** Texts, by the characters that occur in them. *)
Module TextSpec.
(** The character [a] followed by the character [b] occurs in [s]. *)
Fixpoint hasPair (a b : ascii) (s : string) : bool :=
  match s with
  | String c rest =>
      match rest with
      | String d _ => (Ascii.eqb c a && Ascii.eqb d b) || hasPair a b rest
      | EmptyString => false
      end
  | EmptyString => false
  end.

(** The character [a] does not occur in [s]. *)
Fixpoint lacks (a : ascii) (s : string) : bool :=
  match s with
  | String c rest => negb (Ascii.eqb c a) && lacks a rest
  | EmptyString => true
  end.

(** A character of an identifier: a hexadecimal digit or a hyphen. *)
Definition idChar (c : ascii) : bool := UUID.isHex c || Ascii.eqb c "-".

Fixpoint idChars (s : string) : bool :=
  match s with
  | String c rest => idChar c && idChars rest
  | EmptyString => true
  end.

(** A pattern of identifiers: hexadecimal digits, version digits, variant
    digits and hyphens. *)
Fixpoint idPattern (p : string) : bool :=
  match p with
  | String c rest =>
      (Ascii.eqb c "h" || Ascii.eqb c "v" || Ascii.eqb c "r" || Ascii.eqb c "q"
       || Ascii.eqb c "-") && idPattern rest
  | EmptyString => true
  end.
End TextSpec.

(** The draws of an identifier. *)
Module UUIDSpec.
(** The calls of the callback of [generateUUID] that are made for an [x]
    of the template: all the 31 calls but the call number 15, which is
    made for the [y]. *)
Definition xDraws : list nat := seq 0 15 ++ seq 16 15.
Definition yDraw : nat := 15.
End UUIDSpec.

(** Months written [YYYY-MM], by the calendar. *)
Module MonthSpec.
(** The value of a decimal digit. *)
Definition digit (c : ascii) : Z := Z.of_nat (nat_of_ascii c) - 48.

(** The year and the number of the month of a month written [YYYY-MM]. *)
Definition yearOf (s : string) : Z :=
  match s with
  | String y1 (String y2 (String y3 (String y4 _))) =>
      ((digit y1 * 10 + digit y2) * 10 + digit y3) * 10 + digit y4
  | _ => 0
  end.

Definition monthOf (s : string) : Z :=
  match s with
  | String _ (String _ (String _ (String _ (String _ (String m1 (String m2 _)))))) =>
      digit m1 * 10 + digit m2
  | _ => 0
  end.

(** The order of the calendar: by year, then by month. *)
Definition chronological (a b : string) : comparison :=
  match Z.compare (yearOf a) (yearOf b) with
  | Eq => Z.compare (monthOf a) (monthOf b)
  | c => c
  end.
End MonthSpec.

(** The environment and its texts. *)
Module ConfigSpec.
(** The variable is set, to a text that is not empty. *)
Definition isSet (env : gmap string string) (envVar : string) : bool :=
  JS.truthy_cell (env !! envVar).

(** The first character of a text. *)
Definition first (s : string) : option ascii :=
  match s with
  | String c _ => Some c
  | EmptyString => None
  end.
End ConfigSpec.

(** ** Sample data *)

Module Sample.

Local Open Scope float_scope.

Definition now : string := "2026-11-02T09:22:00.000Z".

Definition header : list string :=
  [ "id"; "symbol"; "name"; "sector"; "qty"; "avg_price"; "current_price"; "value";
    "rsi"; "allocation_pct"; "notes"; "updated_at" ].

(** A row of the holdings as the store hands it back. *)
Definition row (id symbol sector value : string) : list string :=
  [ id; symbol; symbol; sector; "1"; "1"; "1"; value; ""; "10"; "";
    "2026-01-01T00:00:00.000Z" ].

Definition idA : string := "11111111-1111-4111-8111-111111111111".
Definition idB : string := "22222222-2222-4222-8222-222222222222".
Definition idC : string := "33333333-3333-4333-8333-333333333333".
Definition idD : string := "44444444-4444-4444-8444-444444444444".
Definition idE : string := "55555555-5555-4555-8555-555555555555".

Definition holding (sector : string) (value : float) : Holding.t :=
  {| Holding.id := idA; Holding.symbol := "S"; Holding.name := "S";
     Holding.sector := sector; Holding.qty := 1; Holding.avg_price := value;
     Holding.current_price := value; Holding.value := value; Holding.rsi := None;
     Holding.allocation_pct := 10; Holding.notes := None;
     Holding.updated_at := "2026-01-01T00:00:00.000Z" |}.

Definition holdings : list Holding.t := [ holding "tech" 600; holding "bonds" 300 ].

Definition tech60 : IdealAllocation.t :=
  {| IdealAllocation.sector := "tech"; IdealAllocation.target_pct := 60 |}.

Definition ideals : list IdealAllocation.t :=
  [ tech60; {| IdealAllocation.sector := "bonds"; IdealAllocation.target_pct := 40 |} ].

Definition entry (month : string) (pnl : float) : MonthlyGrowth.t :=
  {| MonthlyGrowth.month := month; MonthlyGrowth.account := "main"; MonthlyGrowth.pnl := pnl |}.

Definition growth : list MonthlyGrowth.t :=
  [ entry "2026-02" 20; entry "2025-12" (-5); entry "2026-01" 10 ].

(** Holdings read from rows with values the service does not write: the
    values of the sector tech are -1e308, -1e308 and Infinity. *)
Definition extremeRows : list (list string) :=
  [ row idA "A" "tech" "-1e308"; row idB "B" "bonds" "1.5e308";
    row idC "C" "tech" "-1e308"; row idD "D" "tech" "Infinity" ].

Definition extremeHoldings : list Holding.t := map (parseHoldingFromRow now) extremeRows.

(** Holdings and an ideal allocation with sectors named [constructor] and
    [__proto__], names of members of [Object.prototype]. *)
Definition memberRows : list (list string) :=
  [ [ idA; "A"; "A"; "constructor"; "6"; "90"; "100"; "600"; ""; "60"; "";
      "2026-01-01T00:00:00.000Z" ];
    [ idB; "B"; "B"; "bonds"; "3"; "100"; "100"; "300"; ""; "30"; "";
      "2026-01-01T00:00:00.000Z" ] ].

Definition memberHoldings : list Holding.t := map (parseHoldingFromRow now) memberRows.

Definition constructor60 : IdealAllocation.t :=
  {| IdealAllocation.sector := "constructor"; IdealAllocation.target_pct := 60 |}.

Definition memberIdeals : list IdealAllocation.t :=
  [ constructor60;
    {| IdealAllocation.sector := "bonds"; IdealAllocation.target_pct := 30 |};
    {| IdealAllocation.sector := "__proto__"; IdealAllocation.target_pct := 10 |} ].

(** A service that has just started, on a spreadsheet with one holding. *)
Definition started : world :=
  World {[ MF_STOCKS := [ header; row idA "A" "tech" "1" ] ]} ∅ [].

Definition payload : NewHolding.t :=
  {| NewHolding.symbol := "AAPL"; NewHolding.name := "Apple Inc";
     NewHolding.sector := "Technology"; NewHolding.qty := 10;
     NewHolding.avg_price := 150; NewHolding.current_price := 155;
     NewHolding.rsi := Some 55; NewHolding.allocation_pct := 15.5;
     NewHolding.notes := Some "Large cap growth stock" |}.

Definition sevens : nat -> Z := fun _ => 7%Z.

(** A check of the identifiers that admits the identifier of zeros besides
    those of the shape of [UUID.pattern]. *)
Definition uuid (id : string) : bool :=
  UUID.holdingIdSchema id || String.eqb id "00000000-0000-0000-0000-000000000000".

Definition idNew : string := "77777777-7777-4777-b777-777777777777".

(** The service after one listing of the holdings and one creation. *)
Definition listed : world := snd (getHoldings now started).
Definition created : world := snd (addHolding Store.decimalText now sevens payload listed).

(** A spreadsheet with five holdings, and the service after it has deleted
    the first and then the second of them. *)
Definition five : world :=
  World {[ MF_STOCKS := [ header; row idA "A" "tech" "1"; row idB "B" "tech" "1";
                          row idC "C" "tech" "1"; row idD "D" "tech" "1";
                          row idE "E" "tech" "1" ] ]} ∅ [].
Definition afterA : world := snd (deleteHolding idA five).
Definition afterB : world := snd (deleteHolding idB afterA).

(** The identifiers in the first column of the holdings. *)
Definition firstColumn (w : world) : list (option string) :=
  map (fun r : list string => r !! 0%nat) (default [] (spreadsheet w !! MF_STOCKS)).

(** An update of the quantity of the first holding, after a listing. *)
Definition moreQty : HoldingUpdates.t :=
  {| HoldingUpdates.symbol := None; HoldingUpdates.name := None;
     HoldingUpdates.sector := None; HoldingUpdates.qty := Some 3;
     HoldingUpdates.avg_price := None; HoldingUpdates.current_price := None;
     HoldingUpdates.value := None; HoldingUpdates.rsi := None;
     HoldingUpdates.allocation_pct := None; HoldingUpdates.notes := None;
     HoldingUpdates.updated_at := None |}.

Definition updated : outcome Holding.t * world :=
  updateHolding Store.decimalText now idA moreQty listed.

Definition updatedHolding : Holding.t :=
  default (holding "" 0) (fst_ok updated).

(** A payload whose [rsi] is 0 and that has no notes. *)
Definition zeroRsi : NewHolding.t :=
  {| NewHolding.symbol := "AAPL"; NewHolding.name := "Apple Inc";
     NewHolding.sector := "Technology"; NewHolding.qty := 10;
     NewHolding.avg_price := 150; NewHolding.current_price := 155;
     NewHolding.rsi := Some 0; NewHolding.allocation_pct := 15.5;
     NewHolding.notes := None |}.

Definition createdZero : outcome Holding.t * world :=
  addHolding Store.decimalText now sevens zeroRsi started.

End Sample.

(** A spreadsheet with its four ranges. *)
Module Book.
Local Open Scope float_scope.

Definition holdingRows : list (list string) :=
  [ Sample.header; Sample.row Sample.idA "A" "tech" "600";
    Sample.row Sample.idB "B" "bonds" "300" ].

Definition idealRows : list (list string) :=
  [ [ "sector"; "target_pct" ]; [ "tech"; "60" ]; [ "bonds"; "40" ]; [ "cash"; "none" ];
    [ ""; "5" ] ].

Definition growthRows : list (list string) :=
  [ [ "month"; "account"; "pnl" ]; [ "2026-02"; "main"; "20" ]; [ "2025-12"; "main"; "-5" ];
    [ "2026-01"; ""; "7" ] ].

Definition snapshotRows : list (list string) :=
  [ [ "date"; "sector"; "actual_pct"; "target_pct"; "variance"; "total_value" ];
    [ "2026-10-01"; "tech"; "50"; "60"; "-10"; "800" ] ].

(** A service that has just started, on a spreadsheet with the four
    ranges. *)
Definition opened : world :=
  World {[ MF_STOCKS := holdingRows; IDEAL_ALLOCATION := idealRows;
           MONTHLY_GROWTH := growthRows; SNAPSHOT := snapshotRows ]} ∅ [].

(** The spreadsheet with the sectors named as members of the prototype. *)
Definition members : world :=
  World {[ MF_STOCKS := Sample.header :: Sample.memberRows;
           IDEAL_ALLOCATION :=
             [ [ "sector"; "target_pct" ]; [ "constructor"; "60" ]; [ "bonds"; "30" ];
               [ "__proto__"; "10" ] ];
           MONTHLY_GROWTH := growthRows; SNAPSHOT := snapshotRows ]} ∅ [].

Definition march : MonthlyGrowth.t :=
  {| MonthlyGrowth.month := "2026-03"; MonthlyGrowth.account := "main";
     MonthlyGrowth.pnl := 12.5 |}.

Definition snapshotRun : outcome (list Snapshot.t) * world :=
  createSnapshot Store.decimalText Sample.now opened.

Definition threes : nat -> Z := fun _ => 3%Z.
End Book.

(** * Properties *)

(** ** Numbers *)

Section FloatFacts.
Local Open Scope float_scope.

Lemma Prim2SF_zero : Prim2SF 0 = S754_zero false.
Proof. reflexivity. Qed.

Lemma eqb_zero_not_positive (t : float) : (t =? 0) = true -> (0 <? t) = false.
Proof.
  rewrite FloatAxioms.eqb_spec, FloatAxioms.ltb_spec, Prim2SF_zero.
  unfold SFeqb, SFltb.
  destruct (Prim2SF t) as [s| s | |s m e]; simpl; try destruct s; congruence.
Qed.

Lemma or_zero_keeps (t : float) : JS.resets t = false -> JS.or_zero (Some t) = t.
Proof.
  unfold JS.resets, JS.or_zero, JS.truthy, JS.is_neg_zero, is_zero, PrimFloat.zero.
  intros H. apply orb_false_elim in H as [Hnan Hneg]. rewrite Hnan, orb_false_r.
  destruct (t =? 0) eqn:E; simpl; [|reflexivity].
  rewrite FloatAxioms.eqb_spec, Prim2SF_zero in E.
  rewrite <- (SF2Prim_Prim2SF t). unfold SFeqb in E.
  destruct (Prim2SF t) as [s| s | |s m e]; simpl in E; try discriminate.
  - destruct s; [discriminate|reflexivity].
  - destruct s; discriminate.
  - destruct s; discriminate.
Qed.

Lemma truthy_not_nan (t : float) : JS.truthy t = true -> is_nan t = false.
Proof.
  unfold JS.truthy. intros H. apply negb_true_iff, orb_false_elim in H. tauto.
Qed.

Lemma num_or_zero_not_nan (t : float) : is_nan (JS.num_or_zero t) = false.
Proof.
  unfold JS.num_or_zero, JS.or_zero. destruct (JS.truthy t) eqn:E.
  - now apply truthy_not_nan.
  - reflexivity.
Qed.
End FloatFacts.

(** ** Sums of numbers that are not negative

    The sum of two numbers that are not negative is no [NaN], and is [-0]
    only when both are: the rounding of a mantissa that is not negative
    keeps the sign it is given. *)

Section Rounding.

Lemma shr_1_nonneg (mrs : shr_record) : (0 <= shr_m mrs)%Z -> (0 <= shr_m (shr_1 mrs))%Z.
Proof.
  destruct mrs as [m r s]. simpl. destruct m as [|p|p]; [|destruct p|]; simpl; lia.
Qed.

Lemma iter_pos_invariant {A} (P : A -> Prop) (f : A -> A) :
  (forall x, P x -> P (f x)) -> forall n x, P x -> P (SpecFloat.iter_pos f n x).
Proof.
  intros Hf. induction n as [n IH|n IH|]; intros x Hx; simpl; auto.
Qed.

Lemma shr_nonneg (mrs : shr_record) (e n : Z) :
  (0 <= shr_m mrs)%Z -> (0 <= shr_m (fst (shr mrs e n)))%Z.
Proof.
  intros H. unfold shr. destruct n; simpl; try assumption.
  apply (iter_pos_invariant (fun r => (0 <= shr_m r)%Z)); [apply shr_1_nonneg|assumption].
Qed.

Lemma shr_fexp_nonneg (m e : Z) (l : location) :
  (0 <= m)%Z -> (0 <= shr_m (fst (shr_fexp prec emax m e l)))%Z.
Proof.
  intros H. unfold shr_fexp. apply shr_nonneg.
  destruct l as [|[]]; simpl; assumption.
Qed.

Lemma round_nearest_even_nonneg (m : Z) (l : location) :
  (0 <= m)%Z -> (0 <= round_nearest_even m l)%Z.
Proof.
  intros H. unfold round_nearest_even. destruct l as [|[]]; try lia.
  destruct (Z.even m); lia.
Qed.

Lemma binary_round_aux_signed (s : bool) (m e : Z) (l : location) :
  (0 <= m)%Z -> SF.signed s (binary_round_aux prec emax s m e l).
Proof.
  intros H. unfold binary_round_aux.
  pose proof (shr_fexp_nonneg m e l H) as H1.
  destruct (shr_fexp prec emax m e l) as [mrs' e']. simpl in H1.
  pose proof (shr_fexp_nonneg _ e' loc_Exact
                (round_nearest_even_nonneg _ (loc_of_shr_record mrs') H1)) as H2.
  destruct (shr_fexp prec emax _ e' loc_Exact) as [mrs'' e'']. simpl in H2.
  destruct (shr_m mrs'') as [|p|p]; simpl; [reflexivity| |lia].
  destruct (e'' <=? emax - prec)%Z; reflexivity.
Qed.

Lemma binary_round_signed (s : bool) (m : positive) (e : Z) :
  SF.signed s (binary_round prec emax s m e).
Proof.
  unfold binary_round. destruct (shl_align m e _) as [mz ez].
  apply binary_round_aux_signed. lia.
Qed.

Lemma SFadd_plus (x y : spec_float) :
  SF.plus x -> SF.notNegative y -> SF.plus (SFadd prec emax x y).
Proof.
  destruct x as [[]|[]| |[] mx ex]; simpl; try contradiction;
    destruct y as [[]|[]| |[] my ey]; simpl; try contradiction; intros _ _; try exact I.
  unfold binary_normalize.
  destruct (shl_align mx ex (Z.min ex ey)) as [m1 e1], (shl_align my ey (Z.min ex ey)) as [m2 e2].
  simpl.
  pose proof (binary_round_signed false (m1 + m2) (Z.min ex ey)) as H.
  destruct (binary_round prec emax false (m1 + m2) (Z.min ex ey)) as [s|s| |s m e];
    simpl in H; try contradiction; subst s; exact I.
Qed.

Local Open Scope float_scope.

Lemma nonNegative_spec (x : float) :
  Spec.nonNegative x = true -> SF.notNegative (Prim2SF x).
Proof.
  unfold Spec.nonNegative. rewrite FloatAxioms.leb_spec, Prim2SF_zero. unfold SFleb.
  destruct (Prim2SF x) as [s|[]| |[] m e]; simpl; try discriminate; intros _; exact I.
Qed.

Lemma plus_no_reset (x : float) : SF.plus (Prim2SF x) -> JS.resets x = false.
Proof.
  unfold JS.resets, JS.is_neg_zero, is_nan. rewrite FloatAxioms.eqb_spec. unfold SFeqb.
  destruct (Prim2SF x) as [[]|[]| |[] m e]; simpl; try contradiction; intros _; try reflexivity.
  rewrite Z.compare_refl, Pos.compare_cont_refl. reflexivity.
Qed.

Lemma sumsFrom_no_reset (xs : list float) (acc : float) :
  SF.plus (Prim2SF acc) ->
  Forall (fun x => Spec.nonNegative x = true) xs ->
  Forall (fun t => JS.resets t = false) (Spec.sumsFrom acc xs).
Proof.
  revert acc. induction xs as [|x xs IH]; intros acc Hacc Hxs; simpl; [constructor|].
  inversion Hxs as [|? ? Hx Hxs']; subst.
  assert (Hsum : SF.plus (Prim2SF (acc + x))).
  { rewrite FloatAxioms.add_spec. apply SFadd_plus; [assumption|now apply nonNegative_spec]. }
  constructor; [now apply plus_no_reset|now apply IH].
Qed.

Lemma runningSums_no_reset (xs : list float) :
  Forall (fun x => Spec.nonNegative x = true) xs ->
  Forall (fun t => JS.resets t = false) (Spec.runningSums xs).
Proof. apply sumsFrom_no_reset. rewrite Prim2SF_zero. exact I. Qed.

(** *** Numbers a valid payload has

    A positive number is truthy; the product of two positive numbers and a
    number of a range that starts at 0, the negative zero apart, are left
    alone by [|| 0]. *)

Lemma positive_spec (x : float) :
  Validation.positive x = true ->
  match Prim2SF x with
  | S754_infinity false | S754_finite false _ _ => True
  | _ => False
  end.
Proof.
  unfold Validation.positive. rewrite FloatAxioms.ltb_spec, Prim2SF_zero. unfold SFltb.
  destruct (Prim2SF x) as [s|[]| |[] m e]; simpl; try discriminate; intros _; exact I.
Qed.

Lemma positive_plus (x : float) : Validation.positive x = true -> SF.plus (Prim2SF x).
Proof.
  intros H. apply positive_spec in H.
  destruct (Prim2SF x) as [[]|[]| |[] m e]; simpl in *; tauto.
Qed.

Lemma SFmul_plus (x y : spec_float) :
  match x with S754_infinity false | S754_finite false _ _ => True | _ => False end ->
  match y with S754_infinity false | S754_finite false _ _ => True | _ => False end ->
  SF.plus (SFmul prec emax x y).
Proof.
  destruct x as [[]|[]| |[] mx ex]; simpl; try contradiction;
    destruct y as [[]|[]| |[] my ey]; simpl; try contradiction; intros _ _; try exact I.
  pose proof (binary_round_aux_signed false (Z.pos (mx * my)) (ex + ey) loc_Exact) as H.
  destruct (binary_round_aux prec emax false (Z.pos (mx * my)) (ex + ey) loc_Exact)
    as [s|s| |s m e]; simpl in H.
  - rewrite H by lia. exact I.
  - rewrite H by lia. exact I.
  - apply H. lia.
  - rewrite H by lia. exact I.
Qed.

Lemma product_plus (x y : float) :
  Validation.positive x = true -> Validation.positive y = true ->
  SF.plus (Prim2SF (x * y)).
Proof.
  intros Hx Hy. rewrite FloatAxioms.mul_spec. apply SFmul_plus; now apply positive_spec.
Qed.

Lemma within_notNegative (hi x : float) :
  Validation.within 0 hi x = true -> SF.notNegative (Prim2SF x).
Proof.
  unfold Validation.within. intros H. apply andb_prop in H as [H _].
  now apply nonNegative_spec.
Qed.

Lemma within_plus (hi x : float) :
  Validation.within 0 hi x = true -> JS.is_neg_zero x = false -> SF.plus (Prim2SF x).
Proof.
  intros H Hz. apply within_notNegative in H. unfold JS.is_neg_zero in Hz.
  destruct (Prim2SF x) as [[]|[]| |[] m e]; simpl in *; try contradiction; try discriminate;
    exact I.
Qed.

Lemma plus_num_or_zero (x : float) : SF.plus (Prim2SF x) -> JS.num_or_zero x = x.
Proof. intros H. apply or_zero_keeps. now apply plus_no_reset. Qed.

Lemma within_truthy (hi x : float) :
  Validation.within 0 hi x = true -> is_zero x = false -> JS.truthy x = true.
Proof.
  intros H Hz. apply within_notNegative in H. unfold JS.truthy. rewrite Hz. simpl.
  unfold is_nan. rewrite FloatAxioms.eqb_spec. unfold SFeqb.
  destruct (Prim2SF x) as [[]|[]| |[] m e]; simpl in *; try contradiction; try reflexivity.
  now rewrite Z.compare_refl, Pos.compare_cont_refl.
Qed.

End Rounding.

Section Folds.
Lemma fold_left_push {A B} (f : A -> B) (l : list A) (init : list B) :
  fold_left (fun acc x => acc ++ [f x]) l init = init ++ map f l.
Proof.
  revert init. induction l as [|x l IH]; intros init; simpl.
  - now rewrite app_nil_r.
  - rewrite IH, <- app_assoc. reflexivity.
Qed.

Lemma fold_left_map_sum {A} (f : A -> float) (l : list A) (init : float) :
  fold_left (fun sum h => sum + f h)%float l init
  = fold_left (fun acc x => acc + x)%float (map f l) init.
Proof. revert init. induction l; intros; simpl; auto. Qed.
End Folds.


Section AggregationFacts.
Local Open Scope float_scope.

Lemma totalValue_sum hs : Aggregation.totalValue hs = Spec.sum (map Holding.value hs).
Proof. apply fold_left_map_sum. Qed.

Lemma nan_div (y : float) : nan / y = nan.
Proof. apply FloatAxioms.Prim2SF_inj. rewrite FloatAxioms.div_spec. reflexivity. Qed.

Lemma nan_mul (y : float) : nan * y = nan.
Proof. apply FloatAxioms.Prim2SF_inj. rewrite FloatAxioms.mul_spec. reflexivity. Qed.

Lemma nan_sub (y : float) : nan - y = nan.
Proof. apply FloatAxioms.Prim2SF_inj. rewrite FloatAxioms.sub_spec. reflexivity. Qed.

Lemma inherited_proto (s : string) :
  Obj.inherited s = false -> String.eqb s "__proto__" = false.
Proof.
  intros H. destruct (String.eqb_spec s "__proto__") as [->|_]; [discriminate H|reflexivity].
Qed.

Lemma set_lookup {V} (o : gmap string V) (key s : string) (v : V) :
  Obj.set o key v !! s
  = if String.eqb key "__proto__" then o !! s
    else if String.eqb key s then Some v else o !! s.
Proof.
  unfold Obj.set. destruct (String.eqb key "__proto__"); [reflexivity|].
  destruct (String.eqb_spec key s) as [->|Hne].
  - apply lookup_insert_eq.
  - now apply lookup_insert_ne.
Qed.

Lemma set_lookup_other {V} (o : gmap string V) (key s : string) (v : V) :
  key <> s -> Obj.set o key v !! s = o !! s.
Proof.
  intros Hne. rewrite set_lookup. apply String.eqb_neq in Hne. rewrite Hne.
  now destruct (String.eqb key "__proto__").
Qed.

Lemma sectorTotals_fold (hs : list Holding.t) (acc : gmap string Obj.value) (s : string)
    (a : option float) :
  Obj.inherited s = false ->
  acc !! s = Obj.Num <$> a ->
  fold_left
    (fun acc h =>
       Obj.set acc (Holding.sector h)
         (Obj.add (Obj.or_zero (Obj.get acc (Holding.sector h))) (Holding.value h)))
    hs acc !! s
  = Obj.Num <$> fold_left (fun a x => Some (JS.or_zero a + x))
                  (map Holding.value (Spec.ofSector s hs)) a.
Proof.
  intros Hs. revert acc a. induction hs as [|h hs IH]; intros acc a Hacc; simpl; [exact Hacc|].
  destruct (String.eqb_spec (Holding.sector h) s) as [->|Hne]; simpl.
  - apply IH. rewrite set_lookup, (inherited_proto s Hs), String.eqb_refl.
    unfold Obj.get. rewrite Hacc, Hs. now destruct a.
  - apply IH. now rewrite set_lookup_other.
Qed.

Lemma sectorTotals_lookup hs s :
  Obj.inherited s = false ->
  Aggregation.sectorTotals hs !! s
  = Obj.Num <$> Spec.accumulated (map Holding.value (Spec.ofSector s hs)).
Proof.
  intros Hs. unfold Aggregation.sectorTotals, Spec.accumulated.
  now apply sectorTotals_fold; [|rewrite lookup_empty].
Qed.

(** What the totals hold at the name of a member of the prototype is no
    number: nothing, or a text. *)
Lemma sectorTotals_member (hs : list Holding.t) (acc : gmap string Obj.value) (s : string) :
  Obj.inherited s = true ->
  acc !! s = None \/ acc !! s = Some Obj.Text ->
  exists totals,
    fold_left
      (fun acc h =>
         Obj.set acc (Holding.sector h)
           (Obj.add (Obj.or_zero (Obj.get acc (Holding.sector h))) (Holding.value h)))
      hs acc = totals
    /\ (totals !! s = None \/ totals !! s = Some Obj.Text).
Proof.
  intros Hs. revert acc. induction hs as [|h hs IH]; intros acc Hacc; simpl; [now exists acc|].
  apply IH. destruct (String.eqb_spec (Holding.sector h) s) as [->|Hne].
  - rewrite set_lookup, String.eqb_refl.
    destruct (String.eqb s "__proto__"); [exact Hacc|]. right.
    unfold Obj.get. rewrite Hs. now destruct Hacc as [-> | ->].
  - now rewrite set_lookup_other.
Qed.

Lemma toNumber_member (hs : list Holding.t) (s : string) :
  Obj.inherited s = true ->
  Obj.toNumber (Obj.or_zero (Obj.get (Aggregation.sectorTotals hs) s)) = nan.
Proof.
  intros Hs. unfold Aggregation.sectorTotals.
  destruct (sectorTotals_member hs ∅ s Hs (or_introl (lookup_empty s)))
    as (totals & -> & [H | H]); unfold Obj.get; rewrite H.
  - now rewrite Hs.
  - reflexivity.
Qed.

(** The percentage of a sector with the name of a member of the prototype:
    no number when the total is positive. *)
Lemma actualPct_member (hs : list Holding.t) (total : float) (s : string) :
  Obj.inherited s = true ->
  Aggregation.actualPct (Aggregation.sectorTotals hs) total s
  = if 0 <? total then nan else 0.
Proof.
  intros Hs. unfold Aggregation.actualPct. rewrite (toNumber_member hs s Hs).
  destruct (0 <? total); [|reflexivity]. now rewrite nan_div, nan_mul.
Qed.

Lemma accumulated_from (xs : list float) (t : float) :
  Forall (fun u => JS.resets u = false) (t :: Spec.sumsFrom t xs) ->
  JS.or_zero (fold_left (fun a x => Some (JS.or_zero a + x)) xs (Some t))
  = fold_left (fun acc x => acc + x) xs t.
Proof.
  revert t. induction xs as [|x xs IH]; intros t H; cbn [fold_left Spec.sumsFrom] in *.
  - apply or_zero_keeps. now inversion H.
  - inversion H as [|? ? Ht Hrest]; subst.
    rewrite (or_zero_keeps t Ht). now apply IH.
Qed.

Lemma accumulated_sum (xs : list float) :
  Forall (fun u => JS.resets u = false) (Spec.runningSums xs) ->
  JS.or_zero (Spec.accumulated xs) = Spec.sum xs.
Proof.
  unfold Spec.accumulated, Spec.sum, Spec.runningSums.
  destruct xs as [|x xs]; cbn [fold_left Spec.sumsFrom]; [reflexivity|].
  intros H. change (JS.or_zero None) with 0. now apply accumulated_from.
Qed.

Lemma sectorValue_sum (hs : list Holding.t) (s : string) :
  Forall (fun h => Spec.nonNegative (Holding.value h) = true) hs ->
  Spec.sectorValue s hs = Spec.sum (map Holding.value (Spec.ofSector s hs)).
Proof.
  intros H. apply accumulated_sum, runningSums_no_reset.
  apply List.Forall_forall. intros x Hx. apply in_map_iff in Hx as (h & <- & Hh).
  apply filter_In in Hh as [Hh _]. rewrite List.Forall_forall in H. now apply H.
Qed.

Lemma actualPct_sectorValue hs total s :
  Obj.inherited s = false ->
  Aggregation.actualPct (Aggregation.sectorTotals hs) total s
  = Spec.percentOf (Spec.sectorValue s hs) total.
Proof.
  intros Hs. unfold Aggregation.actualPct, Spec.percentOf, Spec.sectorValue, Obj.get.
  rewrite (sectorTotals_lookup hs s Hs).
  destruct (Spec.accumulated _); cbn [fmap option_fmap option_map]; [reflexivity|].
  now rewrite Hs.
Qed.

Lemma actualPct_percentOf hs s :
  Obj.inherited s = false ->
  Aggregation.actualPct (Aggregation.sectorTotals hs) (Aggregation.totalValue hs) s
  = Spec.percentOf (Spec.sectorValue s hs) (Spec.sum (map Holding.value hs)).
Proof. intros Hs. now rewrite actualPct_sectorValue, totalValue_sum. Qed.

(** With a total that is not positive the percentage is 0 for every name. *)
Lemma actualPct_no_total (totals : gmap string Obj.value) (total : float) (s : string) :
  (0 <? total) = false -> Aggregation.actualPct totals total s = 0.
Proof. intros H. unfold Aggregation.actualPct. now rewrite H. Qed.

Lemma beforeT_prefix (day time : string) :
  (forall c, In c (list_ascii_of_string day) -> c <> "T"%char) ->
  Aggregation.beforeT (day ++ String "T" time) = day.
Proof.
  induction day as [|c day IH]; intros H; simpl.
  - reflexivity.
  - destruct (Ascii.eqb_spec c "T") as [->|Hc].
    + exfalso. apply (H "T"%char); simpl; auto.
    + f_equal. apply IH. intros c' Hin. apply H. simpl. auto.
Qed.

Lemma allocationVariance_fold (f : IdealAllocation.t -> float)
    (ideals : list IdealAllocation.t) (acc : gmap string float) (s : string) :
  fold_left (fun acc ideal => Obj.set acc (IdealAllocation.sector ideal) (f ideal)) ideals acc
  !! s
  = if String.eqb s "__proto__" then acc !! s
    else match last (Spec.idealsOf s ideals) with
         | Some ideal => Some (f ideal)
         | None => acc !! s
         end.
Proof.
  revert acc. induction ideals as [|i ideals IH]; intros acc; simpl.
  - now destruct (String.eqb s "__proto__").
  - rewrite IH. unfold Spec.idealsOf in *.
    destruct (String.eqb s "__proto__") eqn:Hp.
    + rewrite set_lookup. destruct (String.eqb (IdealAllocation.sector i) "__proto__") eqn:E;
        [reflexivity|].
      destruct (String.eqb_spec (IdealAllocation.sector i) s) as [Heq|_]; [|reflexivity].
      rewrite Heq in E. congruence.
    + destruct (String.eqb_spec (IdealAllocation.sector i) s) as [->|Hne]; simpl.
      * rewrite last_cons. destruct (last (List.filter _ ideals)); [reflexivity|].
        now rewrite set_lookup, Hp, String.eqb_refl.
      * destruct (last (List.filter _ ideals)); [reflexivity|]. now rewrite set_lookup_other.
Qed.

(** The names that become keys: all but [__proto__]. *)
Lemma allocationVariance_dom (f : IdealAllocation.t -> float)
    (ideals : list IdealAllocation.t) (acc : gmap string float) :
  dom (fold_left (fun acc ideal => Obj.set acc (IdealAllocation.sector ideal) (f ideal))
         ideals acc)
  = dom acc
    ∪ list_to_set (List.filter (fun s => negb (String.eqb s "__proto__"))
                     (map IdealAllocation.sector ideals)).
Proof.
  revert acc. induction ideals as [|i ideals IH]; intros acc; simpl.
  - now rewrite (right_id_L ∅ (∪)).
  - rewrite IH. unfold Obj.set.
    destruct (String.eqb (IdealAllocation.sector i) "__proto__"); cbn [negb]; [reflexivity|].
    rewrite dom_insert_L. cbn [list_to_set].
    rewrite (comm_L (∪) {[IdealAllocation.sector i]} (dom acc)).
    now rewrite (assoc_L (∪)).
Qed.

Lemma last_idealsOf s ideals :
  In s (map IdealAllocation.sector ideals) ->
  exists ideal, last (Spec.idealsOf s ideals) = Some ideal
                /\ In ideal ideals /\ IdealAllocation.sector ideal = s.
Proof.
  intros Hin. apply in_map_iff in Hin as (i & Hs & Hi).
  assert (Hf : In i (Spec.idealsOf s ideals)).
  { apply filter_In. split; [assumption|]. now apply String.eqb_eq. }
  destruct (last (Spec.idealsOf s ideals)) as [j|] eqn:E.
  - exists j. split; [reflexivity|].
    apply last_Some in E as (l' & E).
    assert (Hj : In j (Spec.idealsOf s ideals)) by (rewrite E; apply in_or_app; right; simpl; auto).
    apply filter_In in Hj as (Hj1 & Hj2). split; [assumption|]. now apply String.eqb_eq.
  - apply last_None in E. rewrite E in Hf. destruct Hf.
Qed.

(** The variance at a sector of the ideal allocation, for names other than
    [__proto__]: that of the last entry of the sector. *)
Lemma allocationVariance_last (holdings : list Holding.t)
    (ideals : list IdealAllocation.t) (sector : string) :
  In sector (map IdealAllocation.sector ideals) ->
  String.eqb sector "__proto__" = false ->
  exists ideal,
    last (Spec.idealsOf sector ideals) = Some ideal
    /\ In ideal ideals
    /\ IdealAllocation.sector ideal = sector
    /\ Aggregation.allocationVariance holdings ideals !! sector
       = Some (Aggregation.actualPct (Aggregation.sectorTotals holdings)
                 (Aggregation.totalValue holdings) sector
               - IdealAllocation.target_pct ideal).
Proof.
  intros Hs Hp. destruct (last_idealsOf sector ideals Hs) as (ideal & Hlast & Hin & Hsec).
  exists ideal. repeat split; try assumption.
  unfold Aggregation.allocationVariance.
  now rewrite allocationVariance_fold, Hp, Hlast, Hsec.
Qed.

Lemma allocationVariance_lookup (holdings : list Holding.t)
    (ideals : list IdealAllocation.t) (sector : string) :
  In sector (map IdealAllocation.sector ideals) ->
  Obj.inherited sector = false ->
  exists ideal,
    last (Spec.idealsOf sector ideals) = Some ideal
    /\ In ideal ideals
    /\ IdealAllocation.sector ideal = sector
    /\ Aggregation.allocationVariance holdings ideals !! sector
       = Some (Spec.percentOf (Spec.sectorValue sector holdings)
                 (Aggregation.totalValue holdings)
               - IdealAllocation.target_pct ideal).
Proof.
  intros Hs Hplain.
  destruct (allocationVariance_last holdings ideals sector Hs (inherited_proto _ Hplain))
    as (ideal & Hlast & Hin & Hsec & Hv).
  exists ideal. repeat split; try assumption.
  now rewrite Hv, actualPct_sectorValue.
Qed.

(** [__proto__] never becomes a key of the variance. *)
Lemma allocationVariance_proto (holdings : list Holding.t)
    (ideals : list IdealAllocation.t) :
  Aggregation.allocationVariance holdings ideals !! "__proto__" = None.
Proof.
  unfold Aggregation.allocationVariance. rewrite allocationVariance_fold.
  apply lookup_empty.
Qed.

Lemma snapshots_map (now : string) (holdings : list Holding.t)
    (ideals : list IdealAllocation.t) :
  Aggregation.snapshots now holdings ideals
  = map (Aggregation.snapshotFor (Aggregation.beforeT now)
           (Aggregation.sectorTotals holdings) (Aggregation.totalValue holdings)) ideals.
Proof. unfold Aggregation.snapshots. now rewrite fold_left_push. Qed.

End AggregationFacts.

(** ** Sorting *)

Section SortFacts.
Context {A : Type}.

Lemma insert_perm (cmp : A -> A -> comparison) x l :
  Permutation (Aggregation.insert cmp x l) (x :: l).
Proof.
  induction l as [|y l IH]; simpl; [reflexivity|].
  destruct (cmp x y); try reflexivity.
  rewrite IH. apply perm_swap.
Qed.

Lemma sort_perm (cmp : A -> A -> comparison) l :
  Permutation (Aggregation.sort cmp l) l.
Proof.
  induction l as [|x l IH]; simpl; [reflexivity|].
  rewrite insert_perm. now apply perm_skip.
Qed.

Lemma insert_agree (c1 c2 : A -> A -> comparison) x l :
  (forall y, In y l -> c1 x y = c2 x y) ->
  Aggregation.insert c1 x l = Aggregation.insert c2 x l.
Proof.
  induction l as [|y l IH]; intros H; simpl; [reflexivity|].
  rewrite <- (H y) by (simpl; auto).
  destruct (c1 x y); try reflexivity.
  f_equal. apply IH. intros z Hz. apply H. simpl. auto.
Qed.

Lemma sort_agree (c1 c2 : A -> A -> comparison) l :
  (forall x y, In x l -> In y l -> c1 x y = c2 x y) ->
  Aggregation.sort c1 l = Aggregation.sort c2 l.
Proof.
  induction l as [|x l IH]; intros H; simpl; [reflexivity|].
  rewrite IH by (intros; apply H; simpl; auto).
  apply insert_agree. intros y Hy. apply H; simpl; [auto|].
  right. eapply Permutation_in; [apply sort_perm|exact Hy].
Qed.

Section Ordered.
Variable cmp : A -> A -> comparison.
Let le (x y : A) : Prop := cmp x y <> Gt.
Hypothesis le_trans : forall x y z, le x y -> le y z -> le x z.
Hypothesis le_total : forall x y, cmp x y = Gt -> le y x.

Lemma insert_sorted x l :
  StronglySorted le l -> StronglySorted le (Aggregation.insert cmp x l).
Proof.
  induction 1 as [|y l Hl IH Hy]; simpl.
  - repeat constructor.
  - rewrite List.Forall_forall in Hy.
    assert (Hbefore : le x y -> StronglySorted le (x :: y :: l)).
    { intros Hxy. constructor; [constructor; [exact Hl|now apply List.Forall_forall]|].
      apply List.Forall_forall. intros z [<-|Hz]; [exact Hxy|].
      apply (le_trans x y z); auto. }
    destruct (cmp x y) eqn:E.
    + apply Hbefore. unfold le. congruence.
    + apply Hbefore. unfold le. congruence.
    + constructor; [exact IH|].
      apply List.Forall_forall. intros z Hz.
      apply (Permutation_in _ (insert_perm cmp x l)) in Hz as [<-|Hz]; auto.
Qed.

Lemma sort_sorted l : StronglySorted le (Aggregation.sort cmp l).
Proof.
  induction l as [|x l IH]; simpl; [constructor|]. now apply insert_sorted.
Qed.
End Ordered.

Lemma In_firstn (n : nat) (l : list A) (y : A) : In y (firstn n l) -> In y l.
Proof.
  revert l. induction n as [|n IH]; intros [|x l]; simpl; try tauto.
  intros [->|H]; auto.
Qed.

Lemma StronglySorted_firstn (R : A -> A -> Prop) n l :
  StronglySorted R l -> StronglySorted R (firstn n l).
Proof.
  revert l. induction n as [|n IH]; intros l H; simpl; [constructor|].
  destruct l as [|x l]; [constructor|].
  apply StronglySorted_inv in H as [Hl Hx].
  constructor; [now apply IH|].
  apply List.Forall_forall. intros y Hy. rewrite List.Forall_forall in Hx.
  apply Hx. now apply In_firstn in Hy.
Qed.

Lemma StronglySorted_app_one (R : A -> A -> Prop) l x :
  StronglySorted R l -> (forall y, In y l -> R y x) -> StronglySorted R (l ++ [x]).
Proof.
  induction 1 as [|y l Hl IH Hy]; intros H; simpl.
  - repeat constructor.
  - constructor.
    + apply IH. intros z Hz. apply H. simpl. auto.
    + apply List.Forall_forall. intros z Hz. apply in_app_or in Hz as [Hz|[<-|[]]].
      * rewrite List.Forall_forall in Hy. auto.
      * apply H. simpl. auto.
Qed.

Lemma StronglySorted_impl_le (cmp : A -> A -> comparison) (R : A -> A -> Prop) l :
  StronglySorted (fun x y => cmp x y <> Gt) l ->
  (forall x y, cmp x y <> Gt -> R x y) ->
  StronglySorted R l.
Proof.
  intros H HR. induction H as [|x l Hl IH Hx]; constructor; [exact IH|].
  rewrite List.Forall_forall in *. auto.
Qed.

Lemma StronglySorted_rev (R : A -> A -> Prop) l :
  StronglySorted R l -> StronglySorted (fun x y => R y x) (rev l).
Proof.
  induction 1 as [|y l Hl IH Hy]; simpl; [constructor|].
  apply StronglySorted_app_one; [exact IH|].
  intros z Hz. apply in_rev in Hz. rewrite List.Forall_forall in Hy. auto.
Qed.
End SortFacts.

Section StringOrder.
Lemma compare_le_trans (s1 s2 s3 : string) :
  String.compare s1 s2 <> Gt -> String.compare s2 s3 <> Gt -> String.compare s1 s3 <> Gt.
Proof.
  revert s2 s3. induction s1 as [|a s1 IH]; intros [|b s2] [|c s3]; simpl; try congruence.
  unfold Ascii.compare.
  destruct (N.compare_spec (N_of_ascii a) (N_of_ascii b)) as [Hab|Hab|Hab];
    destruct (N.compare_spec (N_of_ascii b) (N_of_ascii c)) as [Hbc|Hbc|Hbc];
    destruct (N.compare_spec (N_of_ascii a) (N_of_ascii c)) as [Hac|Hac|Hac];
    try congruence; try lia.
  apply IH.
Qed.

Lemma compare_gt_flip (s1 s2 : string) :
  String.compare s1 s2 = Gt -> String.compare s2 s1 <> Gt.
Proof. rewrite (String.compare_antisym s2 s1). intros ->. discriminate. Qed.
End StringOrder.

(** ** Identifiers *)

Section UUIDTheorems.

Lemma small_cases (v : Z) :
  (0 <= v < 16)%Z ->
  v = 0%Z \/ v = 1%Z \/ v = 2%Z \/ v = 3%Z \/ v = 4%Z \/ v = 5%Z \/ v = 6%Z \/ v = 7%Z
  \/ v = 8%Z \/ v = 9%Z \/ v = 10%Z \/ v = 11%Z \/ v = 12%Z \/ v = 13%Z \/ v = 14%Z
  \/ v = 15%Z.
Proof. lia. Qed.

Ltac each_small v H :=
  destruct (small_cases v H) as
    [->|[->|[->|[->|[->|[->|[->|[->|[->|[->|[->|[->|[->|[->|[->| ->]]]]]]]]]]]]]]].

Lemma toString16_digit (v : Z) :
  (0 <= v < 16)%Z -> UUID.toString16 v = String (UUID.hexDigit v) EmptyString.
Proof. intros H. each_small v H; reflexivity. Qed.

Lemma hexDigit_isHex (v : Z) : (0 <= v < 16)%Z -> UUID.isHex (UUID.hexDigit v) = true.
Proof. intros H. each_small v H; reflexivity. Qed.

Lemma hexDigit_variant (r : Z) :
  (0 <= r < 16)%Z ->
  (0 <= Z.lor (Z.land r 3) 8 < 16)%Z
  /\ UUID.isLowerVariant (UUID.hexDigit (Z.lor (Z.land r 3) 8)) = true.
Proof.
  intros H.
  each_small r H;
    (split; [split; [apply Z.leb_le|apply Z.ltb_lt]; reflexivity|reflexivity]).
Qed.

Lemma lowerVariant_variant (c : ascii) :
  UUID.isLowerVariant c = true -> UUID.isVariant c = true /\ UUID.isHex c = true.
Proof.
  unfold UUID.isLowerVariant, UUID.isVariant. intros H.
  repeat (apply orb_prop in H as [H|H]); apply Ascii.eqb_eq in H; subst; split; reflexivity.
Qed.

Lemma append_one (c : ascii) (s : string) : String.append (String c EmptyString) s = String c s.
Proof. reflexivity. Qed.

(** Whatever the draws are, within their range, the identifier matches
    every pattern that admits the template. *)
Lemma replaceXY_matches (random : nat -> Z) :
  (forall k, (0 <= random k < 16)%Z) ->
  forall (template p : string) (k : nat),
    UUID.admits p template = true ->
    UUID.matches p (UUID.replaceXY template random k) = true.
Proof.
  intros Hrange. induction template as [|c template IH]; intros [|p0 p] k Hp;
    simpl in Hp; try discriminate; [reflexivity|].
  apply andb_prop in Hp as [Hc Hp]. cbn [UUID.replaceXY].
  destruct (Ascii.eqb_spec c "x") as [->|Hx].
  - cbn [Ascii.eqb Bool.eqb orb]. rewrite (toString16_digit _ (Hrange k)), append_one. cbn [UUID.matches].
    rewrite (IH _ _ Hp), andb_true_r. apply Ascii.eqb_eq in Hc as ->.
    unfold UUID.matchesChar. cbn [Ascii.eqb Bool.eqb]. apply hexDigit_isHex, Hrange.
  - destruct (Ascii.eqb_spec c "y") as [->|Hy].
    + cbn [Ascii.eqb Bool.eqb orb].
      destruct (hexDigit_variant _ (Hrange k)) as [Hv Hq].
      rewrite (toString16_digit _ Hv), append_one. cbn [UUID.matches].
      rewrite (IH _ _ Hp), andb_true_r.
      destruct (lowerVariant_variant _ Hq) as [Hr Hh].
      repeat (apply orb_prop in Hc as [Hc|Hc]); apply Ascii.eqb_eq in Hc as ->;
        unfold UUID.matchesChar; cbn [Ascii.eqb Bool.eqb]; assumption.
    + cbn [orb]. cbn [UUID.matches]. now rewrite Hc, (IH _ _ Hp).
Qed.

(** C10. Whatever [Math.random] returns, within its range, the identifier
    generated has the shape 8-4-4-4-12 of hexadecimal digits with ['4'] as
    the version digit and 8, 9, a or b as the variant digit, and the check
    of the id parameter of the update and delete routes accepts it. *)
Theorem generateUUID_is_valid_v4 (random : nat -> Z) :
  (forall k, (0 <= random k < 16)%Z) ->
  UUID.isV4 (UUID.generateUUID random) = true
  /\ UUID.holdingIdSchema (UUID.generateUUID random) = true.
Proof.
  intros Hrange. unfold UUID.isV4, UUID.holdingIdSchema, UUID.generateUUID.
  split; apply replaceXY_matches; try assumption; reflexivity.
Qed.

End UUIDTheorems.

(** ** The runs of the service *)

Section Runs.
















Lemma ensureRowMap_run (w : world) :
  ensureRowMap w
  = if (size (holdingsRowMap w) =? 0)%nat then initializeHoldingsRowMap w else (Ok tt, w).
Proof.
  unfold ensureRowMap, mbind, M_bind, getCache.
  now destruct (size (holdingsRowMap w) =? 0)%nat.
Qed.

Lemma updateHolding_run number_text now id updates (w : world) :
  updateHolding number_text now id updates w
  = if (size (holdingsRowMap w) =? 0)%nat
    then (initializeHoldingsRowMap ≫= fun _ => ServiceSpec.updateFound number_text now id updates) w
    else ServiceSpec.updateFound number_text now id updates w.
Proof.
  unfold updateHolding. unfold mbind at 1. unfold M_bind at 1. rewrite ensureRowMap_run.
  destruct (size (holdingsRowMap w) =? 0)%nat; reflexivity.
Qed.

Lemma deleteHolding_run id (w : world) :
  deleteHolding id w
  = if (size (holdingsRowMap w) =? 0)%nat
    then (initializeHoldingsRowMap ≫= fun _ => ServiceSpec.deleteFound id) w
    else ServiceSpec.deleteFound id w.
Proof.
  unfold deleteHolding. unfold mbind at 1. unfold M_bind at 1. rewrite ensureRowMap_run.
  destruct (size (holdingsRowMap w) =? 0)%nat; reflexivity.
Qed.



Lemma rowIndexOf_miss id (w : world) :
  holdingsRowMap w !! id = None -> rowIndexOf id w = (Err (HoldingNotFound id), w).
Proof. unfold rowIndexOf, mbind, M_bind, getCache. now intros ->. Qed.

Lemma initialize_run (w : world) (rows : list (list string)) :
  spreadsheet w !! MF_STOCKS = Some rows ->
  initializeHoldingsRowMap w
  = (Ok tt, World (spreadsheet w) (cacheRows rows ∅) (calls w ++ [ValuesGet MF_STOCKS])).
Proof.
  intros H. unfold initializeHoldingsRowMap, Store.get, mbind, M_bind, called, getTable, setCache.
  simpl. now rewrite H.
Qed.
End Runs.

(** ** The readers *)

Section Readers.

Lemma getHoldings_reads (now : string) : ServiceSpec.reads MF_STOCKS (getHoldings now).
Proof.
  intros w rows Hrows.
  unfold getHoldings, Store.get, mbind, M_bind, called, getTable, getCache, setCache, mret, M_ret.
  cbn [spreadsheet holdingsRowMap calls]. rewrite Hrows.
  destruct (length rows <=? 1)%nat; eexists _, _; split; reflexivity.
Qed.

Lemma getIdealAllocation_reads : ServiceSpec.reads IDEAL_ALLOCATION getIdealAllocation.
Proof.
  intros w rows Hrows.
  unfold getIdealAllocation, Store.get, mbind, M_bind, called, getTable, mret, M_ret.
  cbn [spreadsheet holdingsRowMap calls]. rewrite Hrows.
  destruct (length rows <=? 1)%nat; eexists _, _; split; reflexivity.
Qed.

Lemma getMonthlyGrowth_reads (localeCompare : string -> string -> comparison) :
  ServiceSpec.reads MONTHLY_GROWTH (getMonthlyGrowth localeCompare).
Proof.
  intros w rows Hrows.
  unfold getMonthlyGrowth, Store.get, mbind, M_bind, called, getTable, mret, M_ret.
  cbn [spreadsheet holdingsRowMap calls]. rewrite Hrows.
  destruct (length rows <=? 1)%nat; eexists _, _; split; reflexivity.
Qed.

Lemma all2_reads {A B} (range1 range2 : string) (m1 : M A) (m2 : M B) (w : world)
    (rows1 rows2 : list (list string)) :
  ServiceSpec.reads range1 m1 -> ServiceSpec.reads range2 m2 ->
  spreadsheet w !! range1 = Some rows1 ->
  spreadsheet w !! range2 = Some rows2 ->
  exists a b w', all2 m1 m2 w = (Ok (a, b), w') /\ spreadsheet w' = spreadsheet w.
Proof.
  intros H1 H2 Hr1 Hr2. unfold all2.
  destruct (H1 w rows1 Hr1) as (a & w1 & -> & Hs1).
  rewrite <- Hs1 in Hr2. destruct (H2 w1 rows2 Hr2) as (b & w2 & -> & Hs2).
  exists a, b, w2. split; [reflexivity|congruence].
Qed.

(** On a spreadsheet that has the three ranges it reads, the handler of the
    summary ends without an error, with the summary of the lists it has
    read. *)
Lemma getSummary_total (localeCompare : string -> string -> comparison)
    (now currentYear : string) (w : world) (holdingRows idealRows growthRows : list (list string)) :
  spreadsheet w !! MF_STOCKS = Some holdingRows ->
  spreadsheet w !! IDEAL_ALLOCATION = Some idealRows ->
  spreadsheet w !! MONTHLY_GROWTH = Some growthRows ->
  exists holdings ideals growth w',
    getSummary localeCompare now currentYear w
    = (Ok (Aggregation.summary localeCompare currentYear holdings ideals growth), w').
Proof.
  intros Hh Hi Hg. unfold getSummary.
  destruct (getHoldings_reads now w holdingRows Hh) as (hs & w1 & E1 & S1).
  assert (Hi1 : spreadsheet w1 !! IDEAL_ALLOCATION = Some idealRows) by congruence.
  assert (Hg1 : spreadsheet w1 !! MONTHLY_GROWTH = Some growthRows) by congruence.
  destruct (all2_reads IDEAL_ALLOCATION MONTHLY_GROWTH getIdealAllocation
              (getMonthlyGrowth localeCompare) w1 idealRows growthRows
              getIdealAllocation_reads (getMonthlyGrowth_reads localeCompare) Hi1 Hg1)
    as (ideals & growth & w2 & E2 & S2).
  exists hs, ideals, growth, w2.
  unfold mbind, M_bind. unfold all2 at 1. rewrite E1, E2. reflexivity.
Qed.

(** On a spreadsheet that has the three ranges it uses, a snapshot run ends
    without an error, with the records of the lists it has read, and
    appends their rows to the snapshots. *)
Lemma createSnapshot_total (number_text : float -> string) (now : string) (w : world)
    (holdingRows idealRows snapshotRows : list (list string)) :
  spreadsheet w !! MF_STOCKS = Some holdingRows ->
  spreadsheet w !! IDEAL_ALLOCATION = Some idealRows ->
  spreadsheet w !! SNAPSHOT = Some snapshotRows ->
  exists holdings ideals w',
    createSnapshot number_text now w = (Ok (Aggregation.snapshots now holdings ideals), w')
    /\ spreadsheet w' !! SNAPSHOT
       = Some (snapshotRows
               ++ map (map (Store.stored number_text))
                    (map snapshotToRowValues (Aggregation.snapshots now holdings ideals))).
Proof.
  intros Hh Hi Hs. unfold createSnapshot.
  destruct (all2_reads MF_STOCKS IDEAL_ALLOCATION (getHoldings now) getIdealAllocation w
              holdingRows idealRows (getHoldings_reads now) getIdealAllocation_reads Hh Hi)
    as (hs & ideals & w1 & E & S).
  exists hs, ideals. unfold mbind at 1. unfold M_bind at 1. rewrite E.
  unfold Store.append, mbind, M_bind, called, getTable, setTable, mret, M_ret.
  cbn [spreadsheet holdingsRowMap calls]. rewrite S, Hs.
  eexists. split; [reflexivity|]. cbn [spreadsheet]. now rewrite lookup_insert_eq.
Qed.

End Readers.

(** ** The snapshot run and the summary *)

Section AggregationTheorems.

Local Open Scope float_scope.

(** C1. A snapshot run does not give every record the percentage of its
    sector. The run keeps the totals of the sectors in a plain object, and
    a sector whose name is the name of a member of [Object.prototype]
    reads as that member and not as a number. With the holdings 600 in the
    sector [constructor] and 300 in [bonds], and the targets 60 for
    [constructor], 30 for [bonds] and 10 for [__proto__], the run emits
    three records with the date of the run and the total value 900, but
    the records of [constructor] and of [__proto__] have [NaN] as
    [actual_pct] and as [variance], where the specification has
    600/900*100 and 0; [createSnapshot] returns these records on the
    spreadsheet that holds this data. In general the record of such a
    sector has [NaN] in both places whenever the total value is
    positive. *)
Theorem snapshot_run_sector_named_as_member :
  let records :=
    [ {| Snapshot.date := "2026-11-02"; Snapshot.sector := "constructor";
         Snapshot.actual_pct := nan; Snapshot.target_pct := 60;
         Snapshot.variance := nan; Snapshot.total_value := 900 |};
      {| Snapshot.date := "2026-11-02"; Snapshot.sector := "bonds";
         Snapshot.actual_pct := 300 / 900 * 100; Snapshot.target_pct := 30;
         Snapshot.variance := 300 / 900 * 100 - 30; Snapshot.total_value := 900 |};
      {| Snapshot.date := "2026-11-02"; Snapshot.sector := "__proto__";
         Snapshot.actual_pct := nan; Snapshot.target_pct := 10;
         Snapshot.variance := nan; Snapshot.total_value := 900 |} ] in
  Aggregation.snapshots Sample.now Sample.memberHoldings Sample.memberIdeals = records
  /\ fst (createSnapshot Store.decimalText Sample.now Book.members) = Ok records
  /\ map Holding.sector Sample.memberHoldings = [ "constructor"; "bonds" ]
  /\ map Holding.value Sample.memberHoldings = [ 600; 300 ]
  /\ Spec.percentOf
       (Spec.sum (map Holding.value (Spec.ofSector "constructor" Sample.memberHoldings)))
       (Spec.sum (map Holding.value Sample.memberHoldings))
     = 600 / 900 * 100
  /\ Spec.percentOf
       (Spec.sum (map Holding.value (Spec.ofSector "__proto__" Sample.memberHoldings)))
       (Spec.sum (map Holding.value Sample.memberHoldings))
     = 0
  /\ is_nan (600 / 900 * 100) = false
  /\ (forall (now : string) (holdings : list Holding.t) (ideals : list IdealAllocation.t)
             (ideal : IdealAllocation.t),
        In ideal ideals ->
        Obj.inherited (IdealAllocation.sector ideal) = true ->
        (0 <? Aggregation.totalValue holdings) = true ->
        In {| Snapshot.date := Aggregation.beforeT now;
              Snapshot.sector := IdealAllocation.sector ideal;
              Snapshot.actual_pct := nan;
              Snapshot.target_pct := IdealAllocation.target_pct ideal;
              Snapshot.variance := nan;
              Snapshot.total_value := Aggregation.totalValue holdings |}
           (Aggregation.snapshots now holdings ideals)).
Proof.
  cbv zeta.
  do 7 (split; [vm_compute; reflexivity|]).
  intros now holdings ideals ideal Hin Hmember Htotal.
  rewrite snapshots_map. apply in_map_iff. exists ideal. split; [|exact Hin].
  unfold Aggregation.snapshotFor.
  now rewrite (actualPct_member holdings _ _ Hmember), Htotal, nan_sub.
Qed.

(** C2. The summary has [total_invested] equal to the sum over the holdings
    of [qty * avg_price], [current_net_worth] equal to the sum over the
    holdings of [value], [unrealized_gain_loss] equal to their difference,
    and [unrealized_pct] equal to [unrealized_gain_loss / total_invested *
    100] when [total_invested > 0] and to 0 otherwise, in particular when
    [total_invested == 0], whatever the net worth is. The computation is a
    total function: it raises no error. *)
Theorem summary_totals (localeCompare : string -> string -> comparison)
    (currentYear : string) (holdings : list Holding.t)
    (ideals : list IdealAllocation.t) (growth : list MonthlyGrowth.t) :
  let s := Aggregation.summary localeCompare currentYear holdings ideals growth in
  Summary.total_invested s
  = Spec.sum (map (fun h => Holding.qty h * Holding.avg_price h) holdings)
  /\ Summary.current_net_worth s = Spec.sum (map Holding.value holdings)
  /\ Summary.unrealized_gain_loss s
     = Summary.current_net_worth s - Summary.total_invested s
  /\ ((0 <? Summary.total_invested s) = true ->
      Summary.unrealized_pct s
      = Summary.unrealized_gain_loss s / Summary.total_invested s * 100)
  /\ ((Summary.total_invested s =? 0) = true -> Summary.unrealized_pct s = 0)
  /\ ((0 <? Summary.total_invested s) = false -> Summary.unrealized_pct s = 0)
  /\ (forall (now : string) (w : world)
             (holdingRows idealRows growthRows : list (list string)),
        spreadsheet w !! MF_STOCKS = Some holdingRows ->
        spreadsheet w !! IDEAL_ALLOCATION = Some idealRows ->
        spreadsheet w !! MONTHLY_GROWTH = Some growthRows ->
        exists read targets entries w',
          getSummary localeCompare now currentYear w
          = (Ok (Aggregation.summary localeCompare currentYear read targets entries), w')).
Proof.
  simpl. unfold Aggregation.unrealizedPct.
  split; [apply fold_left_map_sum|].
  split; [apply totalValue_sum|].
  split; [reflexivity|].
  split; [intros ->; reflexivity|].
  split; [intros H; now rewrite (eqb_zero_not_positive _ H)|].
  split; [intros ->; reflexivity|].
  intros now w holdingRows idealRows growthRows. apply getSummary_total.
Qed.

(** C3. The allocation variance of the summary does not have every sector
    of the ideal allocation among its keys, nor the difference of the
    percentages at each of them. The variance, like the totals of the
    sectors it is computed from, is a plain object: a sector whose name is
    the name of a member of [Object.prototype] reads as that member, and a
    number assigned to [__proto__] adds no key. With the holdings 600 in
    the sector [constructor] and 300 in [bonds], and the targets 60 for
    [constructor], 30 for [bonds] and 10 for [__proto__], the keys are
    [constructor] and [bonds] only, and the value at [constructor] is
    [NaN], where the specification has the three sectors as keys and
    600/900*100 - 60 at [constructor]; the summary read from the
    spreadsheet that holds this data is this one. In general [__proto__]
    is never a key, and the value at any other such sector of the ideal
    allocation is [NaN] whenever the net worth is positive. *)
Theorem allocation_variance_sector_named_as_member :
  let s := Aggregation.summary String.compare "2026" Sample.memberHoldings
             Sample.memberIdeals Sample.growth in
  let variance := Summary.allocation_variance s in
  Summary.allocation_variance
    <$> fst_ok (getSummary String.compare Sample.now "2026" Book.members)
  = Some variance
  /\ map IdealAllocation.sector Sample.memberIdeals = [ "constructor"; "bonds"; "__proto__" ]
  /\ (forall sector : string, sector ∈ dom variance <-> sector = "constructor" \/ sector = "bonds")
  /\ variance !! "__proto__" = None
  /\ variance !! "constructor" = Some nan
  /\ variance !! "bonds" = Some (300 / 900 * 100 - 30)
  /\ Summary.current_net_worth s = 900
  /\ Spec.varianceBySum Sample.memberHoldings Sample.constructor60 = 600 / 900 * 100 - 60
  /\ is_nan (600 / 900 * 100 - 60) = false
  /\ (forall (localeCompare : string -> string -> comparison) (currentYear : string)
             (holdings : list Holding.t) (ideals : list IdealAllocation.t)
             (growth : list MonthlyGrowth.t),
        let variance :=
          Summary.allocation_variance
            (Aggregation.summary localeCompare currentYear holdings ideals growth) in
        variance !! "__proto__" = None
        /\ (forall sector : string,
              In sector (map IdealAllocation.sector ideals) ->
              Obj.inherited sector = true ->
              sector <> "__proto__" ->
              (0 <? Aggregation.totalValue holdings) = true ->
              variance !! sector = Some nan)).
Proof.
  cbv zeta.
  split; [vm_compute; reflexivity|].
  split; [reflexivity|].
  split.
  { intros sector. cbn [Aggregation.summary Summary.allocation_variance].
    unfold Aggregation.allocationVariance.
    rewrite allocationVariance_dom, dom_empty_L, (left_id_L ∅ (∪)).
    cbn. rewrite !elem_of_union, !elem_of_singleton, elem_of_empty. tauto. }
  do 6 (split; [vm_compute; reflexivity|]).
  intros localeCompare currentYear holdings ideals growth.
  cbn [Aggregation.summary Summary.allocation_variance].
  split; [apply allocationVariance_proto|].
  intros sector Hin Hmember Hproto Htotal.
  apply String.eqb_neq in Hproto.
  destruct (allocationVariance_last holdings ideals sector Hin Hproto)
    as (ideal & _ & _ & _ & Hv).
  now rewrite Hv, (actualPct_member holdings _ _ Hmember), Htotal, nan_sub.
Qed.

(** C4. Whatever the collation is, the monthly trend has at most 12 entries
    and each of them is an entry of the growth list. When the months of the
    list are written [YYYY-MM] and the collation orders such months as
    their code units do, the trend is the growth list sorted by month, the
    later first, under the order of the code units, cut to its first 12
    entries and reversed, and it is sorted by month, the earlier first. The
    sorted list is a permutation of the growth list in which no entry comes
    before an entry of a later month. *)
Theorem monthly_trend_last_twelve (localeCompare : string -> string -> comparison)
    (currentYear : string) (holdings : list Holding.t)
    (ideals : list IdealAllocation.t) (growth : list MonthlyGrowth.t) :
  let trend :=
    Summary.monthly_trend
      (Aggregation.summary localeCompare currentYear holdings ideals growth) in
  (length trend <= 12)%nat
  /\ (forall e, In e trend -> In e growth)
  /\ Permutation (Aggregation.sort Spec.lexDescending growth) growth
  /\ StronglySorted (fun a b => Spec.monthLe b a) (Aggregation.sort Spec.lexDescending growth)
  /\ ((forall e, In e growth -> Validation.isMonth (MonthlyGrowth.month e) = true) ->
      (forall a b : string,
         Validation.isMonth a = true -> Validation.isMonth b = true ->
         localeCompare a b = String.compare a b) ->
      trend = rev (firstn 12 (Aggregation.sort Spec.lexDescending growth))
      /\ StronglySorted Spec.monthLe trend).
Proof.
  simpl. unfold Aggregation.monthlyTrend.
  assert (Hsorted : StronglySorted (fun a b => Spec.monthLe b a)
                      (Aggregation.sort Spec.lexDescending growth)).
  { apply (StronglySorted_impl_le Spec.lexDescending).
    - apply sort_sorted.
      + intros x y z. unfold Spec.lexDescending. intros H1 H2.
        exact (compare_le_trans _ _ _ H2 H1).
      + intros x y. unfold Spec.lexDescending. apply compare_gt_flip.
    - intros x y. unfold Spec.lexDescending, Spec.monthLe, String.leb.
      destruct (String.compare _ _); congruence. }
  split; [rewrite length_rev, length_firstn; lia|].
  split.
  { intros e He. apply in_rev, In_firstn in He.
    eapply Permutation_in; [apply sort_perm|exact He]. }
  split; [apply sort_perm|].
  split; [exact Hsorted|].
  intros Hmonths Hagree.
  assert (Heq : Aggregation.sort (Aggregation.byMonthDescending localeCompare) growth
                = Aggregation.sort Spec.lexDescending growth).
  { apply sort_agree. intros x y Hx Hy. unfold Aggregation.byMonthDescending, Spec.lexDescending.
    apply Hagree; now apply Hmonths. }
  rewrite Heq. split; [reflexivity|].
  apply (StronglySorted_rev (fun a b => Spec.monthLe b a)).
  now apply StronglySorted_firstn.
Qed.

End AggregationTheorems.

(** ** The row cache *)

Section CacheTheorems.

Variable number_text : float -> string.



Lemma miss_on_filled_cache (now id : string) (updates : HoldingUpdates.t) (w : world) :
  (size (holdingsRowMap w) =? 0)%nat = false ->
  holdingsRowMap w !! id = None ->
  updateHolding number_text now id updates w = (Err (HoldingNotFound id), w)
  /\ deleteHolding id w = (Err (HoldingNotFound id), w).
Proof.
  intros Hsize Hmiss. rewrite updateHolding_run, deleteHolding_run, Hsize.
  unfold ServiceSpec.updateFound, ServiceSpec.deleteFound, mbind, M_bind.
  now rewrite (rowIndexOf_miss id w Hmiss).
Qed.

Lemma miss_after_rebuild (now id : string) (updates : HoldingUpdates.t) (w : world)
    (rows : list (list string)) :
  (size (holdingsRowMap w) =? 0)%nat = true ->
  spreadsheet w !! MF_STOCKS = Some rows ->
  cacheRows rows ∅ !! id = None ->
  updateHolding number_text now id updates w
  = (Err (HoldingNotFound id),
     World (spreadsheet w) (cacheRows rows ∅) (calls w ++ [ValuesGet MF_STOCKS]))
  /\ deleteHolding id w
     = (Err (HoldingNotFound id),
        World (spreadsheet w) (cacheRows rows ∅) (calls w ++ [ValuesGet MF_STOCKS])).
Proof.
  intros Hsize Hrows Hmiss. rewrite updateHolding_run, deleteHolding_run, Hsize.
  unfold mbind, M_bind. rewrite (initialize_run w rows Hrows).
  unfold ServiceSpec.updateFound, ServiceSpec.deleteFound, mbind, M_bind.
  now rewrite (rowIndexOf_miss id (World _ _ _) Hmiss).
Qed.


End CacheTheorems.

(** ** Rows and records *)

Section RowTheorems.

Local Open Scope float_scope.

Lemma parseFloat_non_numeric (x : option string) :
  JS.non_numeric x = true -> JS.parseFloat x = nan.
Proof.
  destruct x as [s|]; [|reflexivity]. unfold JS.non_numeric, JS.parseFloat, JS.parseFloat_string.
  destruct (JS.decimal_literal (JS.trim_start s)); [discriminate|reflexivity].
Qed.

Lemma num_or_zero_non_numeric (x : option string) :
  JS.non_numeric x = true -> JS.num_or_zero (JS.parseFloat x) = 0.
Proof. intros H. now rewrite (parseFloat_non_numeric x H). Qed.

Lemma or_empty_absent (x : option string) :
  JS.truthy_cell x = false -> JS.or_empty x = EmptyString.
Proof. destruct x as [[|c s]|]; simpl; congruence. Qed.

(** C7, as the code has it. Parsing a row is a total function. A cell of
    [qty], [avg_price], [current_price], [value] or [allocation_pct] that is
    missing or not numeric parses to 0, and these fields are never [NaN]. A
    cell of [rsi] that is missing or empty parses to no [rsi]. A cell of
    [id], [symbol], [name], [sector] or [notes] that is missing parses to
    the empty string, and a missing [updated_at] to the time of the
    parsing. *)
Theorem parseHoldingFromRow_defaults (now : string) (row : list string) :
  let h := parseHoldingFromRow now row in
  ((JS.non_numeric (row !! 4%nat) = true -> Holding.qty h = 0)
   /\ (JS.non_numeric (row !! 5%nat) = true -> Holding.avg_price h = 0)
   /\ (JS.non_numeric (row !! 6%nat) = true -> Holding.current_price h = 0)
   /\ (JS.non_numeric (row !! 7%nat) = true -> Holding.value h = 0)
   /\ (JS.non_numeric (row !! 9%nat) = true -> Holding.allocation_pct h = 0))
  /\ (is_nan (Holding.qty h) = false
      /\ is_nan (Holding.avg_price h) = false
      /\ is_nan (Holding.current_price h) = false
      /\ is_nan (Holding.value h) = false
      /\ is_nan (Holding.allocation_pct h) = false)
  /\ (JS.truthy_cell (row !! 8%nat) = false -> Holding.rsi h = None)
  /\ ((JS.truthy_cell (row !! 0%nat) = false -> Holding.id h = EmptyString)
      /\ (JS.truthy_cell (row !! 1%nat) = false -> Holding.symbol h = EmptyString)
      /\ (JS.truthy_cell (row !! 2%nat) = false -> Holding.name h = EmptyString)
      /\ (JS.truthy_cell (row !! 3%nat) = false -> Holding.sector h = EmptyString)
      /\ (JS.truthy_cell (row !! 10%nat) = false -> Holding.notes h = Some EmptyString))
  /\ (JS.truthy_cell (row !! 11%nat) = false -> Holding.updated_at h = now).
Proof.
  cbn [parseHoldingFromRow Holding.qty Holding.avg_price Holding.current_price Holding.value
       Holding.allocation_pct Holding.rsi Holding.id Holding.symbol Holding.name
       Holding.sector Holding.notes Holding.updated_at].
  split; [repeat split; apply num_or_zero_non_numeric|].
  split; [repeat split; apply num_or_zero_not_nan|].
  split; [now intros ->|].
  split; [repeat split; intros H; now rewrite (or_empty_absent _ H)|].
  now intros ->.
Qed.

End RowTheorems.

(** ** Holdings created and updated *)

Section HoldingTheorems.

Variable number_text : float -> string.

Local Open Scope float_scope.

(** The record [addHolding] builds from a payload. *)
Lemma addHolding_run (now : string) (random : nat -> Z) (holding : NewHolding.t)
    (w : world) (rows : list (list string)) :
  spreadsheet w !! MF_STOCKS = Some rows ->
  exists h,
    addHolding number_text now random holding w
    = (Ok h,
       World (<[MF_STOCKS := rows ++ [map (Store.stored number_text) (holdingToRowValues h)]]>
                (spreadsheet w))
             (holdingsRowMap w)
             (calls w ++ [ValuesAppend MF_STOCKS [holdingToRowValues h]]))
    /\ Holding.id h = UUID.generateUUID random
    /\ Holding.symbol h = NewHolding.symbol holding
    /\ Holding.name h = NewHolding.name holding
    /\ Holding.sector h = NewHolding.sector holding
    /\ Holding.qty h = NewHolding.qty holding
    /\ Holding.avg_price h = NewHolding.avg_price holding
    /\ Holding.current_price h = NewHolding.current_price holding
    /\ Holding.value h = NewHolding.qty holding * NewHolding.current_price holding
    /\ Holding.rsi h = NewHolding.rsi holding
    /\ Holding.allocation_pct h = NewHolding.allocation_pct holding
    /\ Holding.notes h = NewHolding.notes holding
    /\ Holding.updated_at h = now.
Proof.
  intros Hrows. eexists. split.
  - unfold addHolding, Store.append, mbind, M_bind, called, getTable, setTable, mret, M_ret.
    cbn [spreadsheet holdingsRowMap calls]. rewrite Hrows. cbn [map]. reflexivity.
  - repeat split.
Qed.

(** What a successful [ServiceSpec.updateFound] has done. *)
Lemma updateFound_ok (now id : string) (updates : HoldingUpdates.t) (w w' : world)
    (h : Holding.t) :
  ServiceSpec.updateFound number_text now id updates w = (Ok h, w') ->
  exists rowIndex rows currentRow,
    holdingsRowMap w !! id = Some rowIndex
    /\ spreadsheet w !! MF_STOCKS = Some rows
    /\ rows !! (rowIndex - 1)%nat = Some currentRow
    /\ h = recalculateValue updates
             (applyUpdates now id (parseHoldingFromRow now currentRow) updates)
    /\ spreadsheet w' !! MF_STOCKS
       = Some (Store.writeRow (rowIndex - 1)
                 (map (Store.stored number_text) (holdingToRowValues h)) rows)
    /\ holdingsRowMap w' = holdingsRowMap w.
Proof.
  unfold ServiceSpec.updateFound, rowIndexOf, Store.getRow, Store.update, mbind, M_bind, called, getCache,
    getTable, setTable, mret, M_ret, throw.
  cbn [spreadsheet holdingsRowMap calls].
  destruct (holdingsRowMap w !! id) as [[|n]|] eqn:Hcache; try discriminate.
  cbn [spreadsheet holdingsRowMap calls].
  destruct (spreadsheet w !! MF_STOCKS) as [rows|] eqn:Hrows; try discriminate.
  destruct (rows !! (S n - 1)%nat) as [row|] eqn:Hrow; try discriminate.
  destruct (forallb _ row); try discriminate.
  cbn [spreadsheet holdingsRowMap calls]. rewrite Hrows.
  intros H. injection H as Hh Hw. subst h w'.
  exists (S n), rows, row. cbn [spreadsheet holdingsRowMap].
  rewrite lookup_insert_eq. repeat split; try assumption; reflexivity.
Qed.

Lemma updateHolding_ok (now id : string) (updates : HoldingUpdates.t) (w w' : world)
    (h : Holding.t) :
  updateHolding number_text now id updates w = (Ok h, w') ->
  exists w1, ServiceSpec.updateFound number_text now id updates w1 = (Ok h, w')
             /\ spreadsheet w1 = spreadsheet w.
Proof.
  rewrite updateHolding_run. destruct (size (holdingsRowMap w) =? 0)%nat.
  - unfold mbind at 1. unfold M_bind at 1.
    destruct (initializeHoldingsRowMap w) as [[[]|e] w1] eqn:Hinit; [|discriminate].
    intros H. exists w1. split; [exact H|].
    revert Hinit. unfold initializeHoldingsRowMap, Store.get, mbind, M_bind, called, getTable, setCache.
    cbn [spreadsheet holdingsRowMap calls].
    destruct (spreadsheet w !! MF_STOCKS); [|discriminate].
    intros Hinit. injection Hinit as <-. reflexivity.
  - intros H. now exists w.
Qed.

Lemma recalculateValue_product (updates : HoldingUpdates.t) (h : Holding.t) :
  JS.defined (HoldingUpdates.qty updates) || JS.defined (HoldingUpdates.current_price updates)
  = true ->
  Holding.value (recalculateValue updates h) = Holding.qty h * Holding.current_price h
  /\ Holding.qty (recalculateValue updates h) = Holding.qty h
  /\ Holding.current_price (recalculateValue updates h) = Holding.current_price h.
Proof. unfold recalculateValue. intros ->. repeat split. Qed.

(** C8. A holding that has just been created has [value = qty *
    current_price], in the record returned and in the row appended to the
    store, which is the row of that record. So has a holding that has just
    been updated with a payload that has [qty] or [current_price]: in the
    record returned and in the row written over its row in the store. In a
    row the cells 4, 6 and 7 are [qty], [current_price] and [value]. *)
Theorem value_is_qty_times_price (now id : string) (random : nat -> Z)
    (holding : NewHolding.t) (updates : HoldingUpdates.t) (w : world) :
  (forall rows, spreadsheet w !! MF_STOCKS = Some rows ->
     exists h w',
       addHolding number_text now random holding w = (Ok h, w')
       /\ Holding.value h = Holding.qty h * Holding.current_price h
       /\ spreadsheet w' !! MF_STOCKS
          = Some (rows ++ [map (Store.stored number_text) (holdingToRowValues h)]))
  /\ (forall h w',
        JS.defined (HoldingUpdates.qty updates)
        || JS.defined (HoldingUpdates.current_price updates) = true ->
        updateHolding number_text now id updates w = (Ok h, w') ->
        Holding.value h = Holding.qty h * Holding.current_price h
        /\ exists rowIndex rows,
             spreadsheet w !! MF_STOCKS = Some rows
             /\ holdingsRowMap w' !! id = Some rowIndex
             /\ spreadsheet w' !! MF_STOCKS
                = Some (Store.writeRow (rowIndex - 1)
                          (map (Store.stored number_text) (holdingToRowValues h)) rows))
  /\ (forall h : Holding.t,
        map (Store.stored number_text) (holdingToRowValues h) !! 4%nat
        = Some (number_text (Holding.qty h))
        /\ map (Store.stored number_text) (holdingToRowValues h) !! 6%nat
           = Some (number_text (Holding.current_price h))
        /\ map (Store.stored number_text) (holdingToRowValues h) !! 7%nat
           = Some (number_text (Holding.value h))).
Proof.
  split.
  { intros rows Hrows.
    destruct (addHolding_run now random holding w rows Hrows)
      as (h & Hrun & _ & _ & _ & _ & Hqty & _ & Hcur & Hval & _).
    eexists h, _. split; [exact Hrun|]. split; [now rewrite Hval, Hqty, Hcur|].
    cbn [spreadsheet]. now rewrite lookup_insert_eq. }
  split.
  { intros h w' Hdef Hrun.
    destruct (updateHolding_ok _ _ _ _ _ _ Hrun) as (w1 & Hfound & Hsame).
    destruct (updateFound_ok _ _ _ _ _ _ Hfound)
      as (rowIndex & rows & row & Hcache & Hrows & Hrow & Hh & Hstored & Hcache').
    destruct (recalculateValue_product updates
                (applyUpdates now id (parseHoldingFromRow now row) updates) Hdef)
      as (Hv & Hq & Hc).
    rewrite <- Hh in Hv, Hq, Hc. split; [now rewrite Hv, Hq, Hc|].
    exists rowIndex, rows. rewrite <- Hsame, Hcache'. auto. }
  intros h. repeat split.
Qed.

End HoldingTheorems.

(** ** The round trip of a created holding *)

Section RoundTrip.

Variable number_text : float -> string.

Local Open Scope float_scope.

Lemma hexDigits_nonempty (fuel : nat) (n : Z) (acc : string) :
  acc <> EmptyString -> UUID.hexDigits fuel n acc <> EmptyString.
Proof.
  revert n acc. induction fuel as [|fuel IH]; intros n acc Hacc; simpl; [exact Hacc|].
  destruct (n / 16 =? 0)%Z; [discriminate|]. apply IH. discriminate.
Qed.

Lemma toString16_nonempty (v : Z) : UUID.toString16 v <> EmptyString.
Proof.
  unfold UUID.toString16. destruct (v =? 0)%Z; [discriminate|].
  destruct (v <? 0)%Z; [discriminate|].
  rewrite Nat.add_1_r. simpl. destruct (v / 16 =? 0)%Z; [discriminate|].
  apply hexDigits_nonempty. discriminate.
Qed.

Lemma generateUUID_truthy (random : nat -> Z) :
  JS.truthy_str (UUID.generateUUID random) = true.
Proof.
  unfold UUID.generateUUID, UUID.template. cbn [UUID.replaceXY Ascii.eqb Bool.eqb orb].
  pose proof (toString16_nonempty (random 0%nat)) as H.
  destruct (UUID.toString16 (random 0%nat)) as [|c s]; [congruence|reflexivity].
Qed.

Lemma seq_snoc (start len : nat) : seq start (S len) = seq start len ++ [(start + len)%nat].
Proof. now rewrite seq_S. Qed.

(** The listing ends with the record of the last row, when that row has an
    identifier and is not the header. *)
Lemma getHoldings_last (now : string) (w : world) (rows : list (list string))
    (row : list string) :
  spreadsheet w !! MF_STOCKS = Some (rows ++ [row]) ->
  rows <> [] ->
  JS.truthy_cell (row !! 0%nat) = true ->
  exists hs w',
    getHoldings now w = (Ok hs, w') /\ last hs = Some (parseHoldingFromRow now row).
Proof.
  intros Htable Hrows Hid.
  unfold getHoldings, Store.get, mbind, M_bind, called, getTable, getCache, setCache, mret, M_ret.
  cbn [spreadsheet holdingsRowMap calls]. rewrite Htable.
  assert (Hlen : length (rows ++ [row]) = S (length rows)) by (rewrite length_app; simpl; lia).
  rewrite Hlen. destruct rows as [|r0 rows']; [congruence|].
  cbn [length Nat.leb]. eexists _, _. split; [reflexivity|].
  replace (S (S (length rows')) - 1)%nat with (S (length rows')) by lia.
  rewrite seq_snoc, fold_left_app. cbn [fold_left].
  replace (1 + length rows')%nat with (length (r0 :: rows')) by (simpl; lia).
  rewrite list_lookup_middle by reflexivity. cbn [default from_option]. unfold id. rewrite Hid.
  apply last_snoc.
Qed.

Lemma parseFloat_text_nonempty (x : float) :
  JS.truthy x = true -> JS.parseFloat (Some (number_text x)) = x ->
  JS.truthy_cell (Some (number_text x)) = true.
Proof.
  intros Ht Hp. cbn [JS.truthy_cell]. destruct (number_text x) as [|c s]; [|reflexivity].
  apply truthy_not_nan in Ht. rewrite <- Hp in Ht. discriminate Ht.
Qed.

(** The row of a record parses back to the record. *)
Lemma row_reads_back (now : string) (h : Holding.t) :
  JS.truthy_str (Holding.updated_at h) = true ->
  ServiceSpec.readsBack number_text (Holding.qty h) ->
  ServiceSpec.readsBack number_text (Holding.avg_price h) ->
  ServiceSpec.readsBack number_text (Holding.current_price h) ->
  ServiceSpec.readsBack number_text (Holding.value h) ->
  ServiceSpec.readsBack number_text (Holding.allocation_pct h) ->
  ServiceSpec.rsiReadsBack number_text (Holding.rsi h) ->
  parseHoldingFromRow now (map (Store.stored number_text) (holdingToRowValues h)) = ServiceSpec.readBack h.
Proof.
  unfold ServiceSpec.readsBack. intros Hnow Hqty Havg Hcur Hval Halloc Hrsi.
  destruct h as [id symbol name sector qty avg cur value rsi alloc notes updated].
  cbn [Holding.qty Holding.avg_price Holding.current_price Holding.value Holding.rsi
       Holding.allocation_pct Holding.updated_at] in *.
  unfold parseHoldingFromRow, holdingToRowValues, ServiceSpec.readBack.
  cbn [Holding.id Holding.symbol Holding.name Holding.sector Holding.qty Holding.avg_price
       Holding.current_price Holding.value Holding.rsi Holding.allocation_pct Holding.notes
       Holding.updated_at map Store.stored lookup list_lookup JS.or_empty].
  rewrite Hqty, Havg, Hcur, Hval, Halloc. cbn [JS.truthy_cell]. rewrite Hnow.
  f_equal.
  destruct rsi as [x|]; cbn [ServiceSpec.rsiReadsBack] in Hrsi.
  - destruct Hrsi as [Ht Hp]. rewrite Ht. cbn [Store.stored].
    change (JS.truthy_str (number_text x)) with (JS.truthy_cell (Some (number_text x))).
    rewrite (parseFloat_text_nonempty x Ht Hp). now rewrite Hp.
  - reflexivity.
Qed.

(** A holding is created on a table that has its header, at a time whose
    timestamp is not empty. When every number of the record reads back
    from the store as itself, and the [rsi] of the payload is absent or is
    a truthy number that reads back, the listing that follows ends with the
    created record, its notes read as a string. *)
Lemma addHolding_then_getHoldings (now later : string) (random : nat -> Z)
    (holding : NewHolding.t) (w : world) (rows : list (list string)) :
  spreadsheet w !! MF_STOCKS = Some rows ->
  rows <> [] ->
  JS.truthy_str now = true ->
  ServiceSpec.readsBack number_text (NewHolding.qty holding) ->
  ServiceSpec.readsBack number_text (NewHolding.avg_price holding) ->
  ServiceSpec.readsBack number_text (NewHolding.current_price holding) ->
  ServiceSpec.readsBack number_text (NewHolding.qty holding * NewHolding.current_price holding) ->
  ServiceSpec.readsBack number_text (NewHolding.allocation_pct holding) ->
  ServiceSpec.rsiReadsBack number_text (NewHolding.rsi holding) ->
  exists h w1 hs w2,
    addHolding number_text now random holding w = (Ok h, w1)
    /\ getHoldings later w1 = (Ok hs, w2)
    /\ last hs = Some (ServiceSpec.readBack h)
    /\ Holding.id h = UUID.generateUUID random
    /\ Holding.updated_at h = now
    /\ Holding.symbol h = NewHolding.symbol holding
    /\ Holding.name h = NewHolding.name holding
    /\ Holding.sector h = NewHolding.sector holding
    /\ Holding.qty h = NewHolding.qty holding
    /\ Holding.avg_price h = NewHolding.avg_price holding
    /\ Holding.current_price h = NewHolding.current_price holding
    /\ Holding.value h = NewHolding.qty holding * NewHolding.current_price holding
    /\ Holding.rsi h = NewHolding.rsi holding
    /\ Holding.allocation_pct h = NewHolding.allocation_pct holding
    /\ Holding.notes h = NewHolding.notes holding.
Proof.
  intros Hrows Hne Hnow Hqty Havg Hcur Hval Halloc Hrsi.
  destruct (addHolding_run number_text now random holding w rows Hrows)
    as (h & Hrun & Hid & Hsym & Hname & Hsec & Hq & Ha & Hc & Hv & Hr & Hal & Hnotes & Hupd).
  set (row := map (Store.stored number_text) (holdingToRowValues h)) in *.
  destruct (getHoldings_last later
              (World (<[MF_STOCKS := rows ++ [row]]> (spreadsheet w)) (holdingsRowMap w)
                     (calls w ++ [ValuesAppend MF_STOCKS [holdingToRowValues h]]))
              rows row) as (hs & w2 & Hlist & Hlast).
  { cbn [spreadsheet]. apply lookup_insert_eq. }
  { exact Hne. }
  { subst row. cbn [holdingToRowValues map Store.stored lookup list_lookup JS.truthy_cell].
    rewrite Hid. apply generateUUID_truthy. }
  eexists h, _, hs, w2. split; [exact Hrun|]. split; [exact Hlist|].
  split.
  { rewrite Hlast. subst row. f_equal. apply row_reads_back.
    - now rewrite Hupd.
    - now rewrite Hq.
    - now rewrite Ha.
    - now rewrite Hc.
    - now rewrite Hv.
    - now rewrite Hal.
    - now rewrite Hr. }
  repeat split; assumption.
Qed.

(** C9, as the code has it. A payload that [createHoldingSchema] accepts,
    whose [rsi] is absent or is not zero and whose [allocation_pct] is not
    the negative zero, is created on a table that has its header, at a time
    whose timestamp is not empty, in a store that is faithful to the
    numbers of the record. The listing that follows ends with the created
    record: equal to it in [id], [symbol], [name], [sector], [qty],
    [avg_price], [current_price], [value], [rsi], [allocation_pct] and
    [updated_at], with the notes of the record, or the empty string when it
    has none. The [id] is the identifier generated and [updated_at] the
    timestamp of the creation; the other fields are those of the payload,
    with [value = qty * current_price]. *)
Theorem created_holding_reads_back (now later : string) (random : nat -> Z)
    (holding : NewHolding.t) (w : world) (rows : list (list string)) :
  Validation.createHoldingSchema holding = true ->
  ServiceSpec.nonZero (NewHolding.rsi holding) = true ->
  JS.is_neg_zero (NewHolding.allocation_pct holding) = false ->
  ServiceSpec.faithful number_text holding ->
  spreadsheet w !! MF_STOCKS = Some rows ->
  rows <> [] ->
  JS.truthy_str now = true ->
  exists h w1 hs w2,
    addHolding number_text now random holding w = (Ok h, w1)
    /\ getHoldings later w1 = (Ok hs, w2)
    /\ last hs = Some (ServiceSpec.readBack h)
    /\ Holding.id h = UUID.generateUUID random
    /\ Holding.updated_at h = now
    /\ Holding.symbol h = NewHolding.symbol holding
    /\ Holding.name h = NewHolding.name holding
    /\ Holding.sector h = NewHolding.sector holding
    /\ Holding.qty h = NewHolding.qty holding
    /\ Holding.avg_price h = NewHolding.avg_price holding
    /\ Holding.current_price h = NewHolding.current_price holding
    /\ Holding.value h = NewHolding.qty holding * NewHolding.current_price holding
    /\ Holding.rsi h = NewHolding.rsi holding
    /\ Holding.allocation_pct h = NewHolding.allocation_pct holding
    /\ Holding.notes h = NewHolding.notes holding.
Proof.
  intros Hvalid Hrsi Halloc (Pqty & Pavg & Pcur & Pval & Palloc & Prsi) Hrows Hne Hnow.
  unfold Validation.createHoldingSchema in Hvalid.
  repeat (apply andb_prop in Hvalid as [Hvalid ?]).
  unfold ServiceSpec.parsesBack in *.
  apply addHolding_then_getHoldings with (rows := rows); try assumption;
    unfold ServiceSpec.readsBack.
  - rewrite Pqty. now apply plus_num_or_zero, positive_plus.
  - rewrite Pavg. now apply plus_num_or_zero, positive_plus.
  - rewrite Pcur. now apply plus_num_or_zero, positive_plus.
  - rewrite Pval. now apply plus_num_or_zero, product_plus.
  - rewrite Palloc. apply plus_num_or_zero. now apply within_plus with (hi := 100).
  - destruct (NewHolding.rsi holding) as [x|]; cbn [ServiceSpec.rsiReadsBack]; [|exact I].
    split; [|now apply Prsi].
    apply within_truthy with (hi := 100); [assumption|].
    cbn [ServiceSpec.nonZero] in Hrsi. now apply negb_true_iff in Hrsi.
Qed.

End RoundTrip.

(** ** Deleting a holding *)

Section DeleteTheorems.

(** An identifier the loop of the row cache has set is in the cache from the
    start or is the first cell of one of the rows gone through. *)
Lemma cacheRows_from (rows : list (list string)) (indices : list nat)
    (cache : gmap string nat) (id : string) (n : nat) :
  fold_left
    (fun cache i =>
       let row := default [] (rows !! i) in
       if JS.truthy_cell (row !! 0%nat)
       then <[JS.or_empty (row !! 0%nat) := (i + 1)%nat]> cache
       else cache)
    indices cache !! id = Some n ->
  cache !! id = Some n
  \/ exists i row, In i indices /\ rows !! i = Some row /\ row !! 0%nat = Some id.
Proof.
  revert cache. induction indices as [|i indices IH]; intros cache H; cbn [fold_left] in H.
  - now left.
  - apply IH in H as [H|(j & row & Hj & Hrow & Hid)].
    + destruct (rows !! i) as [row|] eqn:Hrow; cbn [default from_option] in H.
      * unfold Datatypes.id in H. destruct (row !! 0%nat) as [s|] eqn:Hs; cbn [JS.truthy_cell] in H.
        -- destruct (JS.truthy_str s); [|now left].
           cbn [JS.or_empty] in H. destruct (decide (s = id)) as [->|Hne].
           ++ right. exists i, row. simpl. auto.
           ++ rewrite lookup_insert_ne in H by exact Hne. now left.
        -- now left.
      * now left.
    + right. exists j, row. simpl. auto.
Qed.

Lemma cacheRows_stored (rows : list (list string)) (id : string) (n : nat) :
  cacheRows rows ∅ !! id = Some n -> ServiceSpec.stored id rows.
Proof.
  unfold cacheRows. intros H. apply cacheRows_from in H as [H|(i & row & Hi & Hrow & Hid)].
  - rewrite lookup_empty in H. discriminate.
  - exists i, row. apply in_seq in Hi. repeat split; [lia|assumption|assumption].
Qed.

(** On a row cache that is empty the deletion of an identifier that is not
    stored fails, and the one call made is the reading of the holdings: the
    spreadsheet is left as it was. *)
Lemma deleteHolding_unknown_fresh (id : string) (w : world) (rows : list (list string)) :
  (size (holdingsRowMap w) =? 0)%nat = true ->
  spreadsheet w !! MF_STOCKS = Some rows ->
  ~ ServiceSpec.stored id rows ->
  deleteHolding id w
  = (Err (HoldingNotFound id),
     World (spreadsheet w) (cacheRows rows ∅) (calls w ++ [ValuesGet MF_STOCKS])).
Proof.
  intros Hsize Hrows Hunknown.
  apply (miss_after_rebuild Store.decimalText EmptyString id HoldingUpdates.none w rows);
    try assumption.
  destruct (cacheRows rows ∅ !! id) as [n|] eqn:E; [|reflexivity].
  exfalso. apply Hunknown. now apply (cacheRows_stored rows id n).
Qed.

End DeleteTheorems.

(** * Further properties of the service *)

(** ** The loops over the rows of a range *)

Section Listing.

(** The loops of the service over the rows after the header: the loop that
    pushes [f row] for each row that passes the test [keep] makes the list
    of the [f row] of those rows, in the order of the table. *)
Lemma rows_loop {B} (keep : list string -> bool) (f : list string -> B)
    (rest pre : list (list string)) (acc : list B) :
  fold_left
    (fun acc i =>
       let row := default [] ((pre ++ rest) !! i) in
       if keep row then acc ++ [f row] else acc)
    (seq (length pre) (length rest)) acc
  = acc ++ map f (List.filter keep rest).
Proof.
  revert pre acc. induction rest as [|r rest IH]; intros pre acc.
  - simpl. now rewrite app_nil_r.
  - cbn [length seq fold_left List.filter].
    rewrite list_lookup_middle by reflexivity. cbn [default from_option]. unfold Datatypes.id.
    replace (pre ++ r :: rest) with ((pre ++ [r]) ++ rest) by now rewrite <- app_assoc.
    replace (S (length pre)) with (length (pre ++ [r])) by (rewrite length_app; simpl; lia).
    rewrite IH. destruct (keep r); cbn [map]; [|reflexivity].
    now rewrite <- app_assoc.
Qed.

Lemma table_loop {B} (keep : list string -> bool) (f : list string -> B)
    (header : list string) (data : list (list string)) :
  fold_left
    (fun acc i =>
       let row := default [] ((header :: data) !! i) in
       if keep row then acc ++ [f row] else acc)
    (seq 1 (length (header :: data) - 1)) []
  = map f (List.filter keep data).
Proof.
  cbn [length]. replace (S (length data) - 1)%nat with (length data) by lia.
  apply (rows_loop keep f data [header] []).
Qed.

End Listing.

(** ** The row cache *)

Section RowCache.

(** The entries the loop of the row cache makes: an entry the cache has
    after the loop was there before it, or is the position, counted from
    1, of a row the loop went through whose first cell is the key. *)
Lemma cache_loop_sound (rows : list (list string)) (indices : list nat)
    (cache : gmap string nat) (id : string) (n : nat) :
  fold_left
    (fun cache i =>
       let row := default [] (rows !! i) in
       if JS.truthy_cell (row !! 0%nat)
       then <[JS.or_empty (row !! 0%nat) := (i + 1)%nat]> cache
       else cache)
    indices cache !! id = Some n ->
  cache !! id = Some n
  \/ exists i row, In i indices /\ n = (i + 1)%nat /\ rows !! i = Some row
                   /\ row !! 0%nat = Some id.
Proof.
  revert cache. induction indices as [|i indices IH]; intros cache H; cbn [fold_left] in H.
  - now left.
  - apply IH in H as [H|(j & row & Hj & Hn & Hrow & Hid)].
    + destruct (rows !! i) as [row|] eqn:Hrow; cbn [default from_option] in H.
      * unfold Datatypes.id in H.
        destruct (row !! 0%nat) as [s|] eqn:Hs; cbn [JS.truthy_cell] in H; [|now left].
        destruct (JS.truthy_str s); [|now left].
        cbn [JS.or_empty] in H. destruct (decide (s = id)) as [->|Hne].
        -- rewrite lookup_insert_eq in H. injection H as <-.
           right. exists i, row. simpl. auto.
        -- rewrite lookup_insert_ne in H by exact Hne. now left.
      * now left.
    + right. exists j, row. simpl. auto.
Qed.

Lemma cache_loop_keeps (rows : list (list string)) (indices : list nat)
    (cache : gmap string nat) (id : string) :
  is_Some (cache !! id) ->
  is_Some (fold_left
             (fun cache i =>
                let row := default [] (rows !! i) in
                if JS.truthy_cell (row !! 0%nat)
                then <[JS.or_empty (row !! 0%nat) := (i + 1)%nat]> cache
                else cache)
             indices cache !! id).
Proof.
  revert cache. induction indices as [|i indices IH]; intros cache H; cbn [fold_left].
  - exact H.
  - apply IH. cbv zeta. destruct (JS.truthy_cell _); [|exact H].
    destruct (decide (JS.or_empty (default [] (rows !! i) !! 0%nat) = id)) as [->|Hne].
    + rewrite lookup_insert_eq. eauto.
    + now rewrite lookup_insert_ne.
Qed.

(** The row cache after the loop over the table [rows]: a key that was not
    in the cache before is the first cell of the row it is mapped to. *)
Lemma cacheRows_sound (rows : list (list string)) (cache : gmap string nat)
    (id : string) (n : nat) :
  cacheRows rows cache !! id = Some n ->
  cache !! id = Some n
  \/ exists row, (2 <= n)%nat /\ rows !! (n - 1)%nat = Some row /\ row !! 0%nat = Some id.
Proof.
  unfold cacheRows. intros H.
  apply cache_loop_sound in H as [H|(i & row & Hi & -> & Hrow & Hid)]; [now left|].
  right. exists row. apply in_seq in Hi.
  replace (i + 1 - 1)%nat with i by lia. repeat split; [lia|assumption|assumption].
Qed.

End RowCache.

Section RowCacheSets.

(** A row the loop goes through, whose first cell has content, leaves its
    key in the cache, mapped to the position of a row with that first
    cell. *)
Lemma cache_loop_sets (rows : list (list string)) (indices : list nat)
    (cache : gmap string nat) (id : string) (i : nat) (row : list string) :
  In i indices -> rows !! i = Some row -> row !! 0%nat = Some id ->
  JS.truthy_str id = true ->
  exists j row',
    In j indices /\ rows !! j = Some row' /\ row' !! 0%nat = Some id
    /\ fold_left
         (fun cache i =>
            let row := default [] (rows !! i) in
            if JS.truthy_cell (row !! 0%nat)
            then <[JS.or_empty (row !! 0%nat) := (i + 1)%nat]> cache
            else cache)
         indices cache !! id = Some (j + 1)%nat.
Proof.
  revert cache. induction indices as [|k indices IH]; intros cache Hi Hrow Hid Ht; [destruct Hi|].
  cbn [fold_left]. destruct Hi as [->|Hi].
  - set (cache1 := let row := default [] (rows !! i) in
                   if JS.truthy_cell (row !! 0%nat)
                   then <[JS.or_empty (row !! 0%nat) := (i + 1)%nat]> cache
                   else cache).
    assert (H1 : cache1 !! id = Some (i + 1)%nat).
    { subst cache1. cbv zeta. rewrite Hrow. cbn [default from_option]. unfold Datatypes.id.
      rewrite Hid. cbn [JS.truthy_cell JS.or_empty]. now rewrite Ht, lookup_insert_eq. }
    destruct (cache_loop_keeps rows indices cache1 id) as [n Hn]; [eauto|].
    destruct (cache_loop_sound rows indices cache1 id n Hn)
      as [Hold|(j & row' & Hj & -> & Hrow' & Hid')].
    + rewrite H1 in Hold. injection Hold as <-.
      exists i, row. simpl. auto.
    + exists j, row'. simpl. auto.
  - match goal with |- context [fold_left _ indices ?c] =>
      destruct (IH c Hi Hrow Hid Ht) as (j & row' & Hj & Hrow' & Hid' & Hn)
    end.
    exists j, row'. simpl. auto.
Qed.

Lemma cacheRows_sets (rows : list (list string)) (cache : gmap string nat)
    (id : string) (i : nat) (row : list string) :
  (1 <= i)%nat -> rows !! i = Some row -> row !! 0%nat = Some id ->
  JS.truthy_str id = true ->
  exists j row',
    (1 <= j)%nat /\ rows !! j = Some row' /\ row' !! 0%nat = Some id
    /\ cacheRows rows cache !! id = Some (S j).
Proof.
  intros Hi Hrow Hid Ht.
  assert (Hin : In i (seq 1 (length rows - 1))).
  { apply in_seq. apply lookup_lt_Some in Hrow. lia. }
  destruct (cache_loop_sets rows _ cache id i row Hin Hrow Hid Ht)
    as (j & row' & Hj & Hrow' & Hid' & Hn).
  exists j, row'. apply in_seq in Hj. unfold cacheRows.
  replace (S j) with (j + 1)%nat by lia. repeat split; [lia|assumption|assumption|exact Hn].
Qed.

End RowCacheSets.

(** ** The listings *)

Section ListingRuns.

Lemma getHoldings_run (now : string) (w : world) (rows : list (list string)) :
  spreadsheet w !! MF_STOCKS = Some rows ->
  getHoldings now w
  = (Ok (map (parseHoldingFromRow now) (List.filter ServiceTerms.hasId (tail rows))),
     World (spreadsheet w)
           (if (length rows <=? 1)%nat then holdingsRowMap w
            else cacheRows rows (holdingsRowMap w))
           (calls w ++ [ValuesGet MF_STOCKS])).
Proof.
  intros Hrows.
  unfold getHoldings, Store.get, mbind, M_bind, called, getTable, getCache, setCache, mret, M_ret.
  cbn [spreadsheet holdingsRowMap calls]. rewrite Hrows.
  destruct (length rows <=? 1)%nat eqn:Hlen.
  - destruct rows as [|header [|r data]]; [reflexivity|reflexivity|discriminate Hlen].
  - destruct rows as [|header data]; [discriminate Hlen|].
    cbn [spreadsheet holdingsRowMap calls tail].
    rewrite (table_loop (fun row => JS.truthy_cell (row !! 0%nat))
               (parseHoldingFromRow now) header data).
    reflexivity.
Qed.

End ListingRuns.

Section MoreListingRuns.
Import ServiceTerms.

Lemma get_run (range : string) (w : world) :
  Store.get range w
  = (match spreadsheet w !! range with
     | Some rows => Ok rows
     | None => Err (UnableToParseRange range)
     end, afterGet range w).
Proof.
  unfold Store.get, mbind, M_bind, called, getTable, afterGet.
  cbn [spreadsheet holdingsRowMap calls]. now destruct (spreadsheet w !! range).
Qed.

Lemma truthy_cell_or_empty (x : option string) :
  JS.truthy_cell x = true -> JS.truthy_str (JS.or_empty x) = true.
Proof. destruct x; [trivial|discriminate]. Qed.

Lemma getIdealAllocation_run (w : world) (rows : list (list string)) :
  spreadsheet w !! IDEAL_ALLOCATION = Some rows ->
  getIdealAllocation w
  = (Ok (map idealOfRow (List.filter isIdealRow (tail rows))), afterGet IDEAL_ALLOCATION w).
Proof.
  intros Hrows. unfold getIdealAllocation, mbind, M_bind. rewrite get_run, Hrows.
  destruct (length rows <=? 1)%nat eqn:Hlen.
  - destruct rows as [|header [|r data]]; [reflexivity|reflexivity|discriminate Hlen].
  - destruct rows as [|header data]; [discriminate Hlen|].
    unfold mret, M_ret. cbn [tail].
    rewrite (table_loop
               (fun row => JS.truthy_cell (row !! 0%nat) && JS.truthy_cell (row !! 1%nat))
               idealOfRow header data).
    reflexivity.
Qed.

Lemma getMonthlyGrowth_run (localeCompare : string -> string -> comparison) (w : world)
    (rows : list (list string)) :
  spreadsheet w !! MONTHLY_GROWTH = Some rows ->
  getMonthlyGrowth localeCompare w
  = (Ok (Aggregation.sort (byMonthAscending localeCompare)
           (map growthOfRow (List.filter isGrowthRow (tail rows)))),
     afterGet MONTHLY_GROWTH w).
Proof.
  intros Hrows. unfold getMonthlyGrowth, mbind, M_bind. rewrite get_run, Hrows.
  destruct (length rows <=? 1)%nat eqn:Hlen.
  - destruct rows as [|header [|r data]]; [reflexivity|reflexivity|discriminate Hlen].
  - destruct rows as [|header data]; [discriminate Hlen|].
    unfold mret, M_ret. cbn [tail].
    rewrite (table_loop
               (fun row => JS.truthy_cell (row !! 0%nat) && JS.truthy_cell (row !! 1%nat)
                           && JS.truthy_cell (row !! 2%nat))
               growthOfRow header data).
    reflexivity.
Qed.

Lemma getSnapshots_run (localeCompare : string -> string -> comparison) (w : world)
    (rows : list (list string)) :
  spreadsheet w !! SNAPSHOT = Some rows ->
  getSnapshots localeCompare w
  = (Ok (Aggregation.sort (byDateDescending localeCompare)
           (map snapshotOfRow (List.filter isSnapshotRow (tail rows)))),
     afterGet SNAPSHOT w).
Proof.
  intros Hrows. unfold getSnapshots, mbind, M_bind. rewrite get_run, Hrows.
  destruct (length rows <=? 1)%nat eqn:Hlen.
  - destruct rows as [|header [|r data]]; [reflexivity|reflexivity|discriminate Hlen].
  - destruct rows as [|header data]; [discriminate Hlen|].
    unfold mret, M_ret. cbn [tail].
    rewrite (table_loop
               (fun row => JS.truthy_cell (row !! 0%nat) && JS.truthy_cell (row !! 1%nat))
               snapshotOfRow header data).
    reflexivity.
Qed.

End MoreListingRuns.

Section ListingTheorems.
Import ServiceTerms.

Lemma filter_length_le {A} (f : A -> bool) (l : list A) :
  (length (List.filter f l) <= length l)%nat.
Proof. induction l as [|x l IH]; simpl; [lia|]. destruct (f x); simpl; lia. Qed.

(** X1. The listing of the holdings. On a spreadsheet that has the range of
    the holdings, [getHoldings] returns one record for each row after the
    header whose first cell has content, in the order of the table, and
    skips the other rows; every record listed has an identifier that is
    not empty. A table without rows and a table that has its header only
    give the empty list and leave the row cache as it was. *)
Theorem getHoldings_lists_rows_with_id (now : string) (w : world)
    (rows : list (list string)) :
  spreadsheet w !! MF_STOCKS = Some rows ->
  exists hs w',
    getHoldings now w = (Ok hs, w')
    /\ hs = map (parseHoldingFromRow now) (List.filter hasId (tail rows))
    /\ Forall (fun h => JS.truthy_str (Holding.id h) = true) hs
    /\ (length hs <= length rows - 1)%nat
    /\ ((length rows <= 1)%nat -> hs = [] /\ holdingsRowMap w' = holdingsRowMap w).
Proof.
  intros Hrows. rewrite (getHoldings_run now w rows Hrows).
  eexists _, _. split; [reflexivity|]. split; [reflexivity|]. split; [|split].
  - apply List.Forall_forall. intros h Hh. apply in_map_iff in Hh as (row & <- & Hrow).
    apply filter_In in Hrow as [_ Hid]. unfold hasId in Hid.
    cbn [parseHoldingFromRow Holding.id]. now apply truthy_cell_or_empty.
  - rewrite length_map. etransitivity; [apply filter_length_le|].
    destruct rows; simpl; lia.
  - intros Hlen. cbn [holdingsRowMap].
    apply Nat.leb_le in Hlen. rewrite Hlen. split; [|reflexivity].
    apply Nat.leb_le in Hlen. destruct rows as [|header [|r data]]; [reflexivity|reflexivity|].
    simpl in Hlen. lia.
Qed.

(** X2. The row cache after a listing. Every row after the header whose first
    cell has content has its identifier in the cache, mapped to the
    position (counted from 1) of a row of the table with that identifier.
    An entry of the cache after the listing was there before it or points
    to such a row. The listing removes no entry: an entry for a holding
    that is gone from the table stays in the cache. *)
Theorem getHoldings_row_cache (now : string) (w : world) (rows : list (list string)) :
  spreadsheet w !! MF_STOCKS = Some rows ->
  let cache := holdingsRowMap w in
  let cache' := holdingsRowMap (snd (getHoldings now w)) in
  (forall i row id,
      (1 <= i)%nat -> rows !! i = Some row -> row !! 0%nat = Some id ->
      JS.truthy_str id = true ->
      exists j row',
        (1 <= j)%nat /\ rows !! j = Some row' /\ row' !! 0%nat = Some id
        /\ cache' !! id = Some (S j))
  /\ (forall id n,
        cache' !! id = Some n ->
        cache !! id = Some n
        \/ exists row, (2 <= n)%nat /\ rows !! (n - 1)%nat = Some row
                       /\ row !! 0%nat = Some id)
  /\ (forall id, is_Some (cache !! id) -> is_Some (cache' !! id)).
Proof.
  intros Hrows cache cache'. subst cache cache'.
  rewrite (getHoldings_run now w rows Hrows). cbn [snd holdingsRowMap].
  destruct (length rows <=? 1)%nat eqn:Hlen.
  - apply Nat.leb_le in Hlen. split; [|split].
    + intros i row id Hi Hrow. apply lookup_lt_Some in Hrow. lia.
    + intros id n H. now left.
    + trivial.
  - split; [|split].
    + intros i row id Hi Hrow Hid Ht. now apply (cacheRows_sets rows _ id i row).
    + intros id n H. now apply cacheRows_sound.
    + intros id H. unfold cacheRows. now apply cache_loop_keeps.
Qed.

(** X4. The listings only read. Whatever the spreadsheet holds, a listing makes
    one call, the reading of its range, and leaves the spreadsheet as it
    was; the listings of the ideal allocation, of the monthly growth and
    of the snapshots leave the row cache as it was too. A listing fails
    exactly when the spreadsheet does not have its range, with the error of
    the store. *)
Theorem listings_only_read (localeCompare : string -> string -> comparison)
    (now : string) (w : world) :
  (spreadsheet (snd (getHoldings now w)) = spreadsheet w
   /\ calls (snd (getHoldings now w)) = calls w ++ [ValuesGet MF_STOCKS]
   /\ (spreadsheet w !! MF_STOCKS = None ->
       getHoldings now w = (Err (UnableToParseRange MF_STOCKS), afterGet MF_STOCKS w)))
  /\ (snd (getIdealAllocation w) = afterGet IDEAL_ALLOCATION w
      /\ (spreadsheet w !! IDEAL_ALLOCATION = None ->
          fst (getIdealAllocation w) = Err (UnableToParseRange IDEAL_ALLOCATION)))
  /\ (snd (getMonthlyGrowth localeCompare w) = afterGet MONTHLY_GROWTH w
      /\ (spreadsheet w !! MONTHLY_GROWTH = None ->
          fst (getMonthlyGrowth localeCompare w) = Err (UnableToParseRange MONTHLY_GROWTH)))
  /\ (snd (getSnapshots localeCompare w) = afterGet SNAPSHOT w
      /\ (spreadsheet w !! SNAPSHOT = None ->
          fst (getSnapshots localeCompare w) = Err (UnableToParseRange SNAPSHOT))).
Proof.
  split; [|split; [|split]].
  - destruct (spreadsheet w !! MF_STOCKS) as [rows|] eqn:Hrows.
    + rewrite (getHoldings_run now w rows Hrows). cbn [snd spreadsheet calls].
      repeat split. discriminate.
    + unfold getHoldings, mbind, M_bind. rewrite get_run, Hrows. cbn [snd afterGet spreadsheet calls].
      repeat split.
  - destruct (spreadsheet w !! IDEAL_ALLOCATION) as [rows|] eqn:Hrows.
    + rewrite (getIdealAllocation_run w rows Hrows). split; [reflexivity|discriminate].
    + unfold getIdealAllocation, mbind, M_bind. rewrite get_run, Hrows. split; reflexivity.
  - destruct (spreadsheet w !! MONTHLY_GROWTH) as [rows|] eqn:Hrows.
    + rewrite (getMonthlyGrowth_run localeCompare w rows Hrows). split; [reflexivity|discriminate].
    + unfold getMonthlyGrowth, mbind, M_bind. rewrite get_run, Hrows. split; reflexivity.
  - destruct (spreadsheet w !! SNAPSHOT) as [rows|] eqn:Hrows.
    + rewrite (getSnapshots_run localeCompare w rows Hrows). split; [reflexivity|discriminate].
    + unfold getSnapshots, mbind, M_bind. rewrite get_run, Hrows. split; reflexivity.
Qed.

End ListingTheorems.

Section OtherListings.
Import ServiceTerms.

Lemma truthy_cells_and (a b : option string) :
  JS.truthy_cell a && JS.truthy_cell b = true ->
  JS.truthy_str (JS.or_empty a) = true /\ JS.truthy_str (JS.or_empty b) = true.
Proof.
  intros H. apply andb_prop in H as [Ha Hb]. split; now apply truthy_cell_or_empty.
Qed.

(** X5. The listing of the ideal allocation. On a spreadsheet that has the
    range, [getIdealAllocation] returns one entry for each row after the
    header whose first two cells have content, in the order of the table;
    every entry has a sector that is not empty and a target that is a
    number: a target cell that is no number is listed as the target 0. A
    table with its header only, or without rows, gives the empty list. *)
Theorem getIdealAllocation_entries (w : world) (rows : list (list string)) :
  spreadsheet w !! IDEAL_ALLOCATION = Some rows ->
  exists ideals,
    getIdealAllocation w = (Ok ideals, afterGet IDEAL_ALLOCATION w)
    /\ ideals = map idealOfRow (List.filter isIdealRow (tail rows))
    /\ Forall (fun a => JS.truthy_str (IdealAllocation.sector a) = true
                        /\ is_nan (IdealAllocation.target_pct a) = false) ideals
    /\ (forall row, In row (tail rows) -> isIdealRow row = true ->
          JS.non_numeric (row !! 1%nat) = true ->
          In {| IdealAllocation.sector := JS.or_empty (row !! 0%nat);
                IdealAllocation.target_pct := 0 |} ideals)
    /\ ((length rows <= 1)%nat -> ideals = []).
Proof.
  intros Hrows. rewrite (getIdealAllocation_run w rows Hrows).
  eexists. split; [reflexivity|]. split; [reflexivity|]. split; [|split].
  - apply List.Forall_forall. intros a Ha. apply in_map_iff in Ha as (row & <- & Hrow).
    apply filter_In in Hrow as [_ Hrow]. unfold isIdealRow in Hrow.
    apply truthy_cells_and in Hrow as [Hs _]. cbn [idealOfRow IdealAllocation.sector
      IdealAllocation.target_pct]. split; [exact Hs|apply num_or_zero_not_nan].
  - intros row Hin Hrow Hnum. apply in_map_iff. exists row. split.
    + unfold idealOfRow. now rewrite (num_or_zero_non_numeric _ Hnum).
    + apply filter_In. auto.
  - intros Hlen. destruct rows as [|header [|r data]]; [reflexivity|reflexivity|].
    simpl in Hlen. lia.
Qed.

Section Collation.
Variable localeCompare : string -> string -> comparison.

(** A collation that orders consistently. *)
Hypothesis localeCompare_trans :
  forall x y z, localeCompare x y <> Gt -> localeCompare y z <> Gt -> localeCompare x z <> Gt.
Hypothesis localeCompare_total :
  forall x y, localeCompare x y = Gt -> localeCompare y x <> Gt.

Lemma byMonthAscending_sorted (l : list MonthlyGrowth.t) :
  StronglySorted
    (fun a b => localeCompare (MonthlyGrowth.month a) (MonthlyGrowth.month b) <> Gt)
    (Aggregation.sort (byMonthAscending localeCompare) l).
Proof.
  apply (sort_sorted (byMonthAscending localeCompare)); unfold byMonthAscending.
  - intros x y z. apply localeCompare_trans.
  - intros x y. apply localeCompare_total.
Qed.

Lemma byDateDescending_sorted (l : list Snapshot.t) :
  StronglySorted
    (fun a b => localeCompare (Snapshot.date b) (Snapshot.date a) <> Gt)
    (Aggregation.sort (byDateDescending localeCompare) l).
Proof.
  apply (sort_sorted (byDateDescending localeCompare)); unfold byDateDescending.
  - intros x y z Hxy Hyz. now apply (localeCompare_trans _ (Snapshot.date y)).
  - intros x y. apply localeCompare_total.
Qed.

End Collation.

(** X6. The listing of the monthly growth. On a spreadsheet that has the
    range, [getMonthlyGrowth] returns the entries of the rows after the
    header whose first three cells have content, each once, and no other
    entry; every entry has a month and an account that are not empty and a
    pnl that is a number. For a collation that orders consistently the
    entries come by ascending month. *)
Theorem getMonthlyGrowth_entries (localeCompare : string -> string -> comparison)
    (w : world) (rows : list (list string)) :
  spreadsheet w !! MONTHLY_GROWTH = Some rows ->
  exists growth,
    getMonthlyGrowth localeCompare w = (Ok growth, afterGet MONTHLY_GROWTH w)
    /\ Permutation growth (map growthOfRow (List.filter isGrowthRow (tail rows)))
    /\ Forall (fun e => JS.truthy_str (MonthlyGrowth.month e) = true
                        /\ JS.truthy_str (MonthlyGrowth.account e) = true
                        /\ is_nan (MonthlyGrowth.pnl e) = false) growth
    /\ ((forall x y z, localeCompare x y <> Gt -> localeCompare y z <> Gt ->
                       localeCompare x z <> Gt) ->
        (forall x y, localeCompare x y = Gt -> localeCompare y x <> Gt) ->
        StronglySorted
          (fun a b => localeCompare (MonthlyGrowth.month a) (MonthlyGrowth.month b) <> Gt)
          growth).
Proof.
  intros Hrows. rewrite (getMonthlyGrowth_run localeCompare w rows Hrows).
  eexists. split; [reflexivity|]. split; [apply sort_perm|]. split.
  - apply List.Forall_forall. intros e He.
    apply (Permutation_in _ (sort_perm _ _)) in He.
    apply in_map_iff in He as (row & <- & Hrow).
    apply filter_In in Hrow as [_ Hrow]. unfold isGrowthRow in Hrow.
    apply andb_prop in Hrow as [Hrow _]. apply truthy_cells_and in Hrow as [Hm Ha].
    cbn [growthOfRow MonthlyGrowth.month MonthlyGrowth.account MonthlyGrowth.pnl].
    split; [exact Hm|]. split; [exact Ha|apply num_or_zero_not_nan].
  - intros Htrans Htotal. now apply byMonthAscending_sorted.
Qed.

(** X9. The listing of the snapshots. On a spreadsheet that has the range,
    [getSnapshots] returns the records of the rows after the header whose
    first two cells have content, each once, and no other record; every
    record has a date and a sector that are not empty and numbers in its
    four numeric fields. For a collation that orders consistently the
    records come by descending date. *)
Theorem getSnapshots_entries (localeCompare : string -> string -> comparison)
    (w : world) (rows : list (list string)) :
  spreadsheet w !! SNAPSHOT = Some rows ->
  exists snapshots,
    getSnapshots localeCompare w = (Ok snapshots, afterGet SNAPSHOT w)
    /\ Permutation snapshots (map snapshotOfRow (List.filter isSnapshotRow (tail rows)))
    /\ Forall (fun s => JS.truthy_str (Snapshot.date s) = true
                        /\ JS.truthy_str (Snapshot.sector s) = true
                        /\ is_nan (Snapshot.actual_pct s) = false
                        /\ is_nan (Snapshot.target_pct s) = false
                        /\ is_nan (Snapshot.variance s) = false
                        /\ is_nan (Snapshot.total_value s) = false) snapshots
    /\ ((forall x y z, localeCompare x y <> Gt -> localeCompare y z <> Gt ->
                       localeCompare x z <> Gt) ->
        (forall x y, localeCompare x y = Gt -> localeCompare y x <> Gt) ->
        StronglySorted
          (fun a b => localeCompare (Snapshot.date b) (Snapshot.date a) <> Gt)
          snapshots).
Proof.
  intros Hrows. rewrite (getSnapshots_run localeCompare w rows Hrows).
  eexists. split; [reflexivity|]. split; [apply sort_perm|]. split.
  - apply List.Forall_forall. intros e He.
    apply (Permutation_in _ (sort_perm _ _)) in He.
    apply in_map_iff in He as (row & <- & Hrow).
    apply filter_In in Hrow as [_ Hrow]. unfold isSnapshotRow in Hrow.
    apply truthy_cells_and in Hrow as [Hd Hs].
    cbn [snapshotOfRow Snapshot.date Snapshot.sector Snapshot.actual_pct Snapshot.target_pct
         Snapshot.variance Snapshot.total_value].
    repeat split; try assumption; apply num_or_zero_not_nan.
  - intros Htrans Htotal. now apply byDateDescending_sorted.
Qed.

End OtherListings.

(** ** The calls of the summary and of the snapshot run *)

Section CallPatterns.
Import ServiceTerms.

Lemma getHoldings_shape (now : string) (w : world) :
  exists r cache,
    getHoldings now w = (r, World (spreadsheet w) cache (calls w ++ [ValuesGet MF_STOCKS]))
    /\ succeeded r = hasRange w MF_STOCKS.
Proof.
  unfold hasRange. destruct (spreadsheet w !! MF_STOCKS) as [rows|] eqn:Hrows.
  - rewrite (getHoldings_run now w rows Hrows). eexists _, _. split; reflexivity.
  - unfold getHoldings, mbind, M_bind. rewrite get_run, Hrows. eexists _, _. split; reflexivity.
Qed.

Lemma getIdealAllocation_shape (w : world) :
  exists r,
    getIdealAllocation w = (r, afterGet IDEAL_ALLOCATION w)
    /\ succeeded r = hasRange w IDEAL_ALLOCATION.
Proof.
  unfold hasRange. destruct (spreadsheet w !! IDEAL_ALLOCATION) as [rows|] eqn:Hrows.
  - rewrite (getIdealAllocation_run w rows Hrows). eexists. split; reflexivity.
  - unfold getIdealAllocation, mbind, M_bind. rewrite get_run, Hrows. eexists. split; reflexivity.
Qed.

Lemma getMonthlyGrowth_shape (localeCompare : string -> string -> comparison) (w : world) :
  exists r,
    getMonthlyGrowth localeCompare w = (r, afterGet MONTHLY_GROWTH w)
    /\ succeeded r = hasRange w MONTHLY_GROWTH.
Proof.
  unfold hasRange. destruct (spreadsheet w !! MONTHLY_GROWTH) as [rows|] eqn:Hrows.
  - rewrite (getMonthlyGrowth_run localeCompare w rows Hrows). eexists. split; reflexivity.
  - unfold getMonthlyGrowth, mbind, M_bind. rewrite get_run, Hrows. eexists. split; reflexivity.
Qed.

(** X12. The summary handler always makes the same three calls: whatever the
    spreadsheet holds, and whether or not one of them fails, it reads the
    holdings, the ideal allocation and the monthly growth, once each, and
    leaves the spreadsheet as it was. It ends without an error exactly
    when the spreadsheet has the three ranges. *)
Theorem getSummary_reads_three_ranges (localeCompare : string -> string -> comparison)
    (now currentYear : string) (w : world) :
  let r := getSummary localeCompare now currentYear w in
  calls (snd r)
  = calls w ++ [ValuesGet MF_STOCKS; ValuesGet IDEAL_ALLOCATION; ValuesGet MONTHLY_GROWTH]
  /\ spreadsheet (snd r) = spreadsheet w
  /\ succeeded (fst r)
     = hasRange w MF_STOCKS && hasRange w IDEAL_ALLOCATION && hasRange w MONTHLY_GROWTH.
Proof.
  cbv zeta. unfold getSummary, mbind, M_bind, all2.
  destruct (getHoldings_shape now w) as (r1 & cache & -> & <-).
  set (w1 := World (spreadsheet w) cache (calls w ++ [ValuesGet MF_STOCKS])).
  destruct (getIdealAllocation_shape w1) as (r2 & -> & H2).
  destruct (getMonthlyGrowth_shape localeCompare (afterGet IDEAL_ALLOCATION w1))
    as (r3 & -> & H3).
  change (hasRange w IDEAL_ALLOCATION) with (hasRange w1 IDEAL_ALLOCATION).
  change (hasRange w MONTHLY_GROWTH)
    with (hasRange (afterGet IDEAL_ALLOCATION w1) MONTHLY_GROWTH).
  rewrite <- H2, <- H3.
  unfold mret, M_ret.
  destruct r1 as [hs|e1], r2 as [ideals|e2], r3 as [growth|e3];
    cbn [snd fst afterGet calls spreadsheet succeeded andb w1];
    rewrite <- ?app_assoc; repeat split.
Qed.

Lemma createSnapshot_shape (number_text : float -> string) (now : string) (w : world) :
  let r := createSnapshot number_text now w in
  (succeeded (fst r) = false -> spreadsheet (snd r) = spreadsheet w)
  /\ (hasRange w MF_STOCKS && hasRange w IDEAL_ALLOCATION = false ->
      calls (snd r) = calls w ++ [ValuesGet MF_STOCKS; ValuesGet IDEAL_ALLOCATION])
  /\ succeeded (fst r)
     = hasRange w MF_STOCKS && hasRange w IDEAL_ALLOCATION && hasRange w SNAPSHOT.
Proof.
  cbv zeta. unfold createSnapshot, mbind, M_bind, all2.
  destruct (getHoldings_shape now w) as (r1 & cache & -> & <-).
  set (w1 := World (spreadsheet w) cache (calls w ++ [ValuesGet MF_STOCKS])).
  destruct (getIdealAllocation_shape w1) as (r2 & -> & H2).
  change (hasRange w IDEAL_ALLOCATION) with (hasRange w1 IDEAL_ALLOCATION).
  rewrite <- H2.
  destruct r1 as [hs|e1], r2 as [ideals|e2];
    cbn [snd fst afterGet calls spreadsheet succeeded andb w1];
    rewrite <- ?app_assoc;
    try (split; [reflexivity|split; [intros _; reflexivity|reflexivity]]).
  unfold Store.append, mbind, M_bind, called, getTable, setTable, mret, M_ret, hasRange.
  subst w1. cbn [afterGet spreadsheet holdingsRowMap calls].
  destruct (spreadsheet w !! SNAPSHOT) as [rows|];
    cbn [fst snd succeeded JS.defined spreadsheet andb].
  - split; [discriminate|]. split; [discriminate|reflexivity].
  - split; [reflexivity|]. split; [discriminate|reflexivity].
Qed.

(** X11. A snapshot run that fails writes nothing: the spreadsheet is as it was.
    When the spreadsheet lacks the range of the holdings or the range of
    the ideal allocation, both are still read and no append is attempted:
    the two readings are the only calls. The run ends without an error
    exactly when the spreadsheet has the three ranges it uses. *)
Theorem createSnapshot_failure_writes_nothing (number_text : float -> string)
    (now : string) (w : world) :
  let r := createSnapshot number_text now w in
  (succeeded (fst r) = false -> spreadsheet (snd r) = spreadsheet w)
  /\ (hasRange w MF_STOCKS && hasRange w IDEAL_ALLOCATION = false ->
      succeeded (fst r) = false
      /\ calls (snd r) = calls w ++ [ValuesGet MF_STOCKS; ValuesGet IDEAL_ALLOCATION])
  /\ succeeded (fst r)
     = hasRange w MF_STOCKS && hasRange w IDEAL_ALLOCATION && hasRange w SNAPSHOT.
Proof.
  destruct (createSnapshot_shape number_text now w) as (Hsame & Hcalls & Hok).
  cbv zeta. split; [exact Hsame|]. split; [|exact Hok].
  intros Hmiss. split; [|now apply Hcalls]. rewrite Hok, Hmiss. reflexivity.
Qed.

End CallPatterns.

(** ** Updates and deletions *)

Section FoundRuns.
Import ServiceTerms.
Variable number_text : float -> string.

Lemma updateFound_cases (now id : string) (updates : HoldingUpdates.t) (w : world) :
  ServiceSpec.updateFound number_text now id updates w
  = match holdingsRowMap w !! id with
    | Some (S n) =>
        let w1 := World (spreadsheet w) (holdingsRowMap w)
                        (calls w ++ [ValuesGetRow MF_STOCKS (S n)]) in
        match spreadsheet w !! MF_STOCKS with
        | Some rows =>
            match rows !! n with
            | Some row =>
                if blank row then (Err (HoldingNotFoundInRow id (S n)), w1)
                else
                  let h := updatedRecord now id updates row in
                  (Ok h,
                   World (<[MF_STOCKS :=
                              Store.writeRow n
                                (map (Store.stored number_text) (holdingToRowValues h)) rows]>
                            (spreadsheet w))
                         (holdingsRowMap w)
                         (calls w ++ [ValuesGetRow MF_STOCKS (S n);
                                      ValuesUpdate MF_STOCKS (S n) (holdingToRowValues h)]))
            | None => (Err (HoldingNotFoundInRow id (S n)), w1)
            end
        | None => (Err (UnableToParseRange MF_STOCKS), w1)
        end
    | _ => (Err (HoldingNotFound id), w)
    end.
Proof.
  unfold ServiceSpec.updateFound, rowIndexOf, Store.getRow, Store.update, mbind, M_bind, called,
    getCache, getTable, setTable, mret, M_ret, throw, blank, updatedRecord.
  cbn [spreadsheet holdingsRowMap calls].
  destruct (holdingsRowMap w !! id) as [[|n]|]; try reflexivity.
  cbn [spreadsheet holdingsRowMap calls].
  assert ((S n - 1)%nat = n) as -> by lia.
  destruct (spreadsheet w !! MF_STOCKS) as [rows|] eqn:Hrows; [|reflexivity].
  destruct (rows !! n) as [row|]; [|reflexivity].
  destruct (forallb _ row); [reflexivity|].
  cbn [spreadsheet holdingsRowMap calls]. rewrite Hrows, <- app_assoc. reflexivity.
Qed.

Lemma deleteFound_cases (id : string) (w : world) :
  ServiceSpec.deleteFound id w
  = match holdingsRowMap w !! id with
    | Some (S n) =>
        let cs := calls w ++ [SpreadsheetGet; DeleteRows "MF & Stocks" n (S n)] in
        match spreadsheet w !! MF_STOCKS with
        | Some rows =>
            (Ok tt,
             World (<[MF_STOCKS := take n rows ++ drop (S n) rows]> (spreadsheet w))
                   (delete id (holdingsRowMap w)) cs)
        | None =>
            (Err (UnableToParseRange MF_STOCKS), World (spreadsheet w) (holdingsRowMap w) cs)
        end
    | _ => (Err (HoldingNotFound id), w)
    end.
Proof.
  unfold ServiceSpec.deleteFound, rowIndexOf, getSheetIdByName, Store.deleteRow, mbind, M_bind,
    called, getCache, setCache, getTable, setTable, mret, M_ret, throw.
  cbn [spreadsheet holdingsRowMap calls].
  destruct (holdingsRowMap w !! id) as [[|n]|]; try reflexivity.
  cbn [spreadsheet holdingsRowMap calls].
  assert ((S n - 1)%nat = n) as -> by lia. rewrite <- app_assoc.
  destruct (spreadsheet w !! MF_STOCKS) as [rows|]; reflexivity.
Qed.

Lemma lookup_size_ne_0 (cache : gmap string nat) (id : string) (n : nat) :
  cache !! id = Some n -> (size cache =? 0)%nat = false.
Proof.
  intros H. apply Nat.eqb_neq. intros Hsize. apply map_size_empty_iff in Hsize.
  subst cache. rewrite lookup_empty in H. discriminate.
Qed.

Lemma blank_no_id (row : list string) (id : string) :
  row !! 0%nat = Some id -> JS.truthy_str id = true -> blank row = false.
Proof.
  destruct row as [|c row]; [discriminate|]. cbn. intros [= ->] ->. reflexivity.
Qed.

End FoundRuns.

Section UpdateTheorems.
Import ServiceTerms.
Variable number_text : float -> string.

Lemma writeRow_inside (n : nat) (row : list string) (rows : list (list string)) :
  (n < length rows)%nat -> Store.writeRow n row rows = <[n := row]> rows.
Proof. intros H. unfold Store.writeRow. apply Nat.ltb_lt in H. now rewrite H. Qed.

Lemma updateFound_inv (now id : string) (updates : HoldingUpdates.t) (w w' : world)
    (h : Holding.t) :
  ServiceSpec.updateFound number_text now id updates w = (Ok h, w') ->
  exists n rows row,
    holdingsRowMap w !! id = Some (S n)
    /\ spreadsheet w !! MF_STOCKS = Some rows
    /\ rows !! n = Some row
    /\ blank row = false
    /\ h = updatedRecord now id updates row
    /\ w' = World (<[MF_STOCKS :=
                       <[n := map (Store.stored number_text) (holdingToRowValues h)]> rows]>
                     (spreadsheet w))
                  (holdingsRowMap w)
                  (calls w ++ [ValuesGetRow MF_STOCKS (S n);
                               ValuesUpdate MF_STOCKS (S n) (holdingToRowValues h)]).
Proof.
  rewrite updateFound_cases.
  destruct (holdingsRowMap w !! id) as [[|n]|]; try discriminate.
  cbv zeta. destruct (spreadsheet w !! MF_STOCKS) as [rows|]; [|discriminate].
  destruct (rows !! n) as [row|] eqn:Hrow; [|discriminate].
  destruct (blank row) eqn:Hblank; [discriminate|].
  intros H. injection H as <- <-. exists n, rows, row.
  rewrite writeRow_inside by (now apply lookup_lt_Some in Hrow).
  repeat split; assumption.
Qed.

Lemma updatedRecord_stamps (now id : string) (updates : HoldingUpdates.t) (row : list string) :
  Holding.id (updatedRecord now id updates row) = id
  /\ Holding.updated_at (updatedRecord now id updates row) = now.
Proof.
  unfold updatedRecord, recalculateValue.
  destruct (JS.defined _ || JS.defined _); split; reflexivity.
Qed.

(** X15. An update that succeeds rewrites one row and nothing else. The row
    written is a row the table already had, at the position the row cache
    has for the identifier; the table keeps its length and its other rows,
    and the other ranges of the spreadsheet are as they were. The record
    returned carries the identifier asked for, whatever the first cell of
    the row was, and the time of the update; its value is left as it was
    read, or as the payload gives it, when the payload has neither [qty]
    nor [current_price]. *)
Theorem updateHolding_rewrites_one_row (now id : string) (updates : HoldingUpdates.t)
    (w w' : world) (h : Holding.t) :
  updateHolding number_text now id updates w = (Ok h, w') ->
  exists n rows currentRow,
    spreadsheet w !! MF_STOCKS = Some rows
    /\ rows !! n = Some currentRow
    /\ holdingsRowMap w' !! id = Some (S n)
    /\ spreadsheet w'
       = <[MF_STOCKS := <[n := map (Store.stored number_text) (holdingToRowValues h)]> rows]>
           (spreadsheet w)
    /\ h = updatedRecord now id updates currentRow
    /\ Holding.id h = id
    /\ Holding.updated_at h = now
    /\ (HoldingUpdates.qty updates = None -> HoldingUpdates.current_price updates = None ->
        Holding.value h
        = default (Holding.value (parseHoldingFromRow now currentRow))
            (HoldingUpdates.value updates))
    /\ (forall rows', spreadsheet w' !! MF_STOCKS = Some rows' ->
          length rows' = length rows
          /\ forall j, j <> n -> rows' !! j = rows !! j).
Proof.
  intros Hrun.
  destruct (updateHolding_ok number_text _ _ _ _ _ _ Hrun) as (w1 & Hfound & Hsame).
  destruct (updateFound_inv _ _ _ _ _ _ Hfound)
    as (n & rows & row & Hcache & Hrows & Hrow & Hblank & Hh & ->).
  exists n, rows, row. cbn [spreadsheet holdingsRowMap]. rewrite <- Hsame.
  destruct (updatedRecord_stamps now id updates row) as [Hid Hat].
  split; [exact Hrows|]. split; [exact Hrow|]. split; [exact Hcache|].
  split; [reflexivity|]. split; [exact Hh|]. split; [now subst h|]. split; [now subst h|].
  split.
  - intros Hq Hc. subst h. unfold updatedRecord, recalculateValue. now rewrite Hq, Hc.
  - intros rows' H. rewrite lookup_insert_eq in H. injection H as <-.
    split; [apply length_insert|]. intros j Hj. now apply list_lookup_insert_ne.
Qed.

(** X16. An update of a holding whose row is gone. When the row cache maps the
    identifier to a position the table has no row at, or a row without
    content, the update fails with the error that names the row; the one
    call made is the reading of that row, and nothing is written. *)
Theorem updateHolding_row_gone (now id : string) (updates : HoldingUpdates.t)
    (w : world) (rows : list (list string)) (n : nat) :
  holdingsRowMap w !! id = Some (S n) ->
  spreadsheet w !! MF_STOCKS = Some rows ->
  match rows !! n with Some row => blank row = true | None => True end ->
  updateHolding number_text now id updates w
  = (Err (HoldingNotFoundInRow id (S n)),
     World (spreadsheet w) (holdingsRowMap w) (calls w ++ [ValuesGetRow MF_STOCKS (S n)])).
Proof.
  intros Hcache Hrows Hgone.
  rewrite updateHolding_run, (lookup_size_ne_0 _ _ _ Hcache), updateFound_cases, Hcache, Hrows.
  cbv zeta. destruct (rows !! n) as [row|]; [|reflexivity]. now rewrite Hgone.
Qed.

(** X17. An update on a service whose row cache is empty. The cache is rebuilt
    from the table, so the update of an identifier that is the first cell
    of a row after the header succeeds: it rewrites a row with that
    identifier (the row at [i] when no other row has the identifier) and
    makes three calls, the reading of the table, the reading of the row and
    its writing. *)
Theorem updateHolding_fresh_finds_stored (now id : string) (updates : HoldingUpdates.t)
    (w : world) (rows : list (list string)) (i : nat) (row : list string) :
  (size (holdingsRowMap w) =? 0)%nat = true ->
  spreadsheet w !! MF_STOCKS = Some rows ->
  (1 <= i)%nat -> rows !! i = Some row -> row !! 0%nat = Some id ->
  JS.truthy_str id = true ->
  exists h w' j current,
    updateHolding number_text now id updates w = (Ok h, w')
    /\ (1 <= j)%nat /\ rows !! j = Some current /\ current !! 0%nat = Some id
    /\ h = updatedRecord now id updates current
    /\ spreadsheet w'
       = <[MF_STOCKS := <[j := map (Store.stored number_text) (holdingToRowValues h)]> rows]>
           (spreadsheet w)
    /\ calls w'
       = calls w ++ [ValuesGet MF_STOCKS; ValuesGetRow MF_STOCKS (S j);
                     ValuesUpdate MF_STOCKS (S j) (holdingToRowValues h)]
    /\ ((forall k row', (1 <= k)%nat -> rows !! k = Some row' ->
           row' !! 0%nat = Some id -> k = i) -> j = i).
Proof.
  intros Hempty Hrows Hi Hrow Hid Ht.
  destruct (cacheRows_sets rows ∅ id i row Hi Hrow Hid Ht) as (j & current & Hj & Hcur & Hcid & Hc).
  rewrite updateHolding_run, Hempty. unfold mbind at 1. unfold M_bind at 1.
  rewrite (initialize_run w rows Hrows), updateFound_cases.
  cbn [spreadsheet holdingsRowMap calls]. rewrite Hc, Hrows, Hcur. cbv zeta.
  rewrite (blank_no_id current id Hcid Ht).
  rewrite writeRow_inside by (now apply lookup_lt_Some in Hcur).
  eexists _, _, j, current. split; [reflexivity|].
  cbn [spreadsheet calls]. rewrite <- app_assoc.
  repeat split; try assumption. intros Hunique. now apply (Hunique j current).
Qed.

End UpdateTheorems.

Section DeleteMore.
Import ServiceTerms.

Lemma lookup_without (rows : list (list string)) (i j : nat) :
  (take i rows ++ drop (S i) rows) !! j
  = if (j <? i)%nat then rows !! j else rows !! (S j).
Proof.
  destruct (j <? i)%nat eqn:E.
  - apply Nat.ltb_lt in E.
    destruct (decide (i <= length rows)%nat) as [Hi|Hi].
    + rewrite lookup_app_l by (rewrite length_take; lia). now apply lookup_take_lt.
    + rewrite take_ge by lia. rewrite drop_ge by lia. now rewrite app_nil_r.
  - apply Nat.ltb_ge in E.
    destruct (decide (i <= length rows)%nat) as [Hi|Hi].
    + rewrite lookup_app_r by (rewrite length_take; lia).
      rewrite length_take, Nat.min_l by lia. rewrite lookup_drop. f_equal. lia.
    + rewrite take_ge by lia. rewrite drop_ge by lia. rewrite app_nil_r.
      rewrite !lookup_ge_None_2 by lia. reflexivity.
Qed.

Lemma deleteHolding_fresh_run (id : string) (w : world)
    (rows : list (list string)) (i : nat) (row : list string) :
  (size (holdingsRowMap w) =? 0)%nat = true ->
  spreadsheet w !! MF_STOCKS = Some rows ->
  (1 <= i)%nat -> rows !! i = Some row -> row !! 0%nat = Some id ->
  JS.truthy_str id = true ->
  exists j gone,
    (1 <= j)%nat /\ rows !! j = Some gone /\ gone !! 0%nat = Some id
    /\ deleteHolding id w
       = (Ok tt,
          World (<[MF_STOCKS := take j rows ++ drop (S j) rows]> (spreadsheet w))
                (delete id (cacheRows rows ∅))
                (calls w ++ [ValuesGet MF_STOCKS; SpreadsheetGet;
                             DeleteRows "MF & Stocks" j (S j)])).
Proof.
  intros Hempty Hrows Hi Hrow Hid Ht.
  destruct (cacheRows_sets rows ∅ id i row Hi Hrow Hid Ht) as (j & gone & Hj & Hgone & Hgid & Hc).
  exists j, gone. repeat split; try assumption.
  rewrite deleteHolding_run, Hempty. unfold mbind at 1. unfold M_bind at 1.
  rewrite (initialize_run w rows Hrows), deleteFound_cases.
  cbn [spreadsheet holdingsRowMap calls]. rewrite Hc, Hrows. cbv zeta.
  now rewrite <- app_assoc.
Qed.

(** X18. A deletion on a service whose row cache is empty. The cache is rebuilt
    from the table, so the deletion of an identifier that is the first
    cell of a row after the header succeeds: it removes one row, a row
    with that identifier (the row at [i] when no other row has the
    identifier), keeps the other rows in their order, and leaves no entry
    for the identifier in the cache. *)
Theorem deleteHolding_fresh_removes_row (id : string) (w : world)
    (rows : list (list string)) (i : nat) (row : list string) :
  (size (holdingsRowMap w) =? 0)%nat = true ->
  spreadsheet w !! MF_STOCKS = Some rows ->
  (1 <= i)%nat -> rows !! i = Some row -> row !! 0%nat = Some id ->
  JS.truthy_str id = true ->
  exists w' j gone,
    deleteHolding id w = (Ok tt, w')
    /\ (1 <= j)%nat /\ rows !! j = Some gone /\ gone !! 0%nat = Some id
    /\ spreadsheet w' = <[MF_STOCKS := take j rows ++ drop (S j) rows]> (spreadsheet w)
    /\ length (take j rows ++ drop (S j) rows) = (length rows - 1)%nat
    /\ (forall k, (take j rows ++ drop (S j) rows) !! k
                  = if (k <? j)%nat then rows !! k else rows !! (S k))
    /\ holdingsRowMap w' !! id = None
    /\ calls w'
       = calls w ++ [ValuesGet MF_STOCKS; SpreadsheetGet; DeleteRows "MF & Stocks" j (S j)]
    /\ ((forall k row', (1 <= k)%nat -> rows !! k = Some row' ->
           row' !! 0%nat = Some id -> k = i) -> j = i).
Proof.
  intros Hempty Hrows Hi Hrow Hid Ht.
  destruct (deleteHolding_fresh_run id w rows i row Hempty Hrows Hi Hrow Hid Ht)
    as (j & gone & Hj & Hgone & Hgid & Hrun).
  eexists _, j, gone. split; [exact Hrun|].
  cbn [spreadsheet holdingsRowMap calls].
  apply lookup_lt_Some in Hgone as Hlt.
  split; [exact Hj|]. split; [exact Hgone|]. split; [exact Hgid|]. split; [reflexivity|].
  split; [rewrite length_app, length_take, length_drop; lia|].
  split; [intros k; apply lookup_without|].
  split; [apply lookup_delete_eq|]. split; [reflexivity|].
  intros Hunique. now apply (Hunique j gone).
Qed.

(** X19. A holding is not deleted twice. On a service whose row cache is empty,
    and a table in which one row only has the identifier, the deletion of
    the identifier succeeds; a second deletion of it, and an update of it,
    fail with the not-found error and change no row: the table is the
    table the first deletion left. *)
Theorem deleteHolding_twice_fails (number_text : float -> string) (now id : string)
    (updates : HoldingUpdates.t) (w : world)
    (rows : list (list string)) (i : nat) (row : list string) :
  (size (holdingsRowMap w) =? 0)%nat = true ->
  spreadsheet w !! MF_STOCKS = Some rows ->
  (1 <= i)%nat -> rows !! i = Some row -> row !! 0%nat = Some id ->
  JS.truthy_str id = true ->
  (forall k row', (1 <= k)%nat -> rows !! k = Some row' -> row' !! 0%nat = Some id -> k = i) ->
  exists w1 w2,
    deleteHolding id w = (Ok tt, w1)
    /\ spreadsheet w1 !! MF_STOCKS = Some (take i rows ++ drop (S i) rows)
    /\ deleteHolding id w1 = (Err (HoldingNotFound id), w2)
    /\ updateHolding number_text now id updates w1 = (Err (HoldingNotFound id), w2)
    /\ spreadsheet w2 = spreadsheet w1.
Proof.
  intros Hempty Hrows Hi Hrow Hid Ht Hunique.
  destruct (deleteHolding_fresh_run id w rows i row Hempty Hrows Hi Hrow Hid Ht)
    as (j & gone & Hj & Hgone & Hgid & Hrun).
  assert (j = i) as -> by now apply (Hunique j gone).
  match type of Hrun with _ = (_, ?w) => set (w1 := w) in * end.
  assert (Htable : spreadsheet w1 !! MF_STOCKS = Some (take i rows ++ drop (S i) rows)).
  { subst w1. cbn [spreadsheet]. apply lookup_insert_eq. }
  assert (Hcache : holdingsRowMap w1 !! id = None).
  { subst w1. cbn [holdingsRowMap]. apply lookup_delete_eq. }
  destruct (size (holdingsRowMap w1) =? 0)%nat eqn:Hsize.
  - assert (Hmiss : cacheRows (take i rows ++ drop (S i) rows) ∅ !! id = None).
    { destruct (cacheRows _ ∅ !! id) as [n|] eqn:E; [|reflexivity]. exfalso.
      apply cacheRows_sound in E as [E|(row' & Hn & Hrow' & Hid')].
      - rewrite lookup_empty in E. discriminate.
      - rewrite lookup_without in Hrow'. destruct (n - 1 <? i)%nat eqn:Hlt.
        + apply Nat.ltb_lt in Hlt.
          assert (n - 1 = i)%nat by (apply (Hunique _ row'); [lia|assumption|assumption]). lia.
        + apply Nat.ltb_ge in Hlt.
          assert (S (n - 1) = i)%nat by (apply (Hunique _ row'); [lia|assumption|assumption]).
          lia. }
    destruct (miss_after_rebuild number_text now id updates w1 _ Hsize Htable Hmiss)
      as [Hupd Hdel].
    eexists w1, _. split; [exact Hrun|]. split; [exact Htable|]. split; [exact Hdel|].
    split; [exact Hupd|reflexivity].
  - destruct (miss_on_filled_cache number_text now id updates w1 Hsize Hcache) as [Hupd Hdel].
    exists w1, w1. split; [exact Hrun|]. split; [exact Htable|]. split; [exact Hdel|].
    split; [exact Hupd|reflexivity].
Qed.

End DeleteMore.

Section AfterListing.
Import ServiceTerms.
Variable number_text : float -> string.

(** X3. A holding that has just been listed is found. Right after a listing,
    whatever the row cache held before it, the update and the deletion of
    an identifier that is the first cell of a row after the header succeed
    and act on a row of the table with that identifier: the update rewrites
    it in place, the deletion removes it; neither rebuilds the cache. *)
Theorem listed_holding_is_found (now later id : string) (updates : HoldingUpdates.t)
    (w : world) (rows : list (list string)) (i : nat) (row : list string) :
  spreadsheet w !! MF_STOCKS = Some rows ->
  (1 <= i)%nat -> rows !! i = Some row -> row !! 0%nat = Some id ->
  JS.truthy_str id = true ->
  let listed := snd (getHoldings now w) in
  exists j current,
    (1 <= j)%nat /\ rows !! j = Some current /\ current !! 0%nat = Some id
    /\ holdingsRowMap listed !! id = Some (S j)
    /\ (exists h w',
          updateHolding number_text later id updates listed = (Ok h, w')
          /\ h = updatedRecord later id updates current
          /\ spreadsheet w'
             = <[MF_STOCKS :=
                   <[j := map (Store.stored number_text) (holdingToRowValues h)]> rows]>
                 (spreadsheet w)
          /\ calls w' = calls listed ++ [ValuesGetRow MF_STOCKS (S j);
                                         ValuesUpdate MF_STOCKS (S j) (holdingToRowValues h)])
    /\ (exists w',
          deleteHolding id listed = (Ok tt, w')
          /\ spreadsheet w' = <[MF_STOCKS := take j rows ++ drop (S j) rows]> (spreadsheet w)
          /\ holdingsRowMap w' !! id = None
          /\ calls w' = calls listed ++ [SpreadsheetGet; DeleteRows "MF & Stocks" j (S j)]).
Proof.
  intros Hrows Hi Hrow Hid Ht listed. subst listed.
  rewrite (getHoldings_run now w rows Hrows). cbn [snd].
  assert (Hlen : (length rows <=? 1)%nat = false).
  { apply Nat.leb_gt. apply lookup_lt_Some in Hrow. lia. }
  rewrite Hlen.
  destruct (cacheRows_sets rows (holdingsRowMap w) id i row Hi Hrow Hid Ht)
    as (j & current & Hj & Hcur & Hcid & Hc).
  exists j, current. split; [exact Hj|]. split; [exact Hcur|]. split; [exact Hcid|].
  cbn [holdingsRowMap]. split; [exact Hc|]. split.
  - rewrite updateHolding_run. cbn [holdingsRowMap].
    rewrite (lookup_size_ne_0 _ _ _ Hc), updateFound_cases.
    cbn [spreadsheet holdingsRowMap calls]. rewrite Hc, Hrows, Hcur. cbv zeta.
    rewrite (blank_no_id current id Hcid Ht).
    rewrite writeRow_inside by (now apply lookup_lt_Some in Hcur).
    eexists _, _. split; [reflexivity|]. cbn [spreadsheet calls].
    split; [reflexivity|]. split; reflexivity.
  - rewrite deleteHolding_run. cbn [holdingsRowMap].
    rewrite (lookup_size_ne_0 _ _ _ Hc), deleteFound_cases.
    cbn [spreadsheet holdingsRowMap calls]. rewrite Hc, Hrows. cbv zeta.
    eexists. split; [reflexivity|]. cbn [spreadsheet holdingsRowMap calls].
    split; [reflexivity|]. split; [apply lookup_delete_eq|reflexivity].
Qed.

End AfterListing.

(** ** What is added is listed *)

Section RoundTrips.
Import ServiceTerms Validation.
Variable number_text : float -> string.

Lemma append_run (range : string) (values : list (list cell)) (w : world)
    (rows : list (list string)) :
  spreadsheet w !! range = Some rows ->
  Store.append number_text range values w
  = (Ok tt,
     World (<[range := rows ++ map (map (Store.stored number_text)) values]> (spreadsheet w))
           (holdingsRowMap w) (calls w ++ [ValuesAppend range values])).
Proof.
  intros Hrows. unfold Store.append, mbind, M_bind, called, getTable, setTable.
  cbn [spreadsheet holdingsRowMap calls]. now rewrite Hrows.
Qed.

Lemma tail_app_nonempty {A} (l l' : list A) : l <> [] -> tail (l ++ l') = tail l ++ l'.
Proof. destruct l; [congruence|reflexivity]. Qed.

Lemma filter_app_all {A} (f : A -> bool) (l l' : list A) :
  Forall (fun x => f x = true) l' -> List.filter f (l ++ l') = List.filter f l ++ l'.
Proof.
  intros H. rewrite List.filter_app. f_equal.
  induction H as [|x l' Hx _ IH]; [reflexivity|]. simpl. now rewrite Hx, IH.
Qed.

Lemma isMonth_truthy (s : string) : Validation.isMonth s = true -> JS.truthy_str s = true.
Proof. destruct s; [discriminate|reflexivity]. Qed.

Lemma lengthWithin_truthy (hi : nat) (s : string) :
  Validation.lengthWithin 1 hi s = true -> JS.truthy_str s = true.
Proof. destruct s; [discriminate|reflexivity]. Qed.

Lemma parsesBack_text_truthy (x : float) :
  is_nan x = false -> ServiceSpec.parsesBack number_text x ->
  JS.truthy_str (number_text x) = true.
Proof.
  unfold ServiceSpec.parsesBack. intros Hnan Hp.
  destruct (number_text x) as [|c s]; [|reflexivity].
  rewrite <- Hp in Hnan. discriminate Hnan.
Qed.

Lemma parsesBack_readsBack (x : float) :
  is_nan x = false -> JS.is_neg_zero x = false ->
  ServiceSpec.parsesBack number_text x -> ServiceSpec.readsBack number_text x.
Proof.
  unfold ServiceSpec.parsesBack, ServiceSpec.readsBack. intros Hnan Hz ->.
  apply or_zero_keeps. unfold JS.resets. now rewrite Hnan, Hz.
Qed.

(** X8. An entry of the monthly growth that has been added is listed. For an
    entry that [monthlyGrowthSchema] accepts, added to a table that has its
    header, in a store that hands back the text cells as written and the
    pnl as text that parses to it (a pnl that is not the negative zero),
    the listing after the addition has the entries of the listing before
    it and the added entry, once more. The entry returned is the entry
    given. *)
Theorem added_growth_is_listed (localeCompare : string -> string -> comparison)
    (entry : MonthlyGrowth.t) (w : world) (rows : list (list string)) :
  monthlyGrowthSchema entry = true ->
  ServiceSpec.parsesBack number_text (MonthlyGrowth.pnl entry) ->
  JS.is_neg_zero (MonthlyGrowth.pnl entry) = false ->
  spreadsheet w !! MONTHLY_GROWTH = Some rows ->
  rows <> [] ->
  exists before w0 w1 after w2,
    getMonthlyGrowth localeCompare w = (Ok before, w0)
    /\ addMonthlyGrowth number_text entry w = (Ok entry, w1)
    /\ getMonthlyGrowth localeCompare w1 = (Ok after, w2)
    /\ Permutation after (entry :: before)
    /\ spreadsheet w1 !! MONTHLY_GROWTH
       = Some (rows ++ [[ MonthlyGrowth.month entry; MonthlyGrowth.account entry;
                          number_text (MonthlyGrowth.pnl entry) ]]).
Proof.
  intros Hvalid Hparse Hzero Hrows Hne.
  unfold monthlyGrowthSchema in Hvalid.
  apply andb_prop in Hvalid as [Hvalid Hnum]. apply andb_prop in Hvalid as [Hmonth Haccount].
  apply isMonth_truthy in Hmonth. apply lengthWithin_truthy in Haccount.
  unfold number in Hnum. apply negb_true_iff in Hnum.
  set (row := [ MonthlyGrowth.month entry; MonthlyGrowth.account entry;
                number_text (MonthlyGrowth.pnl entry) ]).
  assert (Hkeep : isGrowthRow row = true).
  { unfold isGrowthRow, row. cbn [lookup list_lookup JS.truthy_cell].
    now rewrite Hmonth, Haccount, (parsesBack_text_truthy _ Hnum Hparse). }
  assert (Hread : growthOfRow row = entry).
  { unfold growthOfRow, row. cbn [lookup list_lookup JS.or_empty].
    rewrite (parsesBack_readsBack _ Hnum Hzero Hparse). now destruct entry. }
  rewrite (getMonthlyGrowth_run localeCompare w rows Hrows).
  unfold addMonthlyGrowth, mbind, M_bind.
  rewrite (append_run MONTHLY_GROWTH _ w rows Hrows). unfold mret, M_ret.
  cbn [map Store.stored]. fold row.
  eexists _, _, _, _, _. split; [reflexivity|]. split; [reflexivity|].
  split.
  { apply getMonthlyGrowth_run. cbn [spreadsheet]. apply lookup_insert_eq. }
  split; [|cbn [spreadsheet]; apply lookup_insert_eq].
  rewrite (tail_app_nonempty rows [row] Hne).
  rewrite filter_app_all by (repeat constructor; exact Hkeep).
  rewrite map_app. cbn [map]. rewrite Hread.
  rewrite !sort_perm. rewrite Permutation_app_comm. reflexivity.
Qed.

Lemma createSnapshot_run (now : string) (w : world)
    (holdingRows idealRows snapshotRows : list (list string)) :
  spreadsheet w !! MF_STOCKS = Some holdingRows ->
  spreadsheet w !! IDEAL_ALLOCATION = Some idealRows ->
  spreadsheet w !! SNAPSHOT = Some snapshotRows ->
  let holdings :=
    map (parseHoldingFromRow now) (List.filter ServiceTerms.hasId (tail holdingRows)) in
  let ideals := map idealOfRow (List.filter isIdealRow (tail idealRows)) in
  let created := Aggregation.snapshots now holdings ideals in
  exists cache,
    createSnapshot number_text now w
    = (Ok created,
       World (<[SNAPSHOT := snapshotRows
                            ++ map (map (Store.stored number_text))
                                 (map snapshotToRowValues created)]> (spreadsheet w))
             cache
             (calls w ++ [ValuesGet MF_STOCKS; ValuesGet IDEAL_ALLOCATION;
                          ValuesAppend SNAPSHOT (map snapshotToRowValues created)])).
Proof.
  intros H1 H2 H3. cbv zeta. unfold createSnapshot, mbind, M_bind, all2.
  rewrite (getHoldings_run now w holdingRows H1).
  rewrite getIdealAllocation_run with (rows := idealRows) by exact H2.
  cbn [afterGet spreadsheet holdingsRowMap calls].
  rewrite append_run with (rows := snapshotRows) by exact H3.
  cbn [afterGet spreadsheet holdingsRowMap calls]. unfold mret, M_ret. rewrite <- !app_assoc.
  eexists. reflexivity.
Qed.

Lemma snapshot_row_reads_back (s : Snapshot.t) :
  JS.truthy_str (Snapshot.date s) = true ->
  JS.truthy_str (Snapshot.sector s) = true ->
  snapshotReadsBack number_text s ->
  let row := map (Store.stored number_text) (snapshotToRowValues s) in
  isSnapshotRow row = true /\ snapshotOfRow row = s.
Proof.
  intros Hd Hs (Ha & Ht & Hv & Htot). unfold ServiceSpec.readsBack in *. cbv zeta.
  unfold isSnapshotRow, snapshotOfRow, snapshotToRowValues.
  cbn [map Store.stored lookup list_lookup JS.truthy_cell JS.or_empty].
  rewrite Hd, Hs, Ha, Ht, Hv, Htot. split; [reflexivity|now destruct s].
Qed.

(** X10. The snapshots of a run are listed afterwards. A snapshot run that ends
    without an error, at a time whose date is not empty, on a snapshot
    table that has its header, in a store that hands back the text cells
    as written and the numbers of the records as text that reads back as
    them: the listing of the snapshots after the run has the records of
    the listing before it and the records of the run, once more each. *)
Theorem created_snapshots_are_listed (localeCompare : string -> string -> comparison)
    (now : string) (w w1 : world) (created : list Snapshot.t)
    (snapshotRows : list (list string)) :
  createSnapshot number_text now w = (Ok created, w1) ->
  spreadsheet w !! SNAPSHOT = Some snapshotRows ->
  snapshotRows <> [] ->
  JS.truthy_str (Aggregation.beforeT now) = true ->
  Forall (snapshotReadsBack number_text) created ->
  exists before w0 after w2,
    getSnapshots localeCompare w = (Ok before, w0)
    /\ getSnapshots localeCompare w1 = (Ok after, w2)
    /\ Permutation after (created ++ before).
Proof.
  intros Hrun Hsnap Hne Hdate Hback.
  destruct (spreadsheet w !! MF_STOCKS) as [holdingRows|] eqn:H1.
  2:{ pose proof (createSnapshot_shape number_text now w) as (_ & _ & Hok).
      unfold ServiceTerms.hasRange in Hok. rewrite H1, Hrun in Hok. discriminate Hok. }
  destruct (spreadsheet w !! IDEAL_ALLOCATION) as [idealRows|] eqn:H2.
  2:{ pose proof (createSnapshot_shape number_text now w) as (_ & _ & Hok).
      unfold ServiceTerms.hasRange in Hok. rewrite H1, H2, Hrun in Hok. discriminate Hok. }
  destruct (createSnapshot_run now w holdingRows idealRows snapshotRows H1 H2 Hsnap)
    as (cache & Hrun').
  rewrite Hrun in Hrun'. injection Hrun' as Hcreated Hw1.
  set (holdings := map (parseHoldingFromRow now)
                     (List.filter ServiceTerms.hasId (tail holdingRows))) in *.
  set (ideals := map idealOfRow (List.filter isIdealRow (tail idealRows))) in *.
  assert (Hrows : Forall (fun s => JS.truthy_str (Snapshot.date s) = true
                                   /\ JS.truthy_str (Snapshot.sector s) = true) created).
  { rewrite Hcreated, snapshots_map. apply List.Forall_forall. intros s Hs.
    apply in_map_iff in Hs as (ideal & <- & Hideal).
    cbn [Aggregation.snapshotFor Snapshot.date Snapshot.sector]. split; [exact Hdate|].
    subst ideals. apply in_map_iff in Hideal as (row & <- & Hrow).
    apply filter_In in Hrow as [_ Hrow]. unfold isIdealRow in Hrow.
    now apply truthy_cells_and in Hrow as [Hs _]. }
  set (written := map (map (Store.stored number_text)) (map snapshotToRowValues created)).
  assert (Hkeep : Forall (fun row => isSnapshotRow row = true) written
                  /\ map snapshotOfRow written = created).
  { subst written. clear Hcreated Hw1 Hrun.
    induction created as [|s created IH]; [split; [constructor|reflexivity]|].
    apply Forall_cons_1 in Hback as [Hs Hback]. apply Forall_cons_1 in Hrows as [[Hd Hsec] Hrows].
    destruct (IH Hback Hrows) as [IH1 IH2].
    destruct (snapshot_row_reads_back s Hd Hsec Hs) as [Hk Hr].
    cbn [map]. split; [constructor; assumption|]. now rewrite Hr, IH2. }
  destruct Hkeep as [Hkeep Hread].
  rewrite (getSnapshots_run localeCompare w snapshotRows Hsnap).
  eexists _, _, _, _. split; [reflexivity|]. split.
  { apply getSnapshots_run. rewrite Hw1. cbn [spreadsheet]. rewrite <- Hcreated.
    apply lookup_insert_eq. }
  fold written. rewrite (tail_app_nonempty snapshotRows written Hne).
  rewrite filter_app_all by exact Hkeep.
  rewrite map_app, Hread, !sort_perm. apply Permutation_app_comm.
Qed.

(** X14. A table without a header row. The listings take the first row of a
    range for its header: a holding, or an entry of the monthly growth,
    added to a range that has no row yet becomes that first row and is not
    listed. *)
Theorem first_row_is_taken_for_header (localeCompare : string -> string -> comparison)
    (now later : string) (random : nat -> Z) (holding : NewHolding.t)
    (entry : MonthlyGrowth.t) (w : world) :
  (spreadsheet w !! MF_STOCKS = Some [] ->
   exists h w1 w2,
     addHolding number_text now random holding w = (Ok h, w1)
     /\ spreadsheet w1 !! MF_STOCKS
        = Some [map (Store.stored number_text) (holdingToRowValues h)]
     /\ getHoldings later w1 = (Ok [], w2))
  /\ (spreadsheet w !! MONTHLY_GROWTH = Some [] ->
      exists w1 w2,
        addMonthlyGrowth number_text entry w = (Ok entry, w1)
        /\ getMonthlyGrowth localeCompare w1 = (Ok [], w2)).
Proof.
  split; intros Hrows.
  - destruct (addHolding_run number_text now random holding w [] Hrows) as (h & Hrun & _).
    rewrite Hrun. cbn [app].
    eexists h, _, _. split; [reflexivity|].
    cbn [spreadsheet]. split; [apply lookup_insert_eq|].
    rewrite (getHoldings_run later _ [map (Store.stored number_text) (holdingToRowValues h)])
      by (cbn [spreadsheet]; apply lookup_insert_eq).
    reflexivity.
  - unfold addMonthlyGrowth, mbind, M_bind.
    rewrite (append_run MONTHLY_GROWTH _ w [] Hrows). unfold mret, M_ret. cbn [app map].
    eexists _, _. split; [reflexivity|].
    match goal with |- context [<[MONTHLY_GROWTH := ?rows]> _] =>
      rewrite (getMonthlyGrowth_run localeCompare _ rows)
        by (cbn [spreadsheet]; apply lookup_insert_eq)
    end.
    reflexivity.
Qed.

End RoundTrips.

(** ** The portfolio without holdings *)

Section EmptyPortfolio.
Local Open Scope float_scope.

(** X13. A portfolio without holdings. The summary has 0 for the total
    invested, the net worth, the unrealized gain and its percentage: the
    division by the total is not made. Every sector of the ideal
    allocation but [__proto__] has the variance [0 - target_pct], that of
    its last entry, and [__proto__] is no key of the variance. A snapshot
    run records, for every entry of the ideal allocation, the actual
    percentage 0, the variance [0 - target_pct] and the total value 0. *)
Theorem empty_portfolio (localeCompare : string -> string -> comparison)
    (now currentYear : string) (ideals : list IdealAllocation.t)
    (growth : list MonthlyGrowth.t) :
  let s := Aggregation.summary localeCompare currentYear [] ideals growth in
  Summary.total_invested s = 0
  /\ Summary.current_net_worth s = 0
  /\ Summary.unrealized_gain_loss s = 0
  /\ Summary.unrealized_pct s = 0
  /\ (forall sector, In sector (map IdealAllocation.sector ideals) ->
        sector <> "__proto__" ->
        exists ideal,
          last (Spec.idealsOf sector ideals) = Some ideal
          /\ Summary.allocation_variance s !! sector
             = Some (0 - IdealAllocation.target_pct ideal))
  /\ Summary.allocation_variance s !! "__proto__" = None
  /\ Aggregation.snapshots now [] ideals
     = map (fun ideal =>
              {| Snapshot.date := Aggregation.beforeT now;
                 Snapshot.sector := IdealAllocation.sector ideal;
                 Snapshot.actual_pct := 0;
                 Snapshot.target_pct := IdealAllocation.target_pct ideal;
                 Snapshot.variance := 0 - IdealAllocation.target_pct ideal;
                 Snapshot.total_value := 0 |}) ideals.
Proof.
  cbv zeta. split; [reflexivity|]. split; [reflexivity|]. split; [reflexivity|].
  split; [reflexivity|]. split; [|split].
  - intros sector Hin Hproto. apply String.eqb_neq in Hproto.
    destruct (allocationVariance_last [] ideals sector Hin Hproto)
      as (ideal & Hlast & _ & _ & Hv).
    exists ideal. split; [exact Hlast|].
    cbn [Aggregation.summary Summary.allocation_variance]. rewrite Hv.
    now rewrite actualPct_no_total.
  - apply allocationVariance_proto.
  - rewrite snapshots_map. reflexivity.
Qed.

End EmptyPortfolio.

(** ** Sectors with ordinary names *)

Section PlainSectors.
Local Open Scope float_scope.

Lemma filter_plain (ideals : list IdealAllocation.t) :
  Forall (fun ideal => Obj.inherited (IdealAllocation.sector ideal) = false) ideals ->
  List.filter (fun s => negb (String.eqb s "__proto__")) (map IdealAllocation.sector ideals)
  = map IdealAllocation.sector ideals.
Proof.
  induction 1 as [|ideal ideals Hideal _ IH]; [reflexivity|].
  cbn [map List.filter]. now rewrite (inherited_proto _ Hideal), IH.
Qed.

(** X27. The snapshot run when no sector of the ideal allocation has the name
    of a member of [Object.prototype]. The run emits one record per entry
    of the ideal allocation, in the order of the entries. Every record
    carries the date of the run (the timestamp cut at its ['T'], that is
    its day) and the same [total_value], the sum of [value] over the
    holdings; its [actual_pct] is the value of its sector divided by
    [total_value], times 100, when [total_value > 0], and 0 otherwise; its
    [target_pct] is the one of the entry and its [variance] is [actual_pct
    - target_pct]. The value of a sector is the total the run keeps for
    it: the sum of the values of its holdings, for holdings whose values
    are not negative. With the entries (tech, 60) and (bonds, 40) and the
    sector values 600 and 300 out of 900 the two records are the ones of
    the specification. *)
Theorem snapshot_run_of_plain_sectors (now : string) (holdings : list Holding.t)
    (ideals : list IdealAllocation.t) :
  Forall (fun ideal => Obj.inherited (IdealAllocation.sector ideal) = false) ideals ->
  let total := Spec.sum (map Holding.value holdings) in
  let record (ideal : IdealAllocation.t) :=
    let actual := Spec.percentOf (Spec.sectorValue (IdealAllocation.sector ideal) holdings) total in
    {| Snapshot.date := Aggregation.beforeT now;
       Snapshot.sector := IdealAllocation.sector ideal;
       Snapshot.actual_pct := actual;
       Snapshot.target_pct := IdealAllocation.target_pct ideal;
       Snapshot.variance := actual - IdealAllocation.target_pct ideal;
       Snapshot.total_value := total |} in
  Aggregation.snapshots now holdings ideals = map record ideals
  /\ length (Aggregation.snapshots now holdings ideals) = length ideals
  /\ (forall day time : string,
        now = (day ++ String "T" time)%string ->
        (forall c, In c (list_ascii_of_string day) -> c <> "T"%char) ->
        Aggregation.beforeT now = day)
  /\ (Forall (fun h => Spec.nonNegative (Holding.value h) = true) holdings ->
      forall s : string,
        Spec.sectorValue s holdings = Spec.sum (map Holding.value (Spec.ofSector s holdings)))
  /\ (ideals = [ {| IdealAllocation.sector := "tech"; IdealAllocation.target_pct := 60 |};
                 {| IdealAllocation.sector := "bonds"; IdealAllocation.target_pct := 40 |} ] ->
      Spec.sectorValue "tech" holdings = 600 ->
      Spec.sectorValue "bonds" holdings = 300 ->
      total = 900 ->
      Aggregation.snapshots now holdings ideals =
      [ {| Snapshot.date := Aggregation.beforeT now;
           Snapshot.sector := "tech";
           Snapshot.actual_pct := 600 / 900 * 100;
           Snapshot.target_pct := 60;
           Snapshot.variance := 600 / 900 * 100 - 60;
           Snapshot.total_value := 900 |};
        {| Snapshot.date := Aggregation.beforeT now;
           Snapshot.sector := "bonds";
           Snapshot.actual_pct := 300 / 900 * 100;
           Snapshot.target_pct := 40;
           Snapshot.variance := 300 / 900 * 100 - 40;
           Snapshot.total_value := 900 |} ]).
Proof.
  intros Hplain total record.
  assert (Hmap : Aggregation.snapshots now holdings ideals = map record ideals).
  { rewrite snapshots_map. apply map_ext_in. intros ideal Hin.
    rewrite List.Forall_forall in Hplain.
    unfold Aggregation.snapshotFor, record.
    now rewrite (actualPct_percentOf holdings _ (Hplain ideal Hin)), totalValue_sum. }
  split; [exact Hmap|].
  split; [now rewrite Hmap, length_map|].
  split; [intros day time -> Hday; now apply beforeT_prefix|].
  split; [intros Hvalues s; now apply sectorValue_sum|].
  intros -> Htech Hbonds Htotal. rewrite Hmap. unfold record. simpl.
  now rewrite Htech, Hbonds, Htotal.
Qed.

(** X28. The allocation variance when no sector of the ideal allocation has
    the name of a member of [Object.prototype]. Its keys are the sectors
    of the ideal allocation, and no other sector, whatever is held. For
    holdings whose values are not negative, the value at each of these
    sectors is [actual_pct - target_pct], with the target of the last entry
    of that sector and with [actual_pct] the sum of [value] over the
    holdings of the sector divided by the net worth, times 100, when the
    net worth is positive, and 0 otherwise, so also when the net worth is
    0. Whatever the values are, it is that difference with the total
    accumulated for the sector in place of the sum. *)
Theorem allocation_variance_of_plain_sectors
    (localeCompare : string -> string -> comparison)
    (currentYear : string) (holdings : list Holding.t)
    (ideals : list IdealAllocation.t) (growth : list MonthlyGrowth.t) :
  Forall (fun ideal => Obj.inherited (IdealAllocation.sector ideal) = false) ideals ->
  let s := Aggregation.summary localeCompare currentYear holdings ideals growth in
  let variance := Summary.allocation_variance s in
  let netWorth := Summary.current_net_worth s in
  dom variance = list_to_set (map IdealAllocation.sector ideals)
  /\ (Forall (fun h => Spec.nonNegative (Holding.value h) = true) holdings ->
      forall sector : string,
        In sector (map IdealAllocation.sector ideals) ->
        exists ideal,
          last (Spec.idealsOf sector ideals) = Some ideal
          /\ In ideal ideals
          /\ IdealAllocation.sector ideal = sector
          /\ variance !! sector
             = Some (Spec.percentOf
                       (Spec.sum (map Holding.value (Spec.ofSector sector holdings)))
                       netWorth
                     - IdealAllocation.target_pct ideal))
  /\ netWorth = Spec.sum (map Holding.value holdings)
  /\ (forall part : float, (netWorth =? 0) = true -> Spec.percentOf part netWorth = 0)
  /\ (forall sector : string,
        In sector (map IdealAllocation.sector ideals) ->
        exists ideal,
          last (Spec.idealsOf sector ideals) = Some ideal
          /\ variance !! sector
             = Some (Spec.percentOf (Spec.sectorValue sector holdings) netWorth
                     - IdealAllocation.target_pct ideal)).
Proof.
  intros Hplain s variance netWorth. subst s variance netWorth.
  cbn [Aggregation.summary Summary.allocation_variance Summary.current_net_worth].
  assert (Hgeneral : forall sector : string,
             In sector (map IdealAllocation.sector ideals) ->
             exists ideal,
               last (Spec.idealsOf sector ideals) = Some ideal
               /\ In ideal ideals
               /\ IdealAllocation.sector ideal = sector
               /\ Aggregation.allocationVariance holdings ideals !! sector
                  = Some (Spec.percentOf (Spec.sectorValue sector holdings)
                            (Aggregation.totalValue holdings)
                          - IdealAllocation.target_pct ideal)).
  { intros sector Hs. apply allocationVariance_lookup; [exact Hs|].
    apply in_map_iff in Hs as (ideal & <- & Hin).
    rewrite List.Forall_forall in Hplain. now apply Hplain. }
  split.
  { unfold Aggregation.allocationVariance.
    rewrite allocationVariance_dom, dom_empty_L, (filter_plain ideals Hplain).
    apply (left_id_L ∅ (∪)). }
  split.
  { intros Hvalues sector Hs.
    destruct (Hgeneral sector Hs) as (ideal & Hlast & Hin & Hsec & Hvar).
    exists ideal. rewrite <- (sectorValue_sum holdings sector Hvalues). auto. }
  split; [apply totalValue_sum|].
  split.
  { intros part H. unfold Spec.percentOf. now rewrite (eqb_zero_not_positive _ H). }
  intros sector Hs.
  destruct (Hgeneral sector Hs) as (ideal & Hlast & _ & _ & Hvar). eauto.
Qed.

End PlainSectors.

(** ** Months *)

Section Months.
Import MonthSpec.

Lemma isDigit_digit (c : ascii) :
  Validation.isDigit c = true -> (0 <= digit c <= 9)%Z.
Proof.
  unfold Validation.isDigit, digit. intros H. apply andb_prop in H as [H1 H2].
  apply Nat.leb_le in H1, H2. lia.
Qed.

Lemma compare_digit (c d : ascii) :
  Ascii.compare c d = Z.compare (digit c) (digit d).
Proof.
  unfold Ascii.compare, digit, nat_of_ascii. rewrite !N_nat_Z.
  rewrite <- N2Z.inj_compare.
  destruct (Z.compare_spec (Z.of_N (N_of_ascii c)) (Z.of_N (N_of_ascii d))) as [H|H|H];
    symmetry.
  - apply Z.compare_eq_iff. lia.
  - apply Z.compare_lt_iff. lia.
  - apply Z.compare_gt_iff. lia.
Qed.

Lemma compare_shift (a b x y : Z) :
  (0 <= x <= 9)%Z -> (0 <= y <= 9)%Z ->
  Z.compare (a * 10 + x) (b * 10 + y)
  = match Z.compare a b with Eq => Z.compare x y | c => c end.
Proof.
  intros Hx Hy. destruct (Z.compare_spec a b) as [H|H|H].
  - subst b. destruct (Z.compare_spec x y) as [H|H|H].
    + apply Z.compare_eq_iff. lia.
    + apply Z.compare_lt_iff. lia.
    + apply Z.compare_gt_iff. lia.
  - apply Z.compare_lt_iff. lia.
  - apply Z.compare_gt_iff. lia.
Qed.

Lemma isMonth_inv (s : string) :
  Validation.isMonth s = true ->
  exists y1 y2 y3 y4 m1 m2,
    s = String y1 (String y2 (String y3 (String y4 (String "-" (String m1 (String m2 ""))))))
    /\ (0 <= digit y1 <= 9)%Z /\ (0 <= digit y2 <= 9)%Z /\ (0 <= digit y3 <= 9)%Z
    /\ (0 <= digit y4 <= 9)%Z /\ (0 <= digit m1 <= 9)%Z /\ (0 <= digit m2 <= 9)%Z.
Proof.
  unfold Validation.isMonth. intros H.
  destruct s as [|y1 [|y2 [|y3 [|y4 [|c [|m1 [|m2 [|]]]]]]]]; try discriminate H;
    destruct c as [[] [] [] [] [] [] [] []]; try discriminate H.
  apply andb_prop in H as [H H6]. apply andb_prop in H as [H H5].
  apply andb_prop in H as [H H4]. apply andb_prop in H as [H H3].
  apply andb_prop in H as [H1 H2].
  exists y1, y2, y3, y4, m1, m2. split; [reflexivity|].
  repeat split; now apply isDigit_digit.
Qed.

Lemma compare_months (a b : string) :
  Validation.isMonth a = true -> Validation.isMonth b = true ->
  String.compare a b = chronological a b.
Proof.
  intros Ha Hb.
  destruct (isMonth_inv a Ha) as (a1 & a2 & a3 & a4 & a6 & a7 & -> & ? & ? & ? & ? & ? & ?).
  destruct (isMonth_inv b Hb) as (b1 & b2 & b3 & b4 & b6 & b7 & -> & ? & ? & ? & ? & ? & ?).
  unfold chronological. cbn [String.compare yearOf monthOf].
  replace (Ascii.compare "-" "-") with Eq by reflexivity.
  rewrite !compare_digit.
  rewrite (compare_shift _ _ (digit a4) (digit b4)) by assumption.
  rewrite (compare_shift _ _ (digit a3) (digit b3)) by assumption.
  rewrite (compare_shift _ _ (digit a2) (digit b2)) by assumption.
  rewrite (compare_shift _ _ (digit a7) (digit b7)) by assumption.
  destruct (digit a1 ?= digit b1)%Z; try reflexivity.
  destruct (digit a2 ?= digit b2)%Z; try reflexivity.
  destruct (digit a3 ?= digit b3)%Z; try reflexivity.
  destruct (digit a4 ?= digit b4)%Z; try reflexivity.
  destruct (digit a6 ?= digit b6)%Z; try reflexivity.
  destruct (digit a7 ?= digit b7)%Z; reflexivity.
Qed.

End Months.

Section CalendarOrder.
Import ServiceTerms MonthSpec.

Lemma StronglySorted_impl_in {A} (R R' : A -> A -> Prop) (l : list A) :
  StronglySorted R l ->
  (forall x y, In x l -> In y l -> R x y -> R' x y) ->
  StronglySorted R' l.
Proof.
  intros H HR. induction H as [|x l Hl IH Hx]; constructor.
  - apply IH. intros y z Hy Hz. apply HR; simpl; auto.
  - rewrite List.Forall_forall in *. intros y Hy. apply HR; simpl; auto.
Qed.

(** X7. The monthly growth is listed in the order of the calendar. When the
    months of the rows that are listed are written [YYYY-MM], as
    [monthlyGrowthSchema] requires of an entry that is added, and the
    collation of the host agrees with the order of the code units on such
    months, the entries come by year and then by number of the month: on
    such months the order of the code units is the order of the
    calendar. *)
Theorem growth_listed_in_calendar_order (localeCompare : string -> string -> comparison)
    (w : world) (rows : list (list string)) :
  spreadsheet w !! MONTHLY_GROWTH = Some rows ->
  (forall row, In row (tail rows) -> isGrowthRow row = true ->
     Validation.isMonth (JS.or_empty (row !! 0%nat)) = true) ->
  (forall a b, Validation.isMonth a = true -> Validation.isMonth b = true ->
     localeCompare a b = String.compare a b) ->
  exists growth w',
    getMonthlyGrowth localeCompare w = (Ok growth, w')
    /\ StronglySorted
         (fun a b => chronological (MonthlyGrowth.month a) (MonthlyGrowth.month b) <> Gt)
         growth
    /\ (forall a b, Validation.isMonth a = true -> Validation.isMonth b = true ->
          String.compare a b = chronological a b).
Proof.
  intros Hrows Hvalid Hagree.
  rewrite (getMonthlyGrowth_run localeCompare w rows Hrows).
  eexists _, _. split; [reflexivity|]. split; [|exact compare_months].
  set (entries := map growthOfRow (List.filter isGrowthRow (tail rows))).
  assert (Hmonths : forall e, In e entries -> Validation.isMonth (MonthlyGrowth.month e) = true).
  { intros e He. apply in_map_iff in He as (row & <- & Hrow).
    apply filter_In in Hrow as [Hin Hkeep]. now apply Hvalid. }
  set (byCodeUnits := fun a b : MonthlyGrowth.t =>
                        String.compare (MonthlyGrowth.month a) (MonthlyGrowth.month b)).
  rewrite (sort_agree (byMonthAscending localeCompare) byCodeUnits).
  2:{ intros x y Hx Hy. apply Hagree; now apply Hmonths. }
  apply (StronglySorted_impl_in (fun a b => byCodeUnits a b <> Gt)).
  - apply (sort_sorted byCodeUnits); unfold byCodeUnits.
    + intros x y z. apply compare_le_trans.
    + intros x y. apply compare_gt_flip.
  - intros x y Hx Hy. unfold byCodeUnits.
    apply (Permutation_in _ (sort_perm _ _)) in Hx, Hy.
    now rewrite (compare_months _ _ (Hmonths x Hx) (Hmonths y Hy)).
Qed.

End CalendarOrder.

(** ** Identifiers and their draws *)

Section UUIDMore.
Import UUIDSpec.

Lemma hexDigit_inj (a b : Z) :
  (0 <= a < 16)%Z -> (0 <= b < 16)%Z -> UUID.hexDigit a = UUID.hexDigit b -> a = b.
Proof.
  intros Ha Hb.
  destruct (small_cases a Ha) as [->|[->|[->|[->|[->|[->|[->|[->|[->|[->|[->|[->|[->|[->|[->| ->]]]]]]]]]]]]]]];
    destruct (small_cases b Hb) as [->|[->|[->|[->|[->|[->|[->|[->|[->|[->|[->|[->|[->|[->|[->| ->]]]]]]]]]]]]]]];
    intros H; try reflexivity; vm_compute in H; discriminate H.
Qed.

Lemma variant_inj (a b : Z) :
  (0 <= a < 16)%Z -> (0 <= b < 16)%Z ->
  (Z.lor (Z.land a 3) 8 = Z.lor (Z.land b 3) 8 <-> Z.land a 3 = Z.land b 3).
Proof.
  intros Ha Hb.
  destruct (small_cases a Ha) as [->|[->|[->|[->|[->|[->|[->|[->|[->|[->|[->|[->|[->|[->|[->| ->]]]]]]]]]]]]]]];
    destruct (small_cases b Hb) as [->|[->|[->|[->|[->|[->|[->|[->|[->|[->|[->|[->|[->|[->|[->| ->]]]]]]]]]]]]]]];
    vm_compute; split; congruence.
Qed.

Lemma generateUUID_digits (random : nat -> Z) :
  (forall k, (0 <= random k < 16)%Z) ->
  let x k := UUID.hexDigit (random k) in
  let y k := UUID.hexDigit (Z.lor (Z.land (random k) 3) 8) in
  UUID.generateUUID random
  = string_of_list_ascii
      [ x 0%nat; x 1%nat; x 2%nat; x 3%nat; x 4%nat; x 5%nat; x 6%nat; x 7%nat; "-"%char;
        x 8%nat; x 9%nat; x 10%nat; x 11%nat; "-"%char;
        "4"%char; x 12%nat; x 13%nat; x 14%nat; "-"%char;
        y 15%nat; x 16%nat; x 17%nat; x 18%nat; "-"%char;
        x 19%nat; x 20%nat; x 21%nat; x 22%nat; x 23%nat; x 24%nat; x 25%nat; x 26%nat;
        x 27%nat; x 28%nat; x 29%nat; x 30%nat ].
Proof.
  intros Hrange x y. unfold UUID.generateUUID, UUID.template.
  cbn [UUID.replaceXY Ascii.eqb Bool.eqb orb andb].
  rewrite !toString16_digit by (try apply Hrange; apply hexDigit_variant; apply Hrange).
  rewrite !append_one. reflexivity.
Qed.

(** X20. Two identifiers are the same only when their draws are. For draws in
    the range of [Math.random() * 16 | 0], [generateUUID] gives the same
    identifier for two sequences of draws exactly when the sequences agree
    on the thirty draws made for the [x] of the template and, in their
    two low bits, on the draw made for its [y]: a generated identifier
    carries all the 122 bits drawn for it. An identifier has 36
    characters. *)
Theorem generateUUID_same_id_same_draws (random1 random2 : nat -> Z) :
  (forall k, (0 <= random1 k < 16)%Z) ->
  (forall k, (0 <= random2 k < 16)%Z) ->
  (UUID.generateUUID random1 = UUID.generateUUID random2
   <-> Forall (fun k => random1 k = random2 k) xDraws
       /\ Z.land (random1 yDraw) 3 = Z.land (random2 yDraw) 3)
  /\ String.length (UUID.generateUUID random1) = 36%nat.
Proof.
  intros H1 H2. rewrite (generateUUID_digits random1 H1), (generateUUID_digits random2 H2).
  cbv zeta. cbn [string_of_list_ascii String.length]. split; [|reflexivity].
  unfold xDraws, yDraw. cbn [seq app]. split.
  - intros H. injection H as.
    split.
    + repeat constructor; apply hexDigit_inj; auto.
    + apply (variant_inj _ _ (H1 15%nat) (H2 15%nat)).
      apply hexDigit_inj; [apply hexDigit_variant, H1|apply hexDigit_variant, H2|assumption].
  - intros [HF Hy].
    repeat (apply Forall_cons_1 in HF as [? HF]).
    apply (variant_inj _ _ (H1 15%nat) (H2 15%nat)) in Hy.
    repeat match goal with H : random1 _ = random2 _ |- _ => rewrite H; clear H end.
    now rewrite Hy.
Qed.

End UUIDMore.

(** * Properties of the middleware and of the routes *)

Section Text.
Import TextSpec.

Lemma hasPair_cons (a b c : ascii) (s : string) :
  hasPair a b s = true -> hasPair a b (String c s) = true.
Proof.
  intros H. destruct s as [|d s]; [discriminate H|].
  change (hasPair a b (String c (String d s)))
    with ((Ascii.eqb c a && Ascii.eqb d b) || hasPair a b (String d s)).
  rewrite H. apply orb_true_r.
Qed.

Lemma prefix_hasPair (a b : ascii) (p s : string) :
  String.prefix p s = true -> hasPair a b p = true -> hasPair a b s = true.
Proof.
  revert s. induction p as [|c p IH]; intros s Hp Hpair; [discriminate Hpair|].
  destruct s as [|c' s]; [discriminate Hp|]. cbn [String.prefix] in Hp.
  destruct (ascii_dec c c') as [<-|]; [|discriminate Hp].
  destruct p as [|d p]; [discriminate Hpair|].
  destruct s as [|d' s]; [discriminate Hp|].
  pose proof Hp as Hp'. cbn [String.prefix] in Hp'.
  destruct (ascii_dec d d') as [<-|]; [|discriminate Hp'].
  change (hasPair a b (String c (String d p)))
    with ((Ascii.eqb c a && Ascii.eqb d b) || hasPair a b (String d p)) in Hpair.
  change (hasPair a b (String c (String d s)))
    with ((Ascii.eqb c a && Ascii.eqb d b) || hasPair a b (String d s)).
  apply orb_true_iff in Hpair as [Hpair|Hpair]; [now rewrite Hpair|].
  rewrite (IH (String d s) Hp Hpair). apply orb_true_r.
Qed.

Lemma includes_hasPair (a b : ascii) (s pattern : string) :
  Middleware.includes s pattern = true -> hasPair a b pattern = true -> hasPair a b s = true.
Proof.
  intros H Hpair. induction s as [|c s IH].
  - cbn [Middleware.includes] in H. rewrite orb_false_r in H.
    now apply (prefix_hasPair a b pattern).
  - cbn [Middleware.includes] in H. apply orb_true_iff in H as [H|H].
    + now apply (prefix_hasPair a b pattern).
    + apply hasPair_cons. now apply IH.
Qed.

Lemma string_app_cons (c : ascii) (s t : string) :
  String.append (String c s) t = String c (String.append s t).
Proof. reflexivity. Qed.

Lemma string_app_nil (t : string) : String.append EmptyString t = t.
Proof. reflexivity. Qed.

Lemma hasPair_lacks (a b : ascii) (p s : string) :
  lacks a p = true -> hasPair a b (String.append p s) = hasPair a b s.
Proof.
  induction p as [|c p IH]; intros H; [reflexivity|].
  cbn [lacks] in H. apply andb_prop in H as [Hc Hp].
  rewrite string_app_cons. specialize (IH Hp).
  destruct (String.append p s) as [|d rest] eqn:E.
  - rewrite <- IH. reflexivity.
  - change (hasPair a b (String c (String d rest)))
      with ((Ascii.eqb c a && Ascii.eqb d b) || hasPair a b (String d rest)).
    apply negb_true_iff in Hc. rewrite Hc. exact IH.
Qed.

Lemma not_included (a b : ascii) (prefix id suffix pattern : string) :
  hasPair a b pattern = true ->
  lacks a prefix = true -> lacks a id = true -> hasPair a b suffix = false ->
  Middleware.includes (String.append prefix (String.append id suffix)) pattern = false.
Proof.
  intros Hpat Hprefix Hid Hsuffix.
  destruct (Middleware.includes _ pattern) eqn:E; [|reflexivity].
  apply (includes_hasPair a b) in E; [|exact Hpat].
  rewrite !hasPair_lacks in E by assumption. congruence.
Qed.

Lemma matchesChar_idChar (p c : ascii) :
  (Ascii.eqb p "h" || Ascii.eqb p "v" || Ascii.eqb p "r" || Ascii.eqb p "q"
   || Ascii.eqb p "-") = true ->
  UUID.matchesChar p c = true -> idChar c = true.
Proof.
  unfold UUID.matchesChar, idChar. intros Hp.
  destruct (Ascii.eqb p "h") eqn:Eh; [intros ->; reflexivity|].
  destruct (Ascii.eqb p "v") eqn:Ev.
  { intros H. apply orb_true_iff. left. unfold UUID.isVersion in H. unfold UUID.isHex.
    apply andb_prop in H as [H1 H2]. apply Nat.leb_le in H1, H2.
    apply orb_true_iff. left. apply orb_true_iff. left.
    apply andb_true_iff. split; apply Nat.leb_le; lia. }
  destruct (Ascii.eqb p "r") eqn:Er.
  { intros H. apply orb_true_iff. left. unfold UUID.isVariant in H.
    repeat (apply orb_true_iff in H as [H|H]); apply Ascii.eqb_eq in H; subst c; reflexivity. }
  destruct (Ascii.eqb p "q") eqn:Eq.
  { intros H. apply orb_true_iff. left. unfold UUID.isLowerVariant in H.
    repeat (apply orb_true_iff in H as [H|H]); apply Ascii.eqb_eq in H; subst c; reflexivity. }
  cbn [orb] in Hp. apply Ascii.eqb_eq in Hp. subst p.
  intros H. apply Ascii.eqb_eq in H. subst c. reflexivity.
Qed.

Lemma matches_idChars (p s : string) :
  idPattern p = true -> UUID.matches p s = true -> idChars s = true.
Proof.
  revert s. induction p as [|pc p IH]; intros [|c s] Hp H; try discriminate; [reflexivity|].
  cbn [idPattern] in Hp. cbn [UUID.matches] in H. cbn [idChars].
  apply andb_prop in Hp as [Hpc Hp]. apply andb_prop in H as [Hc H].
  rewrite (matchesChar_idChar pc c Hpc Hc). now apply IH.
Qed.

Lemma idChar_lacks (a : ascii) (s : string) :
  idChar a = false -> idChars s = true -> lacks a s = true.
Proof.
  intros Ha. induction s as [|c s IH]; intros H; [reflexivity|].
  cbn [idChars] in H. apply andb_prop in H as [Hc H]. cbn [lacks].
  rewrite (IH H), andb_true_r. apply negb_true_iff.
  destruct (Ascii.eqb c a) eqn:E; [|reflexivity].
  apply Ascii.eqb_eq in E. subst c. congruence.
Qed.

End Text.

Section MiddlewareTheorems.
Import TextSpec.

(** X21. The response of [errorHandler]. Its status is 400 or 500 and its
    timestamp the time of the response. A [ZodError] is answered 400
    [Validation Error] whatever its message says. When the environment is
    not [development] the message of the response is one of four fixed
    texts: the message of the error is not disclosed. *)
Theorem errorHandler_responses (nodeEnv now : string) (err : Middleware.Error) :
  let r := Middleware.errorHandler nodeEnv now err in
  (Middleware.status r = 400%nat \/ Middleware.status r = 500%nat)
  /\ ApiError.timestamp (Middleware.body r) = now
  /\ (Middleware.name err = "ZodError" ->
      Middleware.status r = 400%nat
      /\ ApiError.error (Middleware.body r) = "Validation Error"
      /\ ApiError.message (Middleware.body r) = "Invalid request data")
  /\ (nodeEnv <> "development" ->
      In (ApiError.message (Middleware.body r))
         [ "Invalid request data"; "Invalid sheet range or named range not found";
           "Failed to authenticate with Google Sheets"; "An unexpected error occurred" ])
  /\ (Middleware.status r = 400%nat ->
      Middleware.name err = "ZodError"
      \/ Middleware.includes (Middleware.message err) "Unable to parse range" = true).
Proof.
  cbv zeta. unfold Middleware.errorHandler.
  destruct (String.eqb (Middleware.name err) "ZodError") eqn:Hname.
  { apply String.eqb_eq in Hname. cbn. repeat split; auto. }
  apply String.eqb_neq in Hname.
  destruct (Middleware.includes (Middleware.message err) "Unable to parse range").
  { cbn. repeat split; auto; try congruence; try discriminate. }
  destruct (Middleware.includes (Middleware.message err) "authentication"
            || Middleware.includes (Middleware.message err) "permission").
  { cbn. repeat split; auto; try congruence; try discriminate. }
  cbn [Middleware.status Middleware.body ApiError.timestamp ApiError.error ApiError.message].
  repeat split; auto; try congruence; try discriminate.
  intros Henv. apply String.eqb_neq in Henv. rewrite Henv. simpl. auto.
Qed.

(** X22. [authenticateApiKey] lets a request through exactly when its key is
    the configured token and is not empty: with an empty token no request
    passes, not even one with an empty key. Any other request is answered
    401 [Unauthorized]. *)
Theorem authenticateApiKey_passes (apiToken now : string) (apiKey : option string) :
  (Middleware.authenticateApiKey apiToken now apiKey = None
   <-> apiKey = Some apiToken /\ apiToken <> EmptyString)
  /\ (forall r, Middleware.authenticateApiKey apiToken now apiKey = Some r ->
        Middleware.status r = 401%nat
        /\ ApiError.error (Middleware.body r) = "Unauthorized").
Proof.
  unfold Middleware.authenticateApiKey. split.
  - destruct apiKey as [key|]; cbn [JS.truthy_cell negb orb].
    + destruct (String.eqb key apiToken) eqn:E.
      * apply String.eqb_eq in E. subst key. destruct apiToken; cbn; split.
        -- discriminate.
        -- intros [_ H]. congruence.
        -- intros _. split; [reflexivity|discriminate].
        -- reflexivity.
      * apply String.eqb_neq in E. rewrite orb_true_r. split; [discriminate|].
        intros [H _]. congruence.
    + split; [discriminate|]. intros [H _]. discriminate H.
  - intros r H. destruct (negb (JS.truthy_cell apiKey) || _); [|discriminate].
    injection H as <-. split; reflexivity.
Qed.

End MiddlewareTheorems.

Section RouteTheorems.
Import TextSpec.
Variable number_text : float -> string.
Variables nodeEnv later issues : string.
(** The check of the identifiers by the validation library. Whatever its
    release, it admits the identifiers of the shape of [UUID.pattern]. *)
Variable uuid : string -> bool.
Hypothesis uuid_admits : forall id : string, UUID.holdingIdSchema id = true -> uuid id = true.

Lemma notFound_response (id : string) :
  UUID.holdingIdSchema id = true ->
  Middleware.errorHandler nodeEnv later (Routes.errorOf (Routes.Thrown (HoldingNotFound id)))
  = {| Middleware.status := 500;
       Middleware.body :=
         {| ApiError.error := "Internal Server Error";
            ApiError.message :=
              if String.eqb nodeEnv "development"
              then "Holding with ID " ++ id ++ " not found"
              else "An unexpected error occurred";
            ApiError.timestamp := later |} |}.
Proof.
  intros Hid. unfold UUID.holdingIdSchema in Hid.
  apply matches_idChars in Hid; [|reflexivity].
  unfold Middleware.errorHandler.
  cbn [Routes.errorOf Middleware.name Middleware.message].
  replace (String.eqb "Error" "ZodError") with false by reflexivity.
  rewrite (not_included "U" "n" "Holding with ID " id " not found" "Unable to parse range");
    [|reflexivity|reflexivity|now apply idChar_lacks|reflexivity].
  rewrite (not_included "u" "t" "Holding with ID " id " not found" "authentication");
    [|reflexivity|reflexivity|now apply idChar_lacks|reflexivity].
  rewrite (not_included "p" "e" "Holding with ID " id " not found" "permission");
    [|reflexivity|reflexivity|now apply idChar_lacks|reflexivity].
  reflexivity.
Qed.

(** X23. An identifier that is well formed and not found is answered 500. When
    the deletion, or the update, of an identifier that passes
    [holdingIdSchema] fails with the not-found error of the service, the
    route answers with the status 500 and the error [Internal Server
    Error], not with 404; the message names the identifier in the
    [development] environment only. This holds with every check of the
    identifiers that admits the identifiers of the shape of
    [UUID.pattern], as those of the releases of the validation library
    do. *)
Theorem unknown_holding_is_answered_500 (now id : string) (body validated : HoldingUpdates.t)
    (w w' w'' : world) :
  UUID.holdingIdSchema id = true ->
  let response :=
    {| Middleware.status := 500;
       Middleware.body :=
         {| ApiError.error := "Internal Server Error";
            ApiError.message :=
              if String.eqb nodeEnv "development"
              then "Holding with ID " ++ id ++ " not found"
              else "An unexpected error occurred";
            ApiError.timestamp := later |} |} in
  (deleteHolding id w = (Err (HoldingNotFound id), w') ->
   Routes.deleteHoldingRoute nodeEnv later issues uuid id w
   = (Routes.Refused response, w'))
  /\ (Validation.updateHoldingSchema body = Some validated ->
      updateHolding number_text now id validated w = (Err (HoldingNotFound id), w'') ->
      Routes.putHolding number_text nodeEnv later issues uuid now id body w
      = (Routes.Refused response, w'')).
Proof.
  intros Hid response. split.
  - intros Hrun. unfold Routes.deleteHoldingRoute, Routes.respond, Routes.next.
    rewrite (uuid_admits id Hid), Hrun. now rewrite (notFound_response id Hid).
  - intros Hbody Hrun. unfold Routes.putHolding, Routes.respond, Routes.next.
    rewrite (uuid_admits id Hid), Hbody, Hrun. now rewrite (notFound_response id Hid).
Qed.

(** X24. Input that a schema refuses does not reach the store. A creation whose
    payload [createHoldingSchema] refuses, an update or a deletion whose
    identifier the check of the validation library refuses, whatever that
    check is, an update whose payload [updateHoldingSchema] refuses and an
    entry [monthlyGrowthSchema] refuses are answered 400 [Validation
    Error], and the state of the service, with the log of its calls to the
    store, is as it was. *)
Theorem refused_input_does_not_reach_store (now : string) (random : nat -> Z) (id : string)
    (holding : NewHolding.t) (updates : HoldingUpdates.t) (entry : MonthlyGrowth.t)
    (w : world) :
  let refused :=
    {| Middleware.status := 400;
       Middleware.body :=
         {| ApiError.error := "Validation Error";
            ApiError.message := "Invalid request data";
            ApiError.timestamp := later |} |} in
  (Validation.createHoldingSchema holding = false ->
   Routes.postHolding number_text nodeEnv later issues now random holding w
   = (Routes.Refused refused, w))
  /\ (uuid id = false ->
      Routes.putHolding number_text nodeEnv later issues uuid now id updates w
      = (Routes.Refused refused, w)
      /\ Routes.deleteHoldingRoute nodeEnv later issues uuid id w
         = (Routes.Refused refused, w))
  /\ (Validation.updateHoldingSchema updates = None ->
      Routes.putHolding number_text nodeEnv later issues uuid now id updates w
      = (Routes.Refused refused, w))
  /\ (Validation.monthlyGrowthSchema entry = false ->
      Routes.postMonthlyGrowth number_text nodeEnv later issues entry w
      = (Routes.Refused refused, w)).
Proof.
  cbv zeta. repeat split.
  - intros H. unfold Routes.postHolding. now rewrite H.
  - unfold Routes.putHolding. now rewrite H.
  - unfold Routes.deleteHoldingRoute. now rewrite H.
  - intros H. unfold Routes.putHolding. rewrite H. now destruct (uuid id).
  - intros H. unfold Routes.postMonthlyGrowth. now rewrite H.
Qed.

End RouteTheorems.

(** * Properties of the configuration *)

Section ConfigTheorems.
Import ConfigSpec.

Lemma validate_none (env : gmap string string) (vars : list string) :
  Config.validate env vars = None <-> Forall (fun v => isSet env v = true) vars.
Proof.
  induction vars as [|v vars IH]; cbn [Config.validate].
  - split; [constructor|reflexivity].
  - unfold isSet in *. destruct (JS.truthy_cell (env !! v)) eqn:E.
    + rewrite IH. split; [now constructor|]. intros H. now apply Forall_cons_1 in H as [_ H].
    + split; [discriminate|]. intros H. apply Forall_cons_1 in H as [H _]. congruence.
Qed.

Lemma validate_some (env : gmap string string) (vars : list string) (message : string) :
  Config.validate env vars = Some message ->
  exists before envVar after,
    vars = before ++ envVar :: after
    /\ Forall (fun v => isSet env v = true) before
    /\ isSet env envVar = false
    /\ message = String.append "Missing required environment variable: " envVar.
Proof.
  induction vars as [|v vars IH]; cbn [Config.validate]; [discriminate|].
  destruct (JS.truthy_cell (env !! v)) eqn:E.
  - intros H. destruct (IH H) as (before & envVar & after & -> & Hb & Hv & Hm).
    exists (v :: before), envVar, after. repeat split; try assumption. now constructor.
  - intros [= <-]. exists [], v, vars. repeat split; [constructor|exact E].
Qed.

Lemma or_else_set (x : option string) (fallback : string) :
  JS.truthy_cell x = true -> Some (Config.or_else x fallback) = x.
Proof. destruct x as [s|]; [|discriminate]. cbn. now intros ->. Qed.

Lemma or_else_unset (x : option string) (fallback : string) :
  JS.truthy_cell x = false -> Config.or_else x fallback = fallback.
Proof. destruct x as [s|]; [|reflexivity]. cbn. now intros ->. Qed.

Lemma unescape_first (s : string) :
  first (Config.unescapeNewlines s)
  = match s with
    | String c (String d _) =>
        if (Ascii.eqb c "\" && Ascii.eqb d "n")%bool then Some "010"%char else Some c
    | String c EmptyString => Some c
    | EmptyString => None
    end.
Proof.
  destruct s as [|c [|d rest]]; try reflexivity.
  cbn [Config.unescapeNewlines]. now destruct (Ascii.eqb c "\" && Ascii.eqb d "n")%bool.
Qed.

Lemma unescape_truthy (s : string) :
  JS.truthy_str s = true -> JS.truthy_str (Config.unescapeNewlines s) = true.
Proof.
  destruct s as [|c [|d rest]]; try discriminate; try reflexivity. intros _.
  cbn [Config.unescapeNewlines]. now destruct (Ascii.eqb c "\" && Ascii.eqb d "n")%bool.
Qed.

Lemma hasPair_first (a b c : ascii) (s : string) :
  TextSpec.hasPair a b (String c s)
  = (Ascii.eqb c a && match first s with Some d => Ascii.eqb d b | None => false end)
    || TextSpec.hasPair a b s.
Proof.
  destruct s as [|d s]; [|reflexivity]. cbn. now rewrite andb_false_r.
Qed.

Lemma unescape_cons (c d : ascii) (rest : string) :
  Config.unescapeNewlines (String c (String d rest))
  = if (Ascii.eqb c "\" && Ascii.eqb d "n")%bool
    then String "010" (Config.unescapeNewlines rest)
    else String c (Config.unescapeNewlines (String d rest)).
Proof. reflexivity. Qed.

Lemma unescape_facts (n : nat) (s : string) :
  (String.length s <= n)%nat ->
  TextSpec.hasPair "\" "n" (Config.unescapeNewlines s) = false
  /\ (TextSpec.hasPair "\" "n" s = false -> Config.unescapeNewlines s = s)
  /\ (String.length (Config.unescapeNewlines s) <= String.length s)%nat.
Proof.
  revert s. induction n as [|n IH]; intros s Hlen.
  - destruct s; [repeat split; reflexivity|simpl in Hlen; lia].
  - destruct s as [|c [|d rest]]; [repeat split; reflexivity|repeat split; reflexivity|].
    cbn [String.length] in Hlen.
    destruct (IH (String d rest)) as (H1 & H2 & H3); [cbn [String.length]; lia|].
    destruct (IH rest) as (R1 & R2 & R3); [lia|].
    rewrite unescape_cons.
    destruct (Ascii.eqb c "\" && Ascii.eqb d "n")%bool eqn:E.
    + split; [|split].
      * rewrite hasPair_first, R1. reflexivity.
      * intros H. rewrite hasPair_first in H. cbn [first] in H.
        apply andb_prop in E as [Ec Ed]. rewrite Ec, Ed in H. discriminate H.
      * cbn [String.length]. lia.
    + split; [|split].
      * rewrite hasPair_first, H1, orb_false_r, unescape_first.
        destruct (Ascii.eqb c "\") eqn:Ec; [|reflexivity]. cbn [andb] in E |- *.
        destruct rest as [|e rest].
        -- exact E.
        -- destruct (Ascii.eqb d "\" && Ascii.eqb e "n")%bool; [reflexivity|exact E].
      * intros H. rewrite hasPair_first in H. apply orb_false_elim in H as [_ H].
        now rewrite (H2 H).
      * change (String.length (String c (Config.unescapeNewlines (String d rest))))
          with (S (String.length (Config.unescapeNewlines (String d rest)))).
        cbn [String.length] in *. lia.
Qed.

(** X25. The private key after its line feeds have been restored. The
    text [config] keeps for [GOOGLE_PRIVATE_KEY] has no backslash that an
    [n] follows; a text without such a pair is kept as it is, so the
    replacement done twice is the replacement done once, and the text never
    gets longer. *)
Theorem unescapeNewlines_leaves_no_escape (s : string) :
  TextSpec.hasPair "\" "n" (Config.unescapeNewlines s) = false
  /\ (TextSpec.hasPair "\" "n" s = false -> Config.unescapeNewlines s = s)
  /\ Config.unescapeNewlines (Config.unescapeNewlines s) = Config.unescapeNewlines s
  /\ (String.length (Config.unescapeNewlines s) <= String.length s)%nat.
Proof.
  destruct (unescape_facts (String.length s) s (le_n _)) as (H1 & H2 & H3).
  split; [exact H1|]. split; [exact H2|]. split; [|exact H3].
  destruct (unescape_facts _ (Config.unescapeNewlines s) (le_n _)) as (_ & H & _).
  now apply H.
Qed.

(** X26. The loading of the configuration. The module loads exactly when
    the four required variables are set to texts that are not empty, and
    its [config] is then the object made from the environment; otherwise
    the error names the first of them, in the order of the list, that is
    not set. A loaded [config] has the token of [API_TOKEN], so that
    [authenticateApiKey] lets through a request that carries it, and a
    private key that is not empty. Whatever else is set, [NODE_ENV] and the
    two limits of the rate fall back, when they are not set or are empty,
    on [development], 900000 and 60. *)
Theorem config_loading (env : gmap string string) :
  (forall c, Config.load env = inl c
             <-> Forall (fun v => isSet env v = true) Config.requiredEnvVars
                 /\ c = Config.config env)
  /\ (forall message, Config.load env = inr message ->
        exists before envVar after,
          Config.requiredEnvVars = before ++ envVar :: after
          /\ Forall (fun v => isSet env v = true) before
          /\ isSet env envVar = false
          /\ message = String.append "Missing required environment variable: " envVar)
  /\ (forall c now, Config.load env = inl c ->
        Some (Config.apiToken c) = env !! "API_TOKEN"
        /\ Middleware.authenticateApiKey (Config.apiToken c) now (env !! "API_TOKEN") = None
        /\ JS.truthy_str (Config.googlePrivateKey c) = true)
  /\ (isSet env "NODE_ENV" = false -> Config.nodeEnv (Config.config env) = "development")
  /\ (isSet env "RATE_LIMIT_WINDOW_MS" = false ->
      Config.rateLimitWindowMs (Config.config env) = 900000%float)
  /\ (isSet env "RATE_LIMIT_MAX_REQUESTS" = false ->
      Config.rateLimitMaxRequests (Config.config env) = 60%float).
Proof.
  split; [|split; [|split; [|split; [|split]]]].
  - intros c. unfold Config.load.
    destruct (Config.validate env Config.requiredEnvVars) as [message|] eqn:E.
    + split; [discriminate|]. intros [H _]. apply validate_none in H. congruence.
    + apply validate_none in E. split.
      * intros [= <-]. auto.
      * intros [_ ->]. reflexivity.
  - intros message. unfold Config.load.
    destruct (Config.validate env Config.requiredEnvVars) as [m|] eqn:E; [|discriminate].
    intros [= <-]. now apply validate_some.
  - intros c now. unfold Config.load.
    destruct (Config.validate env Config.requiredEnvVars) as [m|] eqn:E; [discriminate|].
    intros [= <-]. apply validate_none in E.
    unfold Config.requiredEnvVars in E.
    apply Forall_cons_1 in E as [Htoken E]. apply Forall_cons_1 in E as [_ E].
    apply Forall_cons_1 in E as [Hkey _]. unfold isSet in Htoken, Hkey.
    cbn [Config.config Config.apiToken Config.googlePrivateKey].
    split; [now apply or_else_set|]. split.
    + destruct (env !! "API_TOKEN") as [token|]; [|discriminate Htoken].
      cbn in Htoken. unfold Middleware.authenticateApiKey, Config.or_else.
      cbn [JS.truthy_cell]. now rewrite Htoken, String.eqb_refl.
    + destruct (env !! "GOOGLE_PRIVATE_KEY") as [key|]; [|discriminate Hkey].
      cbn in Hkey. cbn [fmap option_fmap option_map Config.or_else].
      now rewrite (unescape_truthy key Hkey), (unescape_truthy key Hkey).
  - intros H. cbn [Config.config Config.nodeEnv]. now apply or_else_unset.
  - intros H. cbn [Config.config Config.rateLimitWindowMs].
    rewrite or_else_unset by exact H. vm_compute. reflexivity.
  - intros H. cbn [Config.config Config.rateLimitMaxRequests].
    rewrite or_else_unset by exact H. vm_compute. reflexivity.
Qed.

End ConfigTheorems.

(** * Instances *)

(** ** The claims at the sample data *)

Section Instances.

Local Open Scope float_scope.

(** The two records of the specification: 600 and 300 out of 900 against the
    targets 60 and 40. *)
Lemma snapshot_run_of_plain_sectors_sample :
  Aggregation.snapshots Sample.now Sample.holdings Sample.ideals =
  [ {| Snapshot.date := "2026-11-02"; Snapshot.sector := "tech";
       Snapshot.actual_pct := 600 / 900 * 100; Snapshot.target_pct := 60;
       Snapshot.variance := 600 / 900 * 100 - 60; Snapshot.total_value := 900 |};
    {| Snapshot.date := "2026-11-02"; Snapshot.sector := "bonds";
       Snapshot.actual_pct := 300 / 900 * 100; Snapshot.target_pct := 40;
       Snapshot.variance := 300 / 900 * 100 - 40; Snapshot.total_value := 900 |} ].
Proof.
  destruct (snapshot_run_of_plain_sectors Sample.now Sample.holdings Sample.ideals)
    as (_ & _ & Hday & _ & Hsample); [repeat constructor|].
  rewrite (Hsample eq_refl eq_refl eq_refl eq_refl).
  rewrite (Hday "2026-11-02" "09:22:00.000Z"%string eq_refl).
  - reflexivity.
  - intros c Hc Heq. subst c. simpl in Hc.
    repeat (destruct Hc as [Hc|Hc]; [discriminate Hc|]). exact Hc.
Defined.

(** With nothing invested the percentage is 0. *)
Lemma summary_totals_sample :
  Summary.unrealized_pct (Aggregation.summary String.compare "2026" [] Sample.ideals Sample.growth)
  = 0.
Proof.
  apply (summary_totals String.compare "2026" [] Sample.ideals Sample.growth).
  reflexivity.
Defined.

(** The variance of tech at the sample holdings. *)
Lemma allocation_variance_of_plain_sectors_sample :
  exists ideal,
    last (Spec.idealsOf "tech" Sample.ideals) = Some ideal
    /\ In ideal Sample.ideals
    /\ IdealAllocation.sector ideal = "tech"
    /\ Summary.allocation_variance
         (Aggregation.summary String.compare "2026" Sample.holdings Sample.ideals
            Sample.growth) !! "tech"
       = Some (Spec.percentOf
                 (Spec.sum (map Holding.value (Spec.ofSector "tech" Sample.holdings)))
                 (Summary.current_net_worth
                    (Aggregation.summary String.compare "2026" Sample.holdings
                       Sample.ideals Sample.growth))
               - IdealAllocation.target_pct ideal).
Proof.
  apply (allocation_variance_of_plain_sectors String.compare "2026" Sample.holdings
           Sample.ideals Sample.growth).
  - repeat constructor.
  - repeat constructor.
  - simpl. auto.
Defined.

Example allocation_variance_sample_values :
  Summary.allocation_variance
    (Aggregation.summary String.compare "2026" Sample.holdings Sample.ideals Sample.growth)
  !! "tech" = Some (600 / 900 * 100 - 60)
  /\ Summary.allocation_variance
       (Aggregation.summary String.compare "2026" Sample.holdings Sample.ideals Sample.growth)
     !! "energy" = None.
Proof. split; vm_compute; reflexivity. Qed.

(** The condition on the values is needed. With the values -1e308, -1e308
    and Infinity in the sector tech and 1.5e308 in another sector the net
    worth is Infinity and the sum of the values of tech is [NaN], and so is
    the variance computed from it; the total accumulated for tech, a [NaN],
    counts as 0 and the variance the summary has is -60. *)
Remark allocation_variance_of_negative_values :
  (0 <? Summary.current_net_worth
          (Aggregation.summary String.compare "2026" Sample.extremeHoldings
             [Sample.tech60] Sample.growth)) = true
  /\ Spec.sum (map Holding.value (Spec.ofSector "tech" Sample.extremeHoldings)) = nan
  /\ Spec.varianceBySum Sample.extremeHoldings Sample.tech60 = nan
  /\ Summary.allocation_variance
       (Aggregation.summary String.compare "2026" Sample.extremeHoldings
          [Sample.tech60] Sample.growth) !! "tech"
     = Some (-60).
Proof. repeat split; vm_compute; reflexivity. Qed.

(** The months of the sample in the order of the trend. *)
Lemma monthly_trend_sample :
  Summary.monthly_trend
    (Aggregation.summary String.compare "2026" Sample.holdings Sample.ideals Sample.growth)
  = rev (firstn 12 (Aggregation.sort Spec.lexDescending Sample.growth))
  /\ StronglySorted Spec.monthLe
       (Summary.monthly_trend
          (Aggregation.summary String.compare "2026" Sample.holdings Sample.ideals
             Sample.growth)).
Proof.
  apply (monthly_trend_last_twelve String.compare "2026" Sample.holdings Sample.ideals
           Sample.growth).
  - intros e He. simpl in He.
    repeat (destruct He as [He|He]; [subst e; reflexivity|]). destruct He.
  - intros a b _ _. reflexivity.
Defined.

Example monthly_trend_sample_months :
  map MonthlyGrowth.month
    (Summary.monthly_trend
       (Aggregation.summary String.compare "2026" Sample.holdings Sample.ideals
          Sample.growth))
  = [ "2025-12"; "2026-01"; "2026-02" ].
Proof. reflexivity. Qed.

Example generateUUID_sevens : UUID.generateUUID Sample.sevens = Sample.idNew.
Proof. reflexivity. Qed.

Example parseFloat_samples :
  map JS.parseFloat_string [ "12.5"; " 42abc"; "-.5e1"; "1e400"; "-Infinity"; "0x10" ]
  = [ 12.5; 42; -5; infinity; neg_infinity; 0 ]
  /\ map (fun s => PrimFloat.is_nan (JS.parseFloat_string s)) [ ""; "abc"; "."; "e5"; "n/a" ]
     = [ true; true; true; true; true ].
Proof. split; vm_compute; reflexivity. Qed.

Example decimalText_samples :
  map Store.decimalText [ 155; 15.5; 0; infinity ]
  = [ "155.000000000000000000000000000000000000000000000";
      "15.5000000000000000000000000000000000000000000000000"; "0"; "Infinity" ]
  /\ map (fun x => JS.parseFloat_string (Store.decimalText x))
       [ 155; 15.5; 0x1.999999999999ap-4; 1e21 ]
     = [ 155; 15.5; 0x1.999999999999ap-4; 1e21 ].
Proof. split; vm_compute; reflexivity. Qed.

(** The identifier made of the draws 7, 7, 7, ... *)
Lemma generateUUID_sample :
  UUID.isV4 (UUID.generateUUID Sample.sevens) = true
  /\ UUID.holdingIdSchema (UUID.generateUUID Sample.sevens) = true.
Proof.
  apply (generateUUID_is_valid_v4 Sample.sevens).
  intros k. unfold Sample.sevens. lia.
Defined.



(** C7 as the specification states it fails: a missing [rsi] parses to no
    [rsi], a text that is no number to [NaN], neither to 0, and a missing
    [updated_at] parses to the time of the parsing, not to the empty
    string. *)
Lemma missing_rsi_and_timestamp :
  Holding.rsi (parseHoldingFromRow Sample.now []) = None
  /\ Holding.rsi (parseHoldingFromRow Sample.now
                    [ Sample.idA; "A"; "A"; "tech"; "1"; "1"; "1"; "1"; "n/a" ])
     = Some nan
  /\ Holding.updated_at (parseHoldingFromRow Sample.now []) = Sample.now.
Proof. repeat split. Qed.

(** The defaults at the empty row. *)
Lemma parseHoldingFromRow_sample :
  Holding.qty (parseHoldingFromRow Sample.now []) = 0.
Proof.
  apply (parseHoldingFromRow_defaults Sample.now []). reflexivity.
Defined.

(** C6. The deletion of an identifier that is not stored succeeds and removes
    the row of another holding. The service starts on five holdings and
    deletes the first. The row cache keeps the old rows of the others, so
    the deletion of the second removes the third. The third is then not
    stored, and is still in the row cache, at row 4: its deletion ends
    without an error and removes row 4, the row of the fifth. *)
Theorem delete_of_absent_id_removes_another_row :
  Sample.firstColumn Sample.afterB
  = [ Some "id"; Some Sample.idB; Some Sample.idD; Some Sample.idE ]
  /\ ~ ServiceSpec.stored Sample.idC (default [] (spreadsheet Sample.afterB !! MF_STOCKS))
  /\ holdingsRowMap Sample.afterB !! Sample.idC = Some 4%nat
  /\ fst (deleteHolding Sample.idC Sample.afterB) = Ok tt
  /\ Sample.firstColumn (snd (deleteHolding Sample.idC Sample.afterB))
     = [ Some "id"; Some Sample.idB; Some Sample.idD ]
  /\ last (calls (snd (deleteHolding Sample.idC Sample.afterB)))
     = Some (DeleteRows "MF & Stocks" 3 4).
Proof.
  split; [vm_compute; reflexivity|].
  split.
  { intros (i & row & Hi & Hrow & Hid).
    do 4 (destruct i as [|i];
          [try lia; vm_compute in Hrow; injection Hrow as <-; discriminate Hid|]).
    vm_compute in Hrow. destruct i; discriminate Hrow. }
  repeat split; vm_compute; reflexivity.
Qed.

(** The value of the first holding after an update of its quantity. *)
Lemma value_is_qty_times_price_sample :
  Holding.value Sample.updatedHolding
  = Holding.qty Sample.updatedHolding * Holding.current_price Sample.updatedHolding.
Proof.
  apply (value_is_qty_times_price Store.decimalText Sample.now Sample.idA Sample.sevens
           Sample.payload Sample.moreQty Sample.listed)
    with (w' := snd Sample.updated); reflexivity.
Defined.

(** The sample payload reads back after its creation. *)
Lemma created_holding_reads_back_sample :
  exists h w1 hs w2,
    addHolding Store.decimalText Sample.now Sample.sevens Sample.payload Sample.started
    = (Ok h, w1)
    /\ getHoldings Sample.now w1 = (Ok hs, w2)
    /\ last hs = Some (ServiceSpec.readBack h)
    /\ Holding.id h = UUID.generateUUID Sample.sevens
    /\ Holding.updated_at h = Sample.now
    /\ Holding.symbol h = NewHolding.symbol Sample.payload
    /\ Holding.name h = NewHolding.name Sample.payload
    /\ Holding.sector h = NewHolding.sector Sample.payload
    /\ Holding.qty h = NewHolding.qty Sample.payload
    /\ Holding.avg_price h = NewHolding.avg_price Sample.payload
    /\ Holding.current_price h = NewHolding.current_price Sample.payload
    /\ Holding.value h
       = NewHolding.qty Sample.payload * NewHolding.current_price Sample.payload
    /\ Holding.rsi h = NewHolding.rsi Sample.payload
    /\ Holding.allocation_pct h = NewHolding.allocation_pct Sample.payload
    /\ Holding.notes h = NewHolding.notes Sample.payload.
Proof.
  apply (created_holding_reads_back Store.decimalText Sample.now Sample.now Sample.sevens
           Sample.payload Sample.started
           [ Sample.header; Sample.row Sample.idA "A" "tech" "1" ]).
  - vm_compute. reflexivity.
  - vm_compute. reflexivity.
  - vm_compute. reflexivity.
  - unfold ServiceSpec.faithful, ServiceSpec.parsesBack.
    do 5 (split; [vm_compute; reflexivity|]).
    intros x Hx. injection Hx as <-. vm_compute. reflexivity.
  - reflexivity.
  - intros H. discriminate H.
  - reflexivity.
Defined.

(** C9 as the specification states it fails: a valid payload with the [rsi] 0
    and no notes is created with that [rsi] and without notes, and reads
    back from the listing without [rsi] and with the empty string as its
    notes. *)
Lemma zero_rsi_does_not_read_back :
  Validation.createHoldingSchema Sample.zeroRsi = true
  /\ (Holding.rsi <$> fst_ok Sample.createdZero) = Some (Some 0)
  /\ (Holding.rsi <$> last (default [] (fst_ok (getHoldings Sample.now (snd Sample.createdZero)))))
     = Some None
  /\ (Holding.notes <$> fst_ok Sample.createdZero) = Some None
  /\ (Holding.notes <$> last (default [] (fst_ok (getHoldings Sample.now (snd Sample.createdZero)))))
     = Some (Some EmptyString).
Proof. repeat split; vm_compute; reflexivity. Qed.

End Instances.

(** ** The further properties at the sample data *)

Section MoreInstances.
Local Open Scope float_scope.

Lemma getHoldings_lists_rows_with_id_sample :
  exists hs w',
    getHoldings Sample.now Book.opened = (Ok hs, w')
    /\ hs = map (parseHoldingFromRow Sample.now)
              (List.filter ServiceTerms.hasId (tail Book.holdingRows))
    /\ Forall (fun h => JS.truthy_str (Holding.id h) = true) hs
    /\ (length hs <= length Book.holdingRows - 1)%nat
    /\ ((length Book.holdingRows <= 1)%nat ->
        hs = [] /\ holdingsRowMap w' = holdingsRowMap Book.opened).
Proof.
  apply (getHoldings_lists_rows_with_id Sample.now Book.opened Book.holdingRows).
  reflexivity.
Defined.

(** After a listing the identifier of the second holding is in the row
    cache, at the row of a holding with that identifier. *)
Lemma getHoldings_row_cache_sample :
  exists j row',
    (1 <= j)%nat /\ Book.holdingRows !! j = Some row' /\ row' !! 0%nat = Some Sample.idB
    /\ holdingsRowMap (snd (getHoldings Sample.now Book.opened)) !! Sample.idB = Some (S j).
Proof.
  destruct (getHoldings_row_cache Sample.now Book.opened Book.holdingRows eq_refl)
    as (Hlisted & _ & _).
  apply (Hlisted 2%nat (Sample.row Sample.idB "B" "bonds" "300") Sample.idB);
    [lia|reflexivity|reflexivity|reflexivity].
Defined.

(** The update of the sample rewrites the row of the first holding. *)
Lemma updateHolding_rewrites_one_row_sample :
  exists n rows currentRow,
    spreadsheet Sample.listed !! MF_STOCKS = Some rows
    /\ rows !! n = Some currentRow
    /\ holdingsRowMap (snd Sample.updated) !! Sample.idA = Some (S n)
    /\ spreadsheet (snd Sample.updated)
       = <[MF_STOCKS :=
             <[n := map (Store.stored Store.decimalText)
                      (holdingToRowValues Sample.updatedHolding)]> rows]>
           (spreadsheet Sample.listed)
    /\ Sample.updatedHolding
       = ServiceTerms.updatedRecord Sample.now Sample.idA Sample.moreQty currentRow
    /\ Holding.id Sample.updatedHolding = Sample.idA
    /\ Holding.updated_at Sample.updatedHolding = Sample.now
    /\ (HoldingUpdates.qty Sample.moreQty = None ->
        HoldingUpdates.current_price Sample.moreQty = None ->
        Holding.value Sample.updatedHolding
        = default (Holding.value (parseHoldingFromRow Sample.now currentRow))
            (HoldingUpdates.value Sample.moreQty))
    /\ (forall rows', spreadsheet (snd Sample.updated) !! MF_STOCKS = Some rows' ->
          length rows' = length rows
          /\ forall j, j <> n -> rows' !! j = rows !! j).
Proof.
  apply (updateHolding_rewrites_one_row Store.decimalText Sample.now Sample.idA Sample.moreQty
           Sample.listed (snd Sample.updated) Sample.updatedHolding).
  vm_compute. reflexivity.
Defined.

(** After the two deletions of the sample the row cache has the fifth
    holding at row 6 of a table of four rows: its update fails. *)
Lemma updateHolding_row_gone_sample :
  updateHolding Store.decimalText Sample.now Sample.idE Sample.moreQty Sample.afterB
  = (Err (HoldingNotFoundInRow Sample.idE 6),
     World (spreadsheet Sample.afterB) (holdingsRowMap Sample.afterB)
           (calls Sample.afterB ++ [ValuesGetRow MF_STOCKS 6])).
Proof.
  apply (updateHolding_row_gone Store.decimalText Sample.now Sample.idE Sample.moreQty
           Sample.afterB
           [ Sample.header; Sample.row Sample.idB "B" "tech" "1";
             Sample.row Sample.idD "D" "tech" "1"; Sample.row Sample.idE "E" "tech" "1" ]
           5).
  - vm_compute. reflexivity.
  - vm_compute. reflexivity.
  - exact I.
Defined.

Lemma updateHolding_fresh_finds_stored_sample :
  exists h w' j current,
    updateHolding Store.decimalText Sample.now Sample.idB Sample.moreQty Book.opened
    = (Ok h, w')
    /\ (1 <= j)%nat /\ Book.holdingRows !! j = Some current
    /\ current !! 0%nat = Some Sample.idB
    /\ h = ServiceTerms.updatedRecord Sample.now Sample.idB Sample.moreQty current
    /\ spreadsheet w'
       = <[MF_STOCKS :=
             <[j := map (Store.stored Store.decimalText) (holdingToRowValues h)]>
               Book.holdingRows]>
           (spreadsheet Book.opened)
    /\ calls w'
       = calls Book.opened
         ++ [ValuesGet MF_STOCKS; ValuesGetRow MF_STOCKS (S j);
             ValuesUpdate MF_STOCKS (S j) (holdingToRowValues h)]
    /\ ((forall k row', (1 <= k)%nat -> Book.holdingRows !! k = Some row' ->
           row' !! 0%nat = Some Sample.idB -> k = 2%nat) -> j = 2%nat).
Proof.
  apply (updateHolding_fresh_finds_stored Store.decimalText Sample.now Sample.idB
           Sample.moreQty Book.opened Book.holdingRows 2
           (Sample.row Sample.idB "B" "bonds" "300"));
    [reflexivity|reflexivity|lia|reflexivity|reflexivity|reflexivity].
Defined.

Lemma deleteHolding_fresh_removes_row_sample :
  exists w' j gone,
    deleteHolding Sample.idB Book.opened = (Ok tt, w')
    /\ (1 <= j)%nat /\ Book.holdingRows !! j = Some gone /\ gone !! 0%nat = Some Sample.idB
    /\ spreadsheet w'
       = <[MF_STOCKS := take j Book.holdingRows ++ drop (S j) Book.holdingRows]>
           (spreadsheet Book.opened)
    /\ length (take j Book.holdingRows ++ drop (S j) Book.holdingRows)
       = (length Book.holdingRows - 1)%nat
    /\ (forall k, (take j Book.holdingRows ++ drop (S j) Book.holdingRows) !! k
                  = if (k <? j)%nat then Book.holdingRows !! k
                    else Book.holdingRows !! (S k))
    /\ holdingsRowMap w' !! Sample.idB = None
    /\ calls w'
       = calls Book.opened
         ++ [ValuesGet MF_STOCKS; SpreadsheetGet; DeleteRows "MF & Stocks" j (S j)]
    /\ ((forall k row', (1 <= k)%nat -> Book.holdingRows !! k = Some row' ->
           row' !! 0%nat = Some Sample.idB -> k = 2%nat) -> j = 2%nat).
Proof.
  apply (deleteHolding_fresh_removes_row Sample.idB Book.opened Book.holdingRows 2
           (Sample.row Sample.idB "B" "bonds" "300"));
    [reflexivity|reflexivity|lia|reflexivity|reflexivity|reflexivity].
Defined.

Lemma deleteHolding_twice_fails_sample :
  exists w1 w2,
    deleteHolding Sample.idB Book.opened = (Ok tt, w1)
    /\ spreadsheet w1 !! MF_STOCKS
       = Some (take 2 Book.holdingRows ++ drop 3 Book.holdingRows)
    /\ deleteHolding Sample.idB w1 = (Err (HoldingNotFound Sample.idB), w2)
    /\ updateHolding Store.decimalText Sample.now Sample.idB Sample.moreQty w1
       = (Err (HoldingNotFound Sample.idB), w2)
    /\ spreadsheet w2 = spreadsheet w1.
Proof.
  apply (deleteHolding_twice_fails Store.decimalText Sample.now Sample.idB Sample.moreQty
           Book.opened Book.holdingRows 2 (Sample.row Sample.idB "B" "bonds" "300"));
    [reflexivity|reflexivity|lia|reflexivity|reflexivity|reflexivity|].
  intros k row' Hk Hrow Hid.
  destruct k as [|[|[|k]]]; [lia| |reflexivity|discriminate Hrow].
  vm_compute in Hrow. injection Hrow as <-. discriminate Hid.
Defined.

(** The rows of the sample: the row without a sector is skipped and the
    target that is no number is listed as 0. *)
Lemma getIdealAllocation_entries_sample :
  exists ideals,
    getIdealAllocation Book.opened
    = (Ok ideals, ServiceTerms.afterGet IDEAL_ALLOCATION Book.opened)
    /\ ideals
       = [ {| IdealAllocation.sector := "tech"; IdealAllocation.target_pct := 60 |};
           {| IdealAllocation.sector := "bonds"; IdealAllocation.target_pct := 40 |};
           {| IdealAllocation.sector := "cash"; IdealAllocation.target_pct := 0 |} ].
Proof.
  destruct (getIdealAllocation_entries Book.opened Book.idealRows eq_refl)
    as (ideals & Hrun & Hideals & _).
  exists ideals. split; [exact Hrun|]. rewrite Hideals. vm_compute. reflexivity.
Defined.

Lemma getMonthlyGrowth_entries_sample :
  exists growth,
    getMonthlyGrowth String.compare Book.opened
    = (Ok growth, ServiceTerms.afterGet MONTHLY_GROWTH Book.opened)
    /\ Permutation growth [ Sample.entry "2026-02" 20; Sample.entry "2025-12" (-5) ].
Proof.
  destruct (getMonthlyGrowth_entries String.compare Book.opened Book.growthRows eq_refl)
    as (growth & Hrun & Hperm & _).
  exists growth. split; [exact Hrun|exact Hperm].
Defined.

Lemma getSnapshots_entries_sample :
  exists snapshots,
    getSnapshots String.compare Book.opened
    = (Ok snapshots, ServiceTerms.afterGet SNAPSHOT Book.opened)
    /\ Permutation snapshots
         [ {| Snapshot.date := "2026-10-01"; Snapshot.sector := "tech";
              Snapshot.actual_pct := 50; Snapshot.target_pct := 60;
              Snapshot.variance := -10; Snapshot.total_value := 800 |} ].
Proof.
  destruct (getSnapshots_entries String.compare Book.opened Book.snapshotRows eq_refl)
    as (snapshots & Hrun & Hperm & _).
  exists snapshots. split; [exact Hrun|exact Hperm].
Defined.

Lemma added_growth_is_listed_sample :
  exists before w0 w1 after w2,
    getMonthlyGrowth String.compare Book.opened = (Ok before, w0)
    /\ addMonthlyGrowth Store.decimalText Book.march Book.opened = (Ok Book.march, w1)
    /\ getMonthlyGrowth String.compare w1 = (Ok after, w2)
    /\ Permutation after (Book.march :: before)
    /\ spreadsheet w1 !! MONTHLY_GROWTH
       = Some (Book.growthRows
               ++ [[ MonthlyGrowth.month Book.march; MonthlyGrowth.account Book.march;
                     Store.decimalText (MonthlyGrowth.pnl Book.march) ]]).
Proof.
  apply (added_growth_is_listed Store.decimalText String.compare Book.march Book.opened
           Book.growthRows);
    [reflexivity|vm_compute; reflexivity|reflexivity|reflexivity|discriminate].
Defined.

Lemma created_snapshots_are_listed_sample :
  exists before w0 after w2,
    getSnapshots String.compare Book.opened = (Ok before, w0)
    /\ getSnapshots String.compare (snd Book.snapshotRun) = (Ok after, w2)
    /\ Permutation after (default [] (fst_ok Book.snapshotRun) ++ before).
Proof.
  apply (created_snapshots_are_listed Store.decimalText String.compare Sample.now
           Book.opened (snd Book.snapshotRun) (default [] (fst_ok Book.snapshotRun))
           Book.snapshotRows).
  - vm_compute. reflexivity.
  - reflexivity.
  - discriminate.
  - reflexivity.
  - let l := eval vm_compute in (default [] (fst_ok Book.snapshotRun)) in
    change (Forall (ServiceTerms.snapshotReadsBack Store.decimalText) l).
    repeat (apply List.Forall_cons; [repeat split; vm_compute; reflexivity|]).
    apply List.Forall_nil.
Defined.

Lemma unknown_holding_is_answered_500_sample :
  Routes.deleteHoldingRoute "production" Sample.now "invalid" Sample.uuid Sample.idNew
    Sample.created
  = (Routes.Refused
       {| Middleware.status := 500;
          Middleware.body :=
            {| ApiError.error := "Internal Server Error";
               ApiError.message := "An unexpected error occurred";
               ApiError.timestamp := Sample.now |} |},
     Sample.created).
Proof.
  apply (unknown_holding_is_answered_500 Store.decimalText "production" Sample.now "invalid"
           Sample.uuid (fun id H => orb_true_intro _ _ (or_introl H))
           Sample.now Sample.idNew HoldingUpdates.none HoldingUpdates.none
           Sample.created Sample.created Sample.created).
  - reflexivity.
  - vm_compute. reflexivity.
Defined.

Lemma generateUUID_same_id_same_draws_sample :
  (UUID.generateUUID Sample.sevens = UUID.generateUUID Book.threes
   <-> Forall (fun k => Sample.sevens k = Book.threes k) UUIDSpec.xDraws
       /\ Z.land (Sample.sevens UUIDSpec.yDraw) 3 = Z.land (Book.threes UUIDSpec.yDraw) 3)
  /\ String.length (UUID.generateUUID Sample.sevens) = 36%nat.
Proof.
  apply (generateUUID_same_id_same_draws Sample.sevens Book.threes).
  - intros k. unfold Sample.sevens. lia.
  - intros k. unfold Book.threes. lia.
Defined.

Lemma growth_listed_in_calendar_order_sample :
  exists growth w',
    getMonthlyGrowth String.compare Book.opened = (Ok growth, w')
    /\ StronglySorted
         (fun a b =>
            MonthSpec.chronological (MonthlyGrowth.month a) (MonthlyGrowth.month b) <> Gt)
         growth
    /\ (forall a b, Validation.isMonth a = true -> Validation.isMonth b = true ->
          String.compare a b = MonthSpec.chronological a b).
Proof.
  apply (growth_listed_in_calendar_order String.compare Book.opened Book.growthRows).
  - reflexivity.
  - intros row [<-|[<-|[<-|[]]]]; intros H; try reflexivity; discriminate H.
  - reflexivity.
Defined.

Lemma listed_holding_is_found_sample :
  exists j current,
    (1 <= j)%nat /\ Book.holdingRows !! j = Some current
    /\ current !! 0%nat = Some Sample.idB
    /\ holdingsRowMap (snd (getHoldings Sample.now Book.opened)) !! Sample.idB = Some (S j).
Proof.
  destruct (listed_holding_is_found Store.decimalText Sample.now Sample.now Sample.idB
              Sample.moreQty Book.opened Book.holdingRows 2
              (Sample.row Sample.idB "B" "bonds" "300"))
    as (j & current & Hj & Hcur & Hid & Hcache & _);
    [reflexivity|lia|reflexivity|reflexivity|reflexivity|].
  exists j, current. auto.
Defined.

(** [parseInt] and the replacement of the escaped line feeds, on samples. *)
Example parseInt_samples :
  Config.parseInt "900000" = 900000%float
  /\ Config.parseInt " 60s" = 60%float
  /\ Config.parseInt "0x1F" = 31%float
  /\ Config.parseInt "-12.9" = (-12)%float
  /\ PrimFloat.is_nan (Config.parseInt "fast") = true
  /\ Config.unescapeNewlines "a\nb\\nc" = String "a" (String "010" (String "b" (String "\" (String "010" "c")))).
Proof. repeat split; vm_compute; reflexivity. Qed.

End MoreInstances.
